(** * proxmox-tui: the cluster aggregator, the guest enricher and the guest list

    A shallow embedding of [pkg/api/cluster.go] (the version with the storage
    manager and the fast build), [pkg/api/vm.go] and
    [internal/ui/components/vm_list.go], followed by the properties of the
    data plane that the specification states about them and by further
    properties of the same functions.

    Conventions of the embedding.
    - A Go [string] is a byte string: [String.string]; [len] is
      [String.length].
    - [int] and [int64] are [Z]; arithmetic on [int64] wraps with [wrap64].
    - [float64] is the kernel's binary64 type [float].
    - A value decoded by [encoding/json] into [interface{}] is a [JSON] tree;
      a [map[string]interface{}] is the list of its entries, in the order in
      which a [range] loop visits them (Go leaves that order unspecified, so a
      property proved for every list holds for every run).
    - A slice is a list; the code never tells a nil slice from an empty one.
      A [map[string]bool] that is only ever assigned [true] is an optional
      finite set, [None] being the nil map.
    - A pointer to a struct that has a single owner ([cluster.Nodes[i]],
      [node.VMs[i]]) is the struct itself; a method that mutates its receiver
      returns the new value.
    - Goroutines that each own one node or one guest are run in slice order:
      they touch disjoint structs and the error collector only counts. *)

From Stdlib Require Import ZArith Lia Bool Ascii String List Permutation Sorted.
From Stdlib Require Import Floats.PrimFloat Floats.SpecFloat Floats.FloatOps Uint63.
From stdpp Require Import base gmap strings list.
Import ListNotations.

Local Open Scope string_scope.
Local Open Scope Z_scope.
Local Open Scope list_scope.

(** ** Go's [strings] package on byte strings *)

Module strings.

(** [strings.HasPrefix(s, prefix)] *)
Fixpoint HasPrefix (s p : string) {struct p} : bool :=
  match p with
  | EmptyString => true
  | String b p' =>
      match s with
      | EmptyString => false
      | String a s' => Ascii.eqb a b && HasPrefix s' p'
      end
  end.

(** [strings.Contains(s, substr)] *)
Fixpoint Contains (s sub : string) : bool :=
  HasPrefix s sub ||
  match s with
  | EmptyString => false
  | String _ s' => Contains s' sub
  end.

(** [strings.Count(s, sep)] for a separator of one byte. *)
Fixpoint Count (s : string) (sep : ascii) : nat :=
  match s with
  | EmptyString => O
  | String a s' => ((if Ascii.eqb a sep then 1 else 0) + Count s' sep)%nat
  end.

(** [strings.Split(s, sep)] for a separator of one byte: one more part than
    there are separators, so the empty string splits into one empty part. *)
Fixpoint Split (s : string) (sep : ascii) : list string :=
  match s with
  | EmptyString => [EmptyString]
  | String a s' =>
      if Ascii.eqb a sep then EmptyString :: Split s' sep
      else match Split s' sep with
           | h :: t => String a h :: t
           | [] => [String a EmptyString]
           end
  end.

(** [strings.Index(s, sep)] for a separator of one byte; [-1] when absent. *)
Fixpoint Index (s : string) (sep : ascii) : Z :=
  match s with
  | EmptyString => -1
  | String a s' =>
      if Ascii.eqb a sep then 0
      else let i := Index s' sep in if i <? 0 then -1 else i + 1
  end.

(** The slice expressions [s[:n]] and [s[n:]] for [0 <= n <= len(s)]. *)
Definition take (n : nat) (s : string) : string := String.substring 0 n s.
Fixpoint drop (n : nat) (s : string) : string :=
  match n, s with
  | O, _ => s
  | S n', String _ s' => drop n' s'
  | S _, EmptyString => EmptyString
  end.

(** [strings.SplitN(s, sep, 2)] for a separator of one byte. *)
Definition SplitN2 (s : string) (sep : ascii) : list string :=
  let i := Index s sep in
  if i <? 0 then [s] else [take (Z.to_nat i) s; drop (S (Z.to_nat i)) s].

(** [strings.TrimPrefix(s, prefix)] *)
Definition TrimPrefix (s p : string) : string :=
  if HasPrefix s p then drop (String.length p) s else s.

Definition upperByte (a : ascii) : ascii :=
  let n := nat_of_ascii a in
  if ((97 <=? n) && (n <=? 122))%nat then ascii_of_nat (n - 32) else a.

Definition lowerByte (a : ascii) : ascii :=
  let n := nat_of_ascii a in
  if ((65 <=? n) && (n <=? 90))%nat then ascii_of_nat (n + 32) else a.

Fixpoint mapBytes (f : ascii -> ascii) (s : string) : string :=
  match s with
  | EmptyString => EmptyString
  | String a s' => String (f a) (mapBytes f s')
  end.

(** [strings.ToUpper] and [strings.ToLower] as they act on ASCII text (the
    library's fast path): the letters a-z and A-Z are exchanged, every other
    byte is kept.  On text with a byte above 127 the library maps runes, which
    can change the length; the model covers ASCII text only, which is what a
    MAC address and a mountpoint prefix such as [c:] are. *)
Definition ToUpper : string -> string := mapBytes upperByte.
Definition ToLower : string -> string := mapBytes lowerByte.

(** No byte of [s] is an ASCII lower-case letter. *)
Fixpoint isUpper (s : string) : bool :=
  match s with
  | EmptyString => true
  | String a s' =>
      let n := nat_of_ascii a in
      negb ((97 <=? n) && (n <=? 122))%nat && isUpper s'
  end.

End strings.

(** ** Numbers *)

(** Two's-complement wrap-around of [int64]. *)
Definition wrap64 (z : Z) : Z := (z + 2 ^ 63) mod 2 ^ 64 - 2 ^ 63.

Definition add64 (a b : Z) : Z := wrap64 (a + b).

(** The sum of a list of [int64] values, accumulated as a Go loop does. *)
Definition sum64 (l : list Z) : Z := fold_left add64 l 0.

(** The conversion [int64(f)] of a [float64]: the fraction is discarded
    (truncation towards zero).  For NaN, the infinities and values outside the
    range of [int64] Go leaves the result to the implementation; the model
    returns the smallest [int64], as amd64 does. *)
Definition int64_of_float (f : float) : Z :=
  match Prim2SF f with
  | S754_zero _ => 0
  | S754_finite s m e =>
      let mag := match e with
                 | Z0 => Zpos m
                 | Zpos p => Z.shiftl (Zpos m) (Zpos p)
                 | Zneg p => Z.shiftr (Zpos m) (Zpos p)
                 end in
      let v := if s then - mag else mag in
      if (- 2 ^ 63 <=? v) && (v <? 2 ^ 63) then v else - 2 ^ 63
  | _ => - 2 ^ 63
  end.

(** The conversion [float64(n)] of a non-negative [int] below [2^63]. *)
Definition float_of_int (n : Z) : float := PrimFloat.of_uint63 (Uint63.of_Z n).

(** The sum of a list of [float64] values, accumulated from zero in list
    order. *)
Definition fsum (l : list float) : float := fold_left PrimFloat.add l 0%float.

(** ** Decoded JSON *)

Set Warnings "-register-all".

Inductive JSON : Type :=
| JNull
| JBool (b : bool)
| JNumber (f : float)
| JString (s : string)
| JArray (l : list JSON)
| JObject (m : list (string * JSON)).

(** A [map[string]interface{}]. *)
Abbreviation JMap := (list (string * JSON)).

(** [m[key]] with the comma-ok form. *)
Fixpoint jlookup (m : JMap) (key : string) : option JSON :=
  match m with
  | [] => None
  | (k, v) :: m' => if String.eqb k key then Some v else jlookup m' key
  end.

(** ** Errors *)

Inductive error : Type :=
| ErrTransport (msg : string)
| ErrMsg (msg : string)
| ErrWrap (context : string) (cause : error)
| ErrNodeOffline (node : string) (cause : error)
| ErrAllNodesUnreachable (errors : nat)
| ErrVMStatuses (errors : list error).

(** ** The data model *)

(** An address reported for a guest interface. *)
Module IPAddress.

Record t : Type := mk {
  Address : string;
  Type_ : string;
  Prefix : Z
}.

End IPAddress.

(** A guest network interface, as the guest agent or the LXC interface list reports it. *)
Module NetworkInterface.

Record t : Type := mk {
  Name : string;
  MACAddress : string;
  IPAddresses : list IPAddress.t;
  IsLoopback : bool
}.

Definition set_IPAddresses (v : list IPAddress.t) (x : t) : t :=
  mk (Name x) (MACAddress x) v (IsLoopback x).

End NetworkInterface.

(** Filesystem information from the QEMU guest agent. *)
Module Filesystem.

Record t : Type := mk {
  Name : string;
  Mountpoint : string;
  Type_ : string;
  TotalBytes : Z;
  UsedBytes : Z;
  Device : string;
  IsRoot : bool;
  IsSystemDrive : bool
}.

Definition set_Name (v : string) (x : t) : t :=
  mk v (Mountpoint x) (Type_ x) (TotalBytes x) (UsedBytes x) (Device x) (IsRoot x) (IsSystemDrive x).

Definition set_Mountpoint (v : string) (x : t) : t :=
  mk (Name x) v (Type_ x) (TotalBytes x) (UsedBytes x) (Device x) (IsRoot x) (IsSystemDrive x).

Definition set_IsRoot (v : bool) (x : t) : t :=
  mk (Name x) (Mountpoint x) (Type_ x) (TotalBytes x) (UsedBytes x) (Device x) v (IsSystemDrive x).

Definition set_IsSystemDrive (v : bool) (x : t) : t :=
  mk (Name x) (Mountpoint x) (Type_ x) (TotalBytes x) (UsedBytes x) (Device x) (IsRoot x) v.

Definition set_Type_ (v : string) (x : t) : t :=
  mk (Name x) (Mountpoint x) v (TotalBytes x) (UsedBytes x) (Device x) (IsRoot x) (IsSystemDrive x).

Definition set_TotalBytes (v : Z) (x : t) : t :=
  mk (Name x) (Mountpoint x) (Type_ x) v (UsedBytes x) (Device x) (IsRoot x) (IsSystemDrive x).

Definition set_UsedBytes (v : Z) (x : t) : t :=
  mk (Name x) (Mountpoint x) (Type_ x) (TotalBytes x) v (Device x) (IsRoot x) (IsSystemDrive x).

Definition set_Device (v : string) (x : t) : t :=
  mk (Name x) (Mountpoint x) (Type_ x) (TotalBytes x) (UsedBytes x) v (IsRoot x) (IsSystemDrive x).

End Filesystem.

(** A storage entry of [/cluster/resources]. *)
Module Storage.

Record t : Type := mk {
  ID : string;
  Name : string;
  Content : string;
  Disk : Z;
  MaxDisk : Z;
  Node : string;
  Plugintype : string;
  Status : string;
  Shared : Z;
  Type_ : string
}.

End Storage.

(** A Proxmox VM or container (the mutex is not modelled). *)
Module VM.

Record t : Type := mk {
  ID : Z;
  Name : string;
  Node : string;
  Type_ : string;
  Status : string;
  IP : string;
  CPU : float;
  Mem : Z;
  MaxMem : Z;
  Disk : Z;
  MaxDisk : Z;
  Uptime : Z;
  DiskRead : Z;
  DiskWrite : Z;
  NetIn : Z;
  NetOut : Z;
  HAState : string;
  Lock : string;
  Tags : string;
  Template : bool;
  Pool : string;
  AgentEnabled : bool;
  AgentRunning : bool;
  NetInterfaces : list NetworkInterface.t;
  Filesystems : list Filesystem.t;
  ConfiguredMACs : option (gset string);
  Enriched : bool
}.

Definition set_Name (v : string) (x : t) : t :=
  mk (ID x) v (Node x) (Type_ x) (Status x) (IP x) (CPU x) (Mem x) (MaxMem x) (Disk x) (MaxDisk x) (Uptime x) (DiskRead x) (DiskWrite x) (NetIn x) (NetOut x) (HAState x) (Lock x) (Tags x) (Template x) (Pool x) (AgentEnabled x) (AgentRunning x) (NetInterfaces x) (Filesystems x) (ConfiguredMACs x) (Enriched x).

Definition set_Status (v : string) (x : t) : t :=
  mk (ID x) (Name x) (Node x) (Type_ x) v (IP x) (CPU x) (Mem x) (MaxMem x) (Disk x) (MaxDisk x) (Uptime x) (DiskRead x) (DiskWrite x) (NetIn x) (NetOut x) (HAState x) (Lock x) (Tags x) (Template x) (Pool x) (AgentEnabled x) (AgentRunning x) (NetInterfaces x) (Filesystems x) (ConfiguredMACs x) (Enriched x).

Definition set_IP (v : string) (x : t) : t :=
  mk (ID x) (Name x) (Node x) (Type_ x) (Status x) v (CPU x) (Mem x) (MaxMem x) (Disk x) (MaxDisk x) (Uptime x) (DiskRead x) (DiskWrite x) (NetIn x) (NetOut x) (HAState x) (Lock x) (Tags x) (Template x) (Pool x) (AgentEnabled x) (AgentRunning x) (NetInterfaces x) (Filesystems x) (ConfiguredMACs x) (Enriched x).

Definition set_CPU (v : float) (x : t) : t :=
  mk (ID x) (Name x) (Node x) (Type_ x) (Status x) (IP x) v (Mem x) (MaxMem x) (Disk x) (MaxDisk x) (Uptime x) (DiskRead x) (DiskWrite x) (NetIn x) (NetOut x) (HAState x) (Lock x) (Tags x) (Template x) (Pool x) (AgentEnabled x) (AgentRunning x) (NetInterfaces x) (Filesystems x) (ConfiguredMACs x) (Enriched x).

Definition set_Mem (v : Z) (x : t) : t :=
  mk (ID x) (Name x) (Node x) (Type_ x) (Status x) (IP x) (CPU x) v (MaxMem x) (Disk x) (MaxDisk x) (Uptime x) (DiskRead x) (DiskWrite x) (NetIn x) (NetOut x) (HAState x) (Lock x) (Tags x) (Template x) (Pool x) (AgentEnabled x) (AgentRunning x) (NetInterfaces x) (Filesystems x) (ConfiguredMACs x) (Enriched x).

Definition set_MaxMem (v : Z) (x : t) : t :=
  mk (ID x) (Name x) (Node x) (Type_ x) (Status x) (IP x) (CPU x) (Mem x) v (Disk x) (MaxDisk x) (Uptime x) (DiskRead x) (DiskWrite x) (NetIn x) (NetOut x) (HAState x) (Lock x) (Tags x) (Template x) (Pool x) (AgentEnabled x) (AgentRunning x) (NetInterfaces x) (Filesystems x) (ConfiguredMACs x) (Enriched x).

Definition set_Disk (v : Z) (x : t) : t :=
  mk (ID x) (Name x) (Node x) (Type_ x) (Status x) (IP x) (CPU x) (Mem x) (MaxMem x) v (MaxDisk x) (Uptime x) (DiskRead x) (DiskWrite x) (NetIn x) (NetOut x) (HAState x) (Lock x) (Tags x) (Template x) (Pool x) (AgentEnabled x) (AgentRunning x) (NetInterfaces x) (Filesystems x) (ConfiguredMACs x) (Enriched x).

Definition set_MaxDisk (v : Z) (x : t) : t :=
  mk (ID x) (Name x) (Node x) (Type_ x) (Status x) (IP x) (CPU x) (Mem x) (MaxMem x) (Disk x) v (Uptime x) (DiskRead x) (DiskWrite x) (NetIn x) (NetOut x) (HAState x) (Lock x) (Tags x) (Template x) (Pool x) (AgentEnabled x) (AgentRunning x) (NetInterfaces x) (Filesystems x) (ConfiguredMACs x) (Enriched x).

Definition set_Uptime (v : Z) (x : t) : t :=
  mk (ID x) (Name x) (Node x) (Type_ x) (Status x) (IP x) (CPU x) (Mem x) (MaxMem x) (Disk x) (MaxDisk x) v (DiskRead x) (DiskWrite x) (NetIn x) (NetOut x) (HAState x) (Lock x) (Tags x) (Template x) (Pool x) (AgentEnabled x) (AgentRunning x) (NetInterfaces x) (Filesystems x) (ConfiguredMACs x) (Enriched x).

Definition set_DiskRead (v : Z) (x : t) : t :=
  mk (ID x) (Name x) (Node x) (Type_ x) (Status x) (IP x) (CPU x) (Mem x) (MaxMem x) (Disk x) (MaxDisk x) (Uptime x) v (DiskWrite x) (NetIn x) (NetOut x) (HAState x) (Lock x) (Tags x) (Template x) (Pool x) (AgentEnabled x) (AgentRunning x) (NetInterfaces x) (Filesystems x) (ConfiguredMACs x) (Enriched x).

Definition set_DiskWrite (v : Z) (x : t) : t :=
  mk (ID x) (Name x) (Node x) (Type_ x) (Status x) (IP x) (CPU x) (Mem x) (MaxMem x) (Disk x) (MaxDisk x) (Uptime x) (DiskRead x) v (NetIn x) (NetOut x) (HAState x) (Lock x) (Tags x) (Template x) (Pool x) (AgentEnabled x) (AgentRunning x) (NetInterfaces x) (Filesystems x) (ConfiguredMACs x) (Enriched x).

Definition set_NetIn (v : Z) (x : t) : t :=
  mk (ID x) (Name x) (Node x) (Type_ x) (Status x) (IP x) (CPU x) (Mem x) (MaxMem x) (Disk x) (MaxDisk x) (Uptime x) (DiskRead x) (DiskWrite x) v (NetOut x) (HAState x) (Lock x) (Tags x) (Template x) (Pool x) (AgentEnabled x) (AgentRunning x) (NetInterfaces x) (Filesystems x) (ConfiguredMACs x) (Enriched x).

Definition set_NetOut (v : Z) (x : t) : t :=
  mk (ID x) (Name x) (Node x) (Type_ x) (Status x) (IP x) (CPU x) (Mem x) (MaxMem x) (Disk x) (MaxDisk x) (Uptime x) (DiskRead x) (DiskWrite x) (NetIn x) v (HAState x) (Lock x) (Tags x) (Template x) (Pool x) (AgentEnabled x) (AgentRunning x) (NetInterfaces x) (Filesystems x) (ConfiguredMACs x) (Enriched x).

Definition set_Tags (v : string) (x : t) : t :=
  mk (ID x) (Name x) (Node x) (Type_ x) (Status x) (IP x) (CPU x) (Mem x) (MaxMem x) (Disk x) (MaxDisk x) (Uptime x) (DiskRead x) (DiskWrite x) (NetIn x) (NetOut x) (HAState x) (Lock x) v (Template x) (Pool x) (AgentEnabled x) (AgentRunning x) (NetInterfaces x) (Filesystems x) (ConfiguredMACs x) (Enriched x).

Definition set_Template (v : bool) (x : t) : t :=
  mk (ID x) (Name x) (Node x) (Type_ x) (Status x) (IP x) (CPU x) (Mem x) (MaxMem x) (Disk x) (MaxDisk x) (Uptime x) (DiskRead x) (DiskWrite x) (NetIn x) (NetOut x) (HAState x) (Lock x) (Tags x) v (Pool x) (AgentEnabled x) (AgentRunning x) (NetInterfaces x) (Filesystems x) (ConfiguredMACs x) (Enriched x).

Definition set_AgentEnabled (v : bool) (x : t) : t :=
  mk (ID x) (Name x) (Node x) (Type_ x) (Status x) (IP x) (CPU x) (Mem x) (MaxMem x) (Disk x) (MaxDisk x) (Uptime x) (DiskRead x) (DiskWrite x) (NetIn x) (NetOut x) (HAState x) (Lock x) (Tags x) (Template x) (Pool x) v (AgentRunning x) (NetInterfaces x) (Filesystems x) (ConfiguredMACs x) (Enriched x).

Definition set_AgentRunning (v : bool) (x : t) : t :=
  mk (ID x) (Name x) (Node x) (Type_ x) (Status x) (IP x) (CPU x) (Mem x) (MaxMem x) (Disk x) (MaxDisk x) (Uptime x) (DiskRead x) (DiskWrite x) (NetIn x) (NetOut x) (HAState x) (Lock x) (Tags x) (Template x) (Pool x) (AgentEnabled x) v (NetInterfaces x) (Filesystems x) (ConfiguredMACs x) (Enriched x).

Definition set_NetInterfaces (v : list NetworkInterface.t) (x : t) : t :=
  mk (ID x) (Name x) (Node x) (Type_ x) (Status x) (IP x) (CPU x) (Mem x) (MaxMem x) (Disk x) (MaxDisk x) (Uptime x) (DiskRead x) (DiskWrite x) (NetIn x) (NetOut x) (HAState x) (Lock x) (Tags x) (Template x) (Pool x) (AgentEnabled x) (AgentRunning x) v (Filesystems x) (ConfiguredMACs x) (Enriched x).

Definition set_Filesystems (v : list Filesystem.t) (x : t) : t :=
  mk (ID x) (Name x) (Node x) (Type_ x) (Status x) (IP x) (CPU x) (Mem x) (MaxMem x) (Disk x) (MaxDisk x) (Uptime x) (DiskRead x) (DiskWrite x) (NetIn x) (NetOut x) (HAState x) (Lock x) (Tags x) (Template x) (Pool x) (AgentEnabled x) (AgentRunning x) (NetInterfaces x) v (ConfiguredMACs x) (Enriched x).

Definition set_ConfiguredMACs (v : option (gset string)) (x : t) : t :=
  mk (ID x) (Name x) (Node x) (Type_ x) (Status x) (IP x) (CPU x) (Mem x) (MaxMem x) (Disk x) (MaxDisk x) (Uptime x) (DiskRead x) (DiskWrite x) (NetIn x) (NetOut x) (HAState x) (Lock x) (Tags x) (Template x) (Pool x) (AgentEnabled x) (AgentRunning x) (NetInterfaces x) (Filesystems x) v (Enriched x).

Definition set_Enriched (v : bool) (x : t) : t :=
  mk (ID x) (Name x) (Node x) (Type_ x) (Status x) (IP x) (CPU x) (Mem x) (MaxMem x) (Disk x) (MaxDisk x) (Uptime x) (DiskRead x) (DiskWrite x) (NetIn x) (NetOut x) (HAState x) (Lock x) (Tags x) (Template x) (Pool x) (AgentEnabled x) (AgentRunning x) (NetInterfaces x) (Filesystems x) (ConfiguredMACs x) v.

End VM.

(** The CPU description of a node. *)
Module CPUInfo.

Record t : Type := mk {
  Model : string;
  Cores : Z;
  Sockets : Z
}.

End CPUInfo.

(** A hypervisor host.  The struct is declared outside the files under
    verification; these are the fields the aggregator reads and writes. *)
Module Node.

Record t : Type := mk {
  ID : string;
  Name : string;
  IP : string;
  Online : bool;
  Version : string;
  KernelVersion : string;
  CPUCount : float;
  CPUUsage : float;
  CPUInfo : option CPUInfo.t;
  LoadAvg : list string;
  MemoryTotal : float;
  MemoryUsed : float;
  TotalStorage : Z;
  UsedStorage : Z;
  Uptime : Z;
  Storage : option Storage.t;
  VMs : list VM.t;
  lastMetricsUpdate : Z
}.

Definition set_Online (v : bool) (x : t) : t :=
  mk (ID x) (Name x) (IP x) v (Version x) (KernelVersion x) (CPUCount x) (CPUUsage x) (CPUInfo x) (LoadAvg x) (MemoryTotal x) (MemoryUsed x) (TotalStorage x) (UsedStorage x) (Uptime x) (Storage x) (VMs x) (lastMetricsUpdate x).

Definition set_Version (v : string) (x : t) : t :=
  mk (ID x) (Name x) (IP x) (Online x) v (KernelVersion x) (CPUCount x) (CPUUsage x) (CPUInfo x) (LoadAvg x) (MemoryTotal x) (MemoryUsed x) (TotalStorage x) (UsedStorage x) (Uptime x) (Storage x) (VMs x) (lastMetricsUpdate x).

Definition set_KernelVersion (v : string) (x : t) : t :=
  mk (ID x) (Name x) (IP x) (Online x) (Version x) v (CPUCount x) (CPUUsage x) (CPUInfo x) (LoadAvg x) (MemoryTotal x) (MemoryUsed x) (TotalStorage x) (UsedStorage x) (Uptime x) (Storage x) (VMs x) (lastMetricsUpdate x).

Definition set_CPUCount (v : float) (x : t) : t :=
  mk (ID x) (Name x) (IP x) (Online x) (Version x) (KernelVersion x) v (CPUUsage x) (CPUInfo x) (LoadAvg x) (MemoryTotal x) (MemoryUsed x) (TotalStorage x) (UsedStorage x) (Uptime x) (Storage x) (VMs x) (lastMetricsUpdate x).

Definition set_CPUUsage (v : float) (x : t) : t :=
  mk (ID x) (Name x) (IP x) (Online x) (Version x) (KernelVersion x) (CPUCount x) v (CPUInfo x) (LoadAvg x) (MemoryTotal x) (MemoryUsed x) (TotalStorage x) (UsedStorage x) (Uptime x) (Storage x) (VMs x) (lastMetricsUpdate x).

Definition set_CPUInfo (v : option CPUInfo.t) (x : t) : t :=
  mk (ID x) (Name x) (IP x) (Online x) (Version x) (KernelVersion x) (CPUCount x) (CPUUsage x) v (LoadAvg x) (MemoryTotal x) (MemoryUsed x) (TotalStorage x) (UsedStorage x) (Uptime x) (Storage x) (VMs x) (lastMetricsUpdate x).

Definition set_LoadAvg (v : list string) (x : t) : t :=
  mk (ID x) (Name x) (IP x) (Online x) (Version x) (KernelVersion x) (CPUCount x) (CPUUsage x) (CPUInfo x) v (MemoryTotal x) (MemoryUsed x) (TotalStorage x) (UsedStorage x) (Uptime x) (Storage x) (VMs x) (lastMetricsUpdate x).

Definition set_MemoryTotal (v : float) (x : t) : t :=
  mk (ID x) (Name x) (IP x) (Online x) (Version x) (KernelVersion x) (CPUCount x) (CPUUsage x) (CPUInfo x) (LoadAvg x) v (MemoryUsed x) (TotalStorage x) (UsedStorage x) (Uptime x) (Storage x) (VMs x) (lastMetricsUpdate x).

Definition set_MemoryUsed (v : float) (x : t) : t :=
  mk (ID x) (Name x) (IP x) (Online x) (Version x) (KernelVersion x) (CPUCount x) (CPUUsage x) (CPUInfo x) (LoadAvg x) (MemoryTotal x) v (TotalStorage x) (UsedStorage x) (Uptime x) (Storage x) (VMs x) (lastMetricsUpdate x).

Definition set_TotalStorage (v : Z) (x : t) : t :=
  mk (ID x) (Name x) (IP x) (Online x) (Version x) (KernelVersion x) (CPUCount x) (CPUUsage x) (CPUInfo x) (LoadAvg x) (MemoryTotal x) (MemoryUsed x) v (UsedStorage x) (Uptime x) (Storage x) (VMs x) (lastMetricsUpdate x).

Definition set_UsedStorage (v : Z) (x : t) : t :=
  mk (ID x) (Name x) (IP x) (Online x) (Version x) (KernelVersion x) (CPUCount x) (CPUUsage x) (CPUInfo x) (LoadAvg x) (MemoryTotal x) (MemoryUsed x) (TotalStorage x) v (Uptime x) (Storage x) (VMs x) (lastMetricsUpdate x).

Definition set_Uptime (v : Z) (x : t) : t :=
  mk (ID x) (Name x) (IP x) (Online x) (Version x) (KernelVersion x) (CPUCount x) (CPUUsage x) (CPUInfo x) (LoadAvg x) (MemoryTotal x) (MemoryUsed x) (TotalStorage x) (UsedStorage x) v (Storage x) (VMs x) (lastMetricsUpdate x).

Definition set_Storage (v : option Storage.t) (x : t) : t :=
  mk (ID x) (Name x) (IP x) (Online x) (Version x) (KernelVersion x) (CPUCount x) (CPUUsage x) (CPUInfo x) (LoadAvg x) (MemoryTotal x) (MemoryUsed x) (TotalStorage x) (UsedStorage x) (Uptime x) v (VMs x) (lastMetricsUpdate x).

Definition set_VMs (v : list VM.t) (x : t) : t :=
  mk (ID x) (Name x) (IP x) (Online x) (Version x) (KernelVersion x) (CPUCount x) (CPUUsage x) (CPUInfo x) (LoadAvg x) (MemoryTotal x) (MemoryUsed x) (TotalStorage x) (UsedStorage x) (Uptime x) (Storage x) v (lastMetricsUpdate x).

Definition set_lastMetricsUpdate (v : Z) (x : t) : t :=
  mk (ID x) (Name x) (IP x) (Online x) (Version x) (KernelVersion x) (CPUCount x) (CPUUsage x) (CPUInfo x) (LoadAvg x) (MemoryTotal x) (MemoryUsed x) (TotalStorage x) (UsedStorage x) (Uptime x) (Storage x) (VMs x) v.

End Node.

(** ** What the package takes from outside these files

    Package-level helpers and library functions that the code calls and that
    are not part of the files under verification: the typed accessors of a
    decoded object, the choice of a guest's address among its interfaces, and
    [net.ParseIP(ip) != nil]. *)
Class Externals : Type := {
  getString : JMap -> string -> string;
  getFloat : JMap -> string -> float;
  getInt : JMap -> string -> Z;
  getBool : JMap -> string -> bool;
  GetFirstNonLoopbackIP : list NetworkInterface.t -> bool -> string;
  ParseIP : string -> bool
}.

(** ** The storage manager *)

(** Modelled from the spec: the storage manager ([NewStorageManager],
    [AddStorage], [GetTotalCapacity], [GetTotalUsage]) is called by the
    aggregator but declared in a file that is not among the sources.  The
    specification (4.5) describes it as a mapping from storage id to one
    canonical storage plus the nodes that report it: a shared entry whose id is
    already present is not added to the totals again, and the totals are the
    sums over the canonical shared entries plus every non-shared entry.  The
    mapping is kept as an association list in order of first report; the
    shared flag is the value 1 of the [shared] field.

    The storage id is the [Name] of the struct, which
    [processClusterResources] fills from the [storage] entry of the record.
    The specification identifies a storage by the pair (node, storage-id), so
    the id is the same on every node that reports the storage, and in its
    scenario S2 the id of the storage seen from a and from b is [nas]; the
    other candidate, the field [ID], holds the [id] entry of the record,
    which names one report ([storage/a/nas]). *)
Module StorageManager.

Record shared_entry : Type := mk_shared {
  canonical : Storage.t;
  reporters : list string
}.

Record t : Type := mk {
  SharedStorages : list shared_entry;
  LocalStorages : list Storage.t
}.

Definition IsShared (s : Storage.t) : bool := Storage.Shared s =? 1.

Definition storageId (s : Storage.t) : string := Storage.Name s.

(** The canonical entries of the shared storages, in order of first
    report. *)
Definition canonicals (sm : t) : list Storage.t :=
  map canonical (SharedStorages sm).

Definition NewStorageManager : t := mk [] [].

Definition GetTotalCapacity (sm : t) : Z :=
  add64 (sum64 (map (fun e => Storage.MaxDisk (canonical e)) (SharedStorages sm)))
        (sum64 (map Storage.MaxDisk (LocalStorages sm))).

Definition GetTotalUsage (sm : t) : Z :=
  add64 (sum64 (map (fun e => Storage.Disk (canonical e)) (SharedStorages sm)))
        (sum64 (map Storage.Disk (LocalStorages sm))).

Definition known (id : string) (l : list shared_entry) : bool :=
  existsb (fun e => String.eqb (storageId (canonical e)) id) l.

Definition add_reporter (s : Storage.t) (e : shared_entry) : shared_entry :=
  if String.eqb (storageId (canonical e)) (storageId s)
  then mk_shared (canonical e) (reporters e ++ [Storage.Node s])
  else e.

Definition AddStorage (s : Storage.t) (sm : t) : t :=
  if IsShared s then
    if known (storageId s) (SharedStorages sm)
    then mk (map (add_reporter s) (SharedStorages sm)) (LocalStorages sm)
    else mk (SharedStorages sm ++ [mk_shared s [Storage.Node s]])
            (LocalStorages sm)
  else mk (SharedStorages sm) (LocalStorages sm ++ [s]).

End StorageManager.

(** Aggregated cluster metrics. *)
Module Cluster.
Record t : Type := mk {
  Name : string;
  Version : string;
  Quorate : bool;
  TotalNodes : Z;
  OnlineNodes : Z;
  TotalCPU : float;
  CPUUsage : float;
  MemoryTotal : float;
  MemoryUsed : float;
  StorageTotal : Z;
  StorageUsed : Z;
  Nodes : list Node.t;
  StorageManager : StorageManager.t;
  lastUpdate : Z
}.
Definition set_Nodes (v : list Node.t) (x : t) : t :=
  mk (Name x) (Version x) (Quorate x) (TotalNodes x) (OnlineNodes x)
     (TotalCPU x) (CPUUsage x) (MemoryTotal x) (MemoryUsed x)
     (StorageTotal x) (StorageUsed x) v (StorageManager x) (lastUpdate x).
Definition set_StorageManager (v : StorageManager.t) (x : t) : t :=
  mk (Name x) (Version x) (Quorate x) (TotalNodes x) (OnlineNodes x)
     (TotalCPU x) (CPUUsage x) (MemoryTotal x) (MemoryUsed x)
     (StorageTotal x) (StorageUsed x) (Nodes x) v (lastUpdate x).
Definition set_Version (v : string) (x : t) : t :=
  mk (Name x) v (Quorate x) (TotalNodes x) (OnlineNodes x)
     (TotalCPU x) (CPUUsage x) (MemoryTotal x) (MemoryUsed x)
     (StorageTotal x) (StorageUsed x) (Nodes x) (StorageManager x)
     (lastUpdate x).
(** The three assignments of the [cluster] record of [/cluster/status]. *)
Definition set_identity (name : string) (quorate : bool) (nodes : Z) (x : t) : t :=
  mk name (Version x) quorate nodes (OnlineNodes x)
     (TotalCPU x) (CPUUsage x) (MemoryTotal x) (MemoryUsed x)
     (StorageTotal x) (StorageUsed x) (Nodes x) (StorageManager x)
     (lastUpdate x).
End Cluster.

(** ** Constants ([pkg/api/constants.go]) *)

Definition VMTypeQemu : string := "qemu".
Definition VMTypeLXC : string := "lxc".
Definition VMStatusRunning : string := "running".
Definition VMStatusStopped : string := "stopped".
Definition IPTypeIPv4 : string := "ipv4".
Definition IPTypeIPv6 : string := "ipv6".
Definition StringTrue : string := "true".

(** ** The client *)

(** The request paths, with the arguments of their format strings. *)
Inductive Endpoint : Type :=
| EpClusterStatus                                   (* /cluster/status *)
| EpClusterResources                                (* /cluster/resources *)
| EpStatusCurrent (node type : string) (vmid : Z)   (* /nodes/%s/%s/%d/status/current *)
| EpConfig (node type : string) (vmid : Z)          (* /nodes/%s/%s/%d/config *)
| EpAgentFsinfo (node : string) (vmid : Z).         (* /nodes/%s/qemu/%d/agent/get-fsinfo *)

(** The methods of [*Client] that the aggregator and the enricher call and
    that are defined outside the files under verification, as the answers one
    client gives: [GetWithCache] yields the decoded top-level object or an
    error, [GetNodeStatus] the freshly fetched node, and the two interface
    queries a list together with an optional error.  [Now] is the clock. *)
Record Client : Type := {
  GetWithCache : Endpoint -> error + JMap;
  GetNodeStatus : string -> error + Node.t;
  GetGuestAgentInterfaces : VM.t -> list NetworkInterface.t * option error;
  GetLxcInterfaces : VM.t -> list NetworkInterface.t * option error;
  Now : Z
}.

(** Zero values of the structs that the code builds by composite literals. *)
Definition zeroVM : VM.t :=
  VM.mk 0 "" "" "" "" "" 0%float 0 0 0 0 0 0 0 0 0 "" "" "" false ""
        false false [] [] None false.

Definition zeroFilesystem : Filesystem.t :=
  Filesystem.mk "" "" "" 0 0 "" false false.

(** The cluster that both builds start from. *)
Definition newCluster (c : Client) : Cluster.t :=
  Cluster.mk "" "" false 0 0 0%float 0%float 0%float 0%float 0 0 []
             StorageManager.NewStorageManager (Now c).

(** ** [pkg/api/vm.go] *)

Section vm_go.
Context {X : Externals}.

(** The assertion [v.(float64)] on an entry that may be absent. *)
Definition asFloat (o : option JSON) : option float :=
  match o with Some (JNumber f) => Some f | _ => None end.

Definition asString (o : option JSON) : option string :=
  match o with Some (JString s) => Some s | _ => None end.

(** [if v, ok := data[key]; ok { if f, ok := v.(float64); ok { set(int64(f)) } }] *)
Definition updInt (data : JMap) (key : string)
           (set : Z -> VM.t -> VM.t) (vm : VM.t) : VM.t :=
  match asFloat (jlookup data key) with
  | Some f => set (int64_of_float f) vm
  | None => vm
  end.

Definition updFloat (data : JMap) (key : string)
           (set : float -> VM.t -> VM.t) (vm : VM.t) : VM.t :=
  match asFloat (jlookup data key) with
  | Some f => set f vm
  | None => vm
  end.

Definition updString (data : JMap) (key : string)
           (set : string -> VM.t -> VM.t) (vm : VM.t) : VM.t :=
  match asString (jlookup data key) with
  | Some s => set s vm
  | None => vm
  end.

(** The type switch on the [agent] and [template] entries of a config.  A
    decoded JSON number is a [float64], so the [case int] arm never runs. *)
Definition flagOf (v : JSON) (old : bool) : bool :=
  match v with
  | JBool b => b
  | JString s => String.eqb s "1" || String.eqb s StringTrue
  | _ => old
  end.

(** *** populateConfiguredMACs *)

Definition isDigit (a : ascii) : bool :=
  let n := nat_of_ascii a in ((48 <=? n) && (n <=? 57))%nat.

(** [strings.HasPrefix(k, "net") && len(k) > 3 && k[3] >= '0' && k[3] <= '9'] *)
Definition isNetDevice (k : string) : bool :=
  strings.HasPrefix k "net" && (3 <? String.length k)%nat &&
  match String.get 3 k with Some a => isDigit a | None => false end.

(** [len(m) == 17 && strings.Count(m, ":") == 5] *)
Definition macShape (m : string) : bool :=
  (String.length m =? 17)%nat && (strings.Count m ":"%char =? 5)%nat.

(** The value of [macAddress] after the three-way branch on one part. *)
Definition macOfPart (part : string) : string :=
  if strings.HasPrefix part "hwaddr=" then
    strings.ToUpper (strings.TrimPrefix part "hwaddr=")
  else if strings.Contains part "=" then
    match strings.SplitN2 part "="%char with
    | [_; m] => if macShape m then strings.ToUpper m else ""
    | _ => ""
    end
  else if macShape part then strings.ToUpper part else "".

(** The loop over the parts of one net string: the first part whose
    [macAddress] passes the final test is stored, and the loop breaks. *)
Fixpoint firstMAC (parts : list string) : option string :=
  match parts with
  | [] => None
  | part :: rest =>
      let macAddress := macOfPart part in
      if negb (String.eqb macAddress "") && macShape macAddress
      then Some macAddress
      else firstMAC rest
  end.

(** One iteration of the loop over the config entries. *)
Definition addConfiguredMAC (macs : gset string) (kv : string * JSON) : gset string :=
  if isNetDevice (fst kv) then
    match snd kv with
    | JString netStr =>
        match firstMAC (strings.Split netStr ","%char) with
        | Some mac => {[mac]} ∪ macs
        | None => macs
        end
    | _ => macs
    end
  else macs.

Definition configuredMACs (configData : JMap) : gset string :=
  fold_left addConfiguredMAC configData ∅.

Definition populateConfiguredMACs (vm : VM.t) (configData : JMap) : VM.t :=
  VM.set_ConfiguredMACs (Some (configuredMACs configData)) vm.

(** [len(vm.ConfiguredMACs)], for a nil or allocated map, against zero. *)
Definition noConfiguredMACs (vm : VM.t) : bool :=
  match VM.ConfiguredMACs vm with
  | None => true
  | Some macs => bool_decide (macs = ∅)
  end.

(** [vm.ConfiguredMACs[key]]: reading a nil map yields the zero value. *)
Definition hasConfiguredMAC (vm : VM.t) (key : string) : bool :=
  match VM.ConfiguredMACs vm with
  | None => false
  | Some macs => bool_decide (key ∈ macs)
  end.

(** *** The interface filters of GetVmStatus *)

(** The first loop of the selection: [bestIP] and [foundIP] after looking
    for an address of the given type, with [break] at the first hit. *)
Fixpoint scanType (ty : string) (ips : list IPAddress.t)
         (bestIP : IPAddress.t) (foundIP : bool) : IPAddress.t * bool :=
  match ips with
  | [] => (bestIP, foundIP)
  | ip :: rest =>
      if String.eqb (IPAddress.Type_ ip) ty then (ip, true)
      else scanType ty rest bestIP foundIP
  end.

Definition zeroIP : IPAddress.t := IPAddress.mk "" "" 0.

(** The body of the filter for an interface that is shown: IPv4 first, then
    the first IPv6, then the first address; the list becomes that one
    address, or nil. *)
Definition selectBestIP (iface : NetworkInterface.t) : NetworkInterface.t :=
  let ips := NetworkInterface.IPAddresses iface in
  let '(bestIP, foundIP) := scanType IPTypeIPv4 ips zeroIP false in
  let '(bestIP, foundIP) :=
    if negb foundIP && (0 <? length ips)%nat then
      let '(bestIP, foundIP) := scanType IPTypeIPv6 ips bestIP foundIP in
      if negb foundIP
      then (match ips with ip0 :: _ => ip0 | [] => bestIP end, true)
      else (bestIP, foundIP)
    else (bestIP, foundIP) in
  if foundIP then NetworkInterface.set_IPAddresses [bestIP] iface
  else NetworkInterface.set_IPAddresses [] iface.

(** The condition of the QEMU loop. *)
Definition qemuShows (vm : VM.t) (iface : NetworkInterface.t) : bool :=
  negb (NetworkInterface.IsLoopback iface) &&
  negb (strings.HasPrefix (NetworkInterface.Name iface) "veth") &&
  (match VM.ConfiguredMACs vm with None => true | Some _ => false end ||
   hasConfiguredMAC vm (strings.ToUpper (NetworkInterface.MACAddress iface))).

(** The condition [showInterface] of the LXC loop. *)
Definition lxcShows (vm : VM.t) (iface : NetworkInterface.t) : bool :=
  let showInterface := negb (NetworkInterface.IsLoopback iface) in
  if negb (noConfiguredMACs vm)
  then showInterface &&
       hasConfiguredMAC vm (strings.ToUpper (NetworkInterface.MACAddress iface))
  else showInterface.

(** A filtering loop: every raw interface that is shown is appended with
    its address list reduced. *)
Fixpoint filterInterfaces (shows : NetworkInterface.t -> bool)
         (raw : list NetworkInterface.t) : list NetworkInterface.t :=
  match raw with
  | [] => []
  | iface :: rest =>
      if shows iface then selectBestIP iface :: filterInterfaces shows rest
      else filterInterfaces shows rest
  end.

(** [if vm.IP == "" && len(vm.NetInterfaces) > 0 { vm.IP = GetFirstNonLoopbackIP(...) }] *)
Definition fillIP (vm : VM.t) : VM.t :=
  if String.eqb (VM.IP vm) "" && (0 <? length (VM.NetInterfaces vm))%nat
  then VM.set_IP (GetFirstNonLoopbackIP (VM.NetInterfaces vm) true) vm
  else vm.

Definition clearIPWithoutMACs (vm : VM.t) : VM.t :=
  if noConfiguredMACs vm then VM.set_IP "" vm else vm.
End vm_go.

Section vm_go_requests.
Context {X : Externals}.

(** *** GetGuestAgentFilesystems *)

(** One element of the result array turned into a [Filesystem]. *)
Definition parseFilesystem (fsMap : JMap) : Filesystem.t :=
  let filesystem := zeroFilesystem in
  let filesystem :=
    match asString (jlookup fsMap "name") with
    | Some name => Filesystem.set_Name name filesystem
    | None => filesystem
    end in
  let filesystem :=
    match asString (jlookup fsMap "mountpoint") with
    | Some mountpoint =>
        Filesystem.set_IsSystemDrive
          (strings.HasPrefix (strings.ToLower mountpoint) "c:")
          (Filesystem.set_IsRoot (String.eqb mountpoint "/")
             (Filesystem.set_Mountpoint mountpoint filesystem))
    | None => filesystem
    end in
  let filesystem :=
    match asString (jlookup fsMap "type") with
    | Some fsType => Filesystem.set_Type_ fsType filesystem
    | None => filesystem
    end in
  let filesystem :=
    match asFloat (jlookup fsMap "total-bytes") with
    | Some totalBytes => Filesystem.set_TotalBytes (int64_of_float totalBytes) filesystem
    | None => filesystem
    end in
  let filesystem :=
    match asFloat (jlookup fsMap "used-bytes") with
    | Some usedBytes => Filesystem.set_UsedBytes (int64_of_float usedBytes) filesystem
    | None => filesystem
    end in
  match jlookup fsMap "disk" with
  | Some (JArray (JObject diskMap :: _)) =>
      match asString (jlookup diskMap "dev") with
      | Some dev => Filesystem.set_Device dev filesystem
      | None => filesystem
      end
  | _ => filesystem
  end.

Fixpoint parseFilesystems (resultArray : list JSON) : list Filesystem.t :=
  match resultArray with
  | [] => []
  | JObject fsMap :: rest => parseFilesystem fsMap :: parseFilesystems rest
  | _ :: rest => parseFilesystems rest
  end.

Definition GetGuestAgentFilesystems (c : Client) (vm : VM.t)
  : error + list Filesystem.t :=
  if negb (String.eqb (VM.Type_ vm) VMTypeQemu) ||
     negb (String.eqb (VM.Status vm) VMStatusRunning)
  then inl (ErrMsg "guest agent not applicable for this VM type or status")
  else if negb (VM.AgentEnabled vm)
  then inl (ErrMsg "guest agent is not enabled for this VM")
  else
    match GetWithCache c (EpAgentFsinfo (VM.Node vm) (VM.ID vm)) with
    | inl err => inl (ErrWrap "failed to get filesystem info from guest agent" err)
    | inr res =>
        match jlookup res "result" with
        | Some (JArray resultArray) => inr (parseFilesystems resultArray)
        | _ =>
            match jlookup res "data" with
            | Some (JObject data) =>
                match jlookup data "result" with
                | Some (JArray resultArray) => inr (parseFilesystems resultArray)
                | _ => inl (ErrMsg "unexpected result format from guest agent")
                end
            | _ => inl (ErrMsg "unexpected response format from guest agent")
            end
        end
    end.

(** *** The filesystem filter of GetVmStatus *)

Definition pseudoFsTypes : list string :=
  ["tmpfs"; "devtmpfs"; "proc"; "sysfs"; "devpts"; "cgroup"; "configfs";
   "debugfs"; "mqueue"; "hugetlbfs"; "securityfs"; "pstore"; "autofs"; "UDF"].

(** [true] when none of the loop's [continue] statements is taken. *)
Definition keepFilesystem (fs : Filesystem.t) : bool :=
  let mp := Filesystem.Mountpoint fs in
  negb (strings.HasPrefix mp "/snap" || strings.HasPrefix mp "/run" ||
        strings.HasPrefix mp "/sys" || strings.HasPrefix mp "/proc" ||
        strings.HasPrefix mp "/dev" || strings.Contains mp "snap/") &&
  negb (strings.Contains mp "\Containers\" || strings.Contains mp "/Containers/" ||
        strings.Contains mp "\WindowsApps\" || strings.Contains mp "\WpSystem\" ||
        strings.Contains mp "\Config.Msi") &&
  negb (strings.Contains mp "{" && strings.Contains mp "}" &&
        (50 <? String.length mp)%nat) &&
  negb (Filesystem.TotalBytes fs =? 0) &&
  negb (Filesystem.TotalBytes fs <? 50 * 1024 * 1024) &&
  negb (existsb (String.eqb (Filesystem.Type_ fs)) pseudoFsTypes).

(** The block that runs when the guest agent answered with filesystems. *)
Definition applyFilesystems (filesystems : list Filesystem.t) (vm : VM.t) : VM.t :=
  let filteredFilesystems := List.filter keepFilesystem filesystems in
  let vm := VM.set_Filesystems filteredFilesystems vm in
  let totalDiskSpace := sum64 (map Filesystem.TotalBytes filteredFilesystems) in
  let usedDiskSpace := sum64 (map Filesystem.UsedBytes filteredFilesystems) in
  if 0 <? totalDiskSpace
  then VM.set_Disk usedDiskSpace (VM.set_MaxDisk totalDiskSpace vm)
  else vm.

(** *** GetVmStatus *)

(** The disk fields: the API value is taken only when it is a positive
    number, and the values held before the call are restored otherwise. *)
Definition statusDisk (data : JMap) (currentDisk currentMaxDisk : Z) (vm : VM.t) : VM.t :=
  let '(vm, diskFound) :=
    match asFloat (jlookup data "disk") with
    | Some diskFloat =>
        if PrimFloat.ltb 0 diskFloat
        then (VM.set_Disk (int64_of_float diskFloat) vm, true)
        else (vm, false)
    | None => (vm, false)
    end in
  let '(vm, maxDiskFound) :=
    match asFloat (jlookup data "maxdisk") with
    | Some maxDiskFloat =>
        if PrimFloat.ltb 0 maxDiskFloat
        then (VM.set_MaxDisk (int64_of_float maxDiskFloat) vm, true)
        else (vm, false)
    | None => (vm, false)
    end in
  let vm := if negb diskFound && (0 <? currentDisk)
            then VM.set_Disk currentDisk vm else vm in
  if negb maxDiskFound && (0 <? currentMaxDisk)
  then VM.set_MaxDisk currentMaxDisk vm else vm.

(** The metrics copied from [status/current], in source order. *)
Definition statusMetrics (data : JMap) (currentDisk currentMaxDisk : Z) (vm : VM.t) : VM.t :=
  let vm := updFloat data "cpu" VM.set_CPU vm in
  let vm := updInt data "mem" VM.set_Mem vm in
  let vm := updInt data "maxmem" VM.set_MaxMem vm in
  let vm := statusDisk data currentDisk currentMaxDisk vm in
  let vm := updInt data "diskread" VM.set_DiskRead vm in
  let vm := updInt data "diskwrite" VM.set_DiskWrite vm in
  let vm := updInt data "netin" VM.set_NetIn vm in
  let vm := updInt data "netout" VM.set_NetOut vm in
  updInt data "uptime" VM.set_Uptime vm.

(** The config request of the QEMU branch. *)
Definition qemuConfig (c : Client) (vm : VM.t) : VM.t :=
  match GetWithCache c (EpConfig (VM.Node vm) "qemu" (VM.ID vm)) with
  | inr configRes =>
      match jlookup configRes "data" with
      | Some (JObject configData) =>
          let vm := populateConfiguredMACs vm configData in
          match jlookup configData "agent" with
          | Some agentVal =>
              VM.set_AgentEnabled (flagOf agentVal (VM.AgentEnabled vm)) vm
          | None => vm
          end
      | _ => vm
      end
  | inl _ => vm
  end.

(** The branch for a running QEMU guest. *)
Definition enrichQemu (c : Client) (vm : VM.t) : VM.t :=
  let vm := qemuConfig c vm in
  if VM.AgentEnabled vm then
    let '(rawNetInterfaces, err) := GetGuestAgentInterfaces c vm in
    match err with
    | None =>
        if (0 <? length rawNetInterfaces)%nat then
          let vm := VM.set_AgentRunning true vm in
          let vm := VM.set_NetInterfaces
                      (filterInterfaces (qemuShows vm) rawNetInterfaces) vm in
          let vm := fillIP vm in
          match GetGuestAgentFilesystems c vm with
          | inr filesystems =>
              if (0 <? length filesystems)%nat
              then applyFilesystems filesystems vm else vm
          | inl _ => vm
          end
        else clearIPWithoutMACs (VM.set_NetInterfaces [] (VM.set_AgentRunning false vm))
    | Some _ =>
        clearIPWithoutMACs (VM.set_NetInterfaces [] (VM.set_AgentRunning false vm))
    end
  else VM.set_NetInterfaces [] (VM.set_AgentRunning false vm).

(** The config request of the LXC branch. *)
Definition lxcConfig (c : Client) (vm : VM.t) : VM.t :=
  match GetWithCache c (EpConfig (VM.Node vm) "lxc" (VM.ID vm)) with
  | inr configRes =>
      match jlookup configRes "data" with
      | Some (JObject configData) => populateConfiguredMACs vm configData
      | _ => vm
      end
  | inl _ => vm
  end.

(** The branch for a running LXC container. *)
Definition enrichLxc (c : Client) (vm : VM.t) : VM.t :=
  let vm := lxcConfig c vm in
  let '(rawNetInterfaces, _) := GetLxcInterfaces c vm in
  if (0 <? length rawNetInterfaces)%nat then
    fillIP (VM.set_NetInterfaces
              (filterInterfaces (lxcShows vm) rawNetInterfaces) vm)
  else clearIPWithoutMACs (VM.set_NetInterfaces [] vm).

Definition isRunning (vm : VM.t) : bool := String.eqb (VM.Status vm) VMStatusRunning.

(** [GetVmStatus] mutates [vm] in place and returns an error; the model
    returns the guest after the call together with the error. *)
Definition GetVmStatus (c : Client) (vm : VM.t) : VM.t * option error :=
  let currentDisk := VM.Disk vm in
  let currentMaxDisk := VM.MaxDisk vm in
  match GetWithCache c (EpStatusCurrent (VM.Node vm) (VM.Type_ vm) (VM.ID vm)) with
  | inl err => (vm, Some err)
  | inr res =>
      match jlookup res "data" with
      | Some (JObject data) =>
          let vm := statusMetrics data currentDisk currentMaxDisk vm in
          let vm :=
            if String.eqb (VM.Type_ vm) VMTypeQemu && isRunning vm
            then enrichQemu c vm
            else if String.eqb (VM.Type_ vm) VMTypeLXC && isRunning vm
            then enrichLxc c vm
            else vm in
          (VM.set_Enriched true vm, None)
      | _ => (vm, Some (ErrMsg "unexpected format for VM status"))
      end
  end.
End vm_go_requests.

(** ** Effects

    What the background work does, as far as an observer can tell: the
    calls of [GetVmStatus], the sleep and the call of the callback. *)
Inductive Callback : Type := callback (name : string).

Inductive Event : Type :=
| EvGetVmStatus (node : string) (vmid : Z)
| EvSleep (seconds : Z)
| EvCallback (f : Callback).

(** The result of a pass over guests: the guests after it, the errors that
    were collected and the calls that were made. *)
Record Pass (A : Type) : Type := mkPass {
  value : A;
  errors : list error;
  trace : list Event
}.
Arguments mkPass {A}.
Arguments value {A}.
Arguments errors {A}.
Arguments trace {A}.

Section vm_go_detail.
Context {X : Externals}.

(** *** isValidIP *)

Definition isValidIP (ip : string) : bool :=
  if String.eqb ip "" || String.eqb ip "dhcp" || String.eqb ip "manual" ||
     String.eqb ip "static"
  then false
  else ParseIP ip.

(** *** GetDetailedVmInfo *)

(** [len(s) >= 3 && s[:3] == p] *)
Definition startsWith3 (s p : string) : bool :=
  (3 <=? String.length s)%nat && String.eqb (strings.take 3 s) p.

(** The text after [ip=], cut at the first slash when one occurs after the
    first byte. *)
Definition stripMask (ip : string) : string :=
  let idx := strings.Index ip "/"%char in
  if 0 <? idx then strings.take (Z.to_nat idx) ip else ip.

(** The loop over the parts of one net string: the first [ip=] part whose
    value is a valid address is taken, and the loop breaks. *)
Fixpoint firstConfigIP (parts : list string) : option string :=
  match parts with
  | [] => None
  | part :: rest =>
      if startsWith3 part "ip=" then
        let ip := stripMask (strings.drop 3 part) in
        if isValidIP ip then Some ip else firstConfigIP rest
      else firstConfigIP rest
  end.

(** The loop over the config entries, which stops at the first entry that
    yields an address. *)
Fixpoint configIP (configData : JMap) : option string :=
  match configData with
  | [] => None
  | (k, v) :: rest =>
      if startsWith3 k "net" then
        match v with
        | JString netStr =>
            match firstConfigIP (strings.Split netStr ","%char) with
            | Some ip => Some ip
            | None => configIP rest
            end
        | _ => configIP rest
        end
      else configIP rest
  end.

Definition detailFromStatus (statusData : JMap) (vm : VM.t) : VM.t :=
  let vm := updString statusData "name" VM.set_Name vm in
  let vm := updString statusData "status" VM.set_Status vm in
  let vm := updFloat statusData "cpu" VM.set_CPU vm in
  let vm := updInt statusData "mem" VM.set_Mem vm in
  let vm := updInt statusData "maxmem" VM.set_MaxMem vm in
  let vm := updInt statusData "disk" VM.set_Disk vm in
  let vm := updInt statusData "maxdisk" VM.set_MaxDisk vm in
  let vm := updInt statusData "uptime" VM.set_Uptime vm in
  let vm := updInt statusData "diskread" VM.set_DiskRead vm in
  let vm := updInt statusData "diskwrite" VM.set_DiskWrite vm in
  let vm := updInt statusData "netin" VM.set_NetIn vm in
  updInt statusData "netout" VM.set_NetOut vm.

Definition detailFromConfig (configData : JMap) (vm : VM.t) : VM.t :=
  let vm :=
    match jlookup configData "template" with
    | Some templateVal => VM.set_Template (flagOf templateVal (VM.Template vm)) vm
    | None => vm
    end in
  let vm := updString configData "tags" VM.set_Tags vm in
  let vm :=
    match jlookup configData "agent" with
    | Some agentVal => VM.set_AgentEnabled (flagOf agentVal (VM.AgentEnabled vm)) vm
    | None => vm
    end in
  let vm :=
    match configIP configData with
    | Some ip => VM.set_IP ip vm
    | None => vm
    end in
  populateConfiguredMACs vm configData.

(** [&VM{ID: vmid, Node: node, Type: vmType}] *)
Definition newVM (node vmType : string) (vmid : Z) : VM.t :=
  VM.mk vmid "" node vmType "" "" 0%float 0 0 0 0 0 0 0 0 0 "" "" ""
        false "" false false [] [] None false.

Definition GetDetailedVmInfo (c : Client) (node vmType : string) (vmid : Z)
  : error + VM.t :=
  let vm := newVM node vmType vmid in
  match GetWithCache c (EpStatusCurrent node vmType vmid) with
  | inl err => inl (ErrWrap "failed to get VM status" err)
  | inr statusRes =>
      match jlookup statusRes "data" with
      | Some (JObject statusData) =>
          match GetWithCache c (EpConfig node vmType vmid) with
          | inl err => inl (ErrWrap "failed to get VM config" err)
          | inr configRes =>
              match jlookup configRes "data" with
              | Some (JObject configData) =>
                  inr (VM.set_Enriched true
                         (detailFromConfig configData
                            (detailFromStatus statusData vm)))
              | _ => inl (ErrMsg "unexpected format for VM config")
              end
          end
      | _ => inl (ErrMsg "unexpected format for VM status")
      end
  end.

(** *** EnrichVMs *)

(** The body of a worker for one queued guest. *)
Definition enrichWorker (c : Client) (vm : VM.t) : VM.t * option error :=
  let diskUsage := VM.Disk vm in
  let maxDiskUsage := VM.MaxDisk vm in
  let '(vm, err) := GetVmStatus c vm in
  let vm := if (VM.Disk vm =? 0) && (0 <? diskUsage)
            then VM.set_Disk diskUsage vm else vm in
  let vm := if (VM.MaxDisk vm =? 0) && (0 <? maxDiskUsage)
            then VM.set_MaxDisk maxDiskUsage vm else vm in
  (vm, err).

Definition errorList (e : option error) : list error :=
  match e with Some err => [err] | None => [] end.

(** The queueing loop over the guests of one node. *)
Fixpoint enrichGuests (c : Client) (vms : list VM.t) : Pass (list VM.t) :=
  match vms with
  | [] => mkPass [] [] []
  | vm :: rest =>
      let r := enrichGuests c rest in
      if isRunning vm then
        let '(vm', err) := enrichWorker c vm in
        mkPass (vm' :: value r) (errorList err ++ errors r)
               (EvGetVmStatus (VM.Node vm) (VM.ID vm) :: trace r)
      else mkPass (vm :: value r) (errors r) (trace r)
  end.

Fixpoint enrichNodes (c : Client) (nodes : list Node.t) : Pass (list Node.t) :=
  match nodes with
  | [] => mkPass [] [] []
  | node :: rest =>
      let r := enrichNodes c rest in
      if Node.Online node then
        let g := enrichGuests c (Node.VMs node) in
        mkPass (Node.set_VMs (value g) node :: value r)
               (errors g ++ errors r) (trace g ++ trace r)
      else mkPass (node :: value r) (errors r) (trace r)
  end.

Definition totalVMs (nodes : list Node.t) : nat :=
  list_sum (map (fun node => if Node.Online node then length (Node.VMs node) else O) nodes).

Definition EnrichVMs (c : Client) (cluster : Cluster.t)
  : Cluster.t * option error * list Event :=
  if (totalVMs (Cluster.Nodes cluster) =? 0)%nat then (cluster, None, [])
  else
    let r := enrichNodes c (Cluster.Nodes cluster) in
    (Cluster.set_Nodes (value r) cluster,
     match errors r with [] => None | errs => Some (ErrVMStatuses errs) end,
     trace r).
End vm_go_detail.

(** ** [pkg/api/cluster.go] *)

Section cluster_go.
Context {X : Externals}.

(** *** getClusterBasicStatus *)

Definition basicStatusItem (cluster : Cluster.t) (item : JSON) : Cluster.t :=
  match item with
  | JObject itemMap =>
      let type := getString itemMap "type" in
      if String.eqb type "cluster" then
        Cluster.set_identity (getString itemMap "name")
          (getBool itemMap "quorate") (getInt itemMap "nodes") cluster
      else if String.eqb type "node" then
        let nodeName := getString itemMap "name" in
        Cluster.set_Nodes
          (Cluster.Nodes cluster ++
             [Node.mk nodeName nodeName (getString itemMap "ip")
                      (getInt itemMap "online" =? 1)
                      "" "" 0%float 0%float None [] 0%float 0%float
                      0 0 0 None [] 0])
          cluster
      else cluster
  | _ => cluster
  end.

Definition getClusterBasicStatus (c : Client) (cluster : Cluster.t)
  : error + Cluster.t :=
  match GetWithCache c EpClusterStatus with
  | inl err => inl (ErrWrap "failed to get cluster status" err)
  | inr statusResp =>
      match jlookup statusResp "data" with
      | Some (JArray statusData) => inr (fold_left basicStatusItem statusData cluster)
      | _ => inl (ErrMsg "invalid cluster status response format")
      end
  end.

(** *** updateNodeMetrics and enrichNodeStatuses *)

(** [updateNodeMetrics] mutates [node] and returns an error; the model
    returns the node after the call together with the error. *)
Definition updateNodeMetrics (c : Client) (node : Node.t) : Node.t * option error :=
  if negb (Node.Online node) then (node, None)
  else
    match GetNodeStatus c (Node.Name node) with
    | inl err =>
        (Node.set_Online false node, Some (ErrNodeOffline (Node.Name node) err))
    | inr fullStatus =>
        let node := Node.set_Version (Node.Version fullStatus) node in
        let node := Node.set_KernelVersion (Node.KernelVersion fullStatus) node in
        let node := Node.set_CPUCount (Node.CPUCount fullStatus) node in
        let node := if PrimFloat.eqb (Node.MemoryTotal node) 0
                    then Node.set_MemoryTotal (Node.MemoryTotal fullStatus) node
                    else node in
        let node := if PrimFloat.eqb (Node.MemoryUsed node) 0
                    then Node.set_MemoryUsed (Node.MemoryUsed fullStatus) node
                    else node in
        let node := Node.set_TotalStorage (Node.TotalStorage fullStatus) node in
        let node := Node.set_UsedStorage (Node.UsedStorage fullStatus) node in
        let node := Node.set_Uptime (Node.Uptime fullStatus) node in
        let node := Node.set_CPUInfo (Node.CPUInfo fullStatus) node in
        let node := Node.set_LoadAvg (Node.LoadAvg fullStatus) node in
        (Node.set_lastMetricsUpdate (Now c) node, None)
    end.

(** The errors that the collector appends: the non-nil ones. *)
Fixpoint collectErrors (results : list (option error)) : list error :=
  match results with
  | [] => []
  | Some err :: rest => err :: collectErrors rest
  | None :: rest => collectErrors rest
  end.

(** One goroutine per node updates that node; the collector keeps the
    errors, and only their number decides the result. *)
Definition enrichNodeStatuses (c : Client) (cluster : Cluster.t)
  : Cluster.t * option error :=
  let results := map (updateNodeMetrics c) (Cluster.Nodes cluster) in
  let errs := collectErrors (map snd results) in
  let cluster' := Cluster.set_Nodes (map fst results) cluster in
  if (0 <? length errs)%nat && (length errs =? length (Cluster.Nodes cluster))%nat
  then (cluster', Some (ErrAllNodesUnreachable (length errs)))
  else (cluster', None).

(** *** processClusterResources *)

(** [nodeMap[name]]: the map is filled in slice order, so a name that
    occurs twice leads to the later node. *)
Fixpoint nodeMap (nodes : list Node.t) (name : string) : option nat :=
  match nodes with
  | [] => None
  | node :: rest =>
      match nodeMap rest name with
      | Some i => Some (S i)
      | None => if String.eqb (Node.Name node) name then Some O else None
      end
  end.

Definition nodeResource (resource : JMap) (node : Node.t) : Node.t :=
  let cpuUsage := getFloat resource "cpu" in
  let node := if PrimFloat.leb 0 cpuUsage
              then Node.set_CPUUsage cpuUsage node else node in
  let memUsed := getFloat resource "mem" in
  let node := if PrimFloat.ltb 0 memUsed
              then Node.set_MemoryUsed (PrimFloat.div memUsed 1073741824) node
              else node in
  let memMax := getFloat resource "maxmem" in
  if PrimFloat.ltb 0 memMax
  then Node.set_MemoryTotal (PrimFloat.div memMax 1073741824) node
  else node.

Definition storageOf (resource : JMap) (nodeName : string) : Storage.t :=
  Storage.mk (getString resource "id") (getString resource "storage")
             (getString resource "content")
             (int64_of_float (getFloat resource "disk"))
             (int64_of_float (getFloat resource "maxdisk"))
             nodeName (getString resource "plugintype")
             (getString resource "status") (getInt resource "shared")
             (getString resource "type").

Definition guestOf (resource : JMap) (nodeName resType : string) : VM.t :=
  VM.mk (getInt resource "vmid") (getString resource "name") nodeName resType
        (getString resource "status") (getString resource "ip")
        (getFloat resource "cpu")
        (int64_of_float (getFloat resource "mem"))
        (int64_of_float (getFloat resource "maxmem"))
        (int64_of_float (getFloat resource "disk"))
        (int64_of_float (getFloat resource "maxdisk"))
        (int64_of_float (getFloat resource "uptime"))
        0 0 0 0
        (getString resource "hastate") (getString resource "lock")
        (getString resource "tags") (getBool resource "template")
        (getString resource "pool")
        false false [] [] None false.

(** One iteration of the single pass over the resources.  The code builds
    [nodeMap] once before the loop; the loop never changes a node's name or
    the length of the slice, so looking a name up in the current slice finds
    the same node. *)
Definition processResource (cluster : Cluster.t) (item : JSON) : Cluster.t :=
  match item with
  | JObject resource =>
      let resType := getString resource "type" in
      let nodeName := getString resource "node" in
      let nodes := Cluster.Nodes cluster in
      if String.eqb resType "node" then
        match nodeMap nodes nodeName with
        | Some i => Cluster.set_Nodes (alter (nodeResource resource) i nodes) cluster
        | None => cluster
        end
      else if String.eqb resType "storage" then
        match nodeMap nodes nodeName with
        | None => cluster
        | Some i =>
            let storage := storageOf resource nodeName in
            Cluster.set_StorageManager
              (StorageManager.AddStorage storage (Cluster.StorageManager cluster))
              (Cluster.set_Nodes (alter (Node.set_Storage (Some storage)) i nodes) cluster)
        end
      else if String.eqb resType VMTypeQemu || String.eqb resType VMTypeLXC then
        match nodeMap nodes nodeName with
        | None => cluster
        | Some i =>
            Cluster.set_Nodes
              (alter (fun node =>
                        Node.set_VMs (Node.VMs node ++ [guestOf resource nodeName resType]) node)
                     i nodes)
              cluster
        end
      else cluster
  | _ => cluster
  end.

Definition processClusterResources (c : Client) (cluster : Cluster.t)
  : error + Cluster.t :=
  match GetWithCache c EpClusterResources with
  | inl err => inl (ErrWrap "failed to get cluster resources" err)
  | inr resourcesResp =>
      match jlookup resourcesResp "data" with
      | Some (JArray resourcesData) => inr (fold_left processResource resourcesData cluster)
      | _ => inl (ErrMsg "invalid cluster resources response format")
      end
  end.
End cluster_go.

(** The local variables of [calculateClusterTotals] together with the
    accumulating field [cluster.CPUUsage]. *)
Module Totals.
Record t : Type := mk {
  totalCPU : float;
  totalMem : float;
  usedMem : float;
  cpuUsage : float;
  onlineNodes : Z;
  nodesWithMetrics : Z
}.
End Totals.

Section cluster_go_builds.
Context {X : Externals}.

(** *** calculateClusterTotals *)

(** One iteration of the loop over the nodes. *)
Definition totalsStep (acc : Totals.t) (node : Node.t) : Totals.t :=
  if Node.Online node then
    if PrimFloat.ltb 0 (Node.CPUCount node) then
      Totals.mk (PrimFloat.add (Totals.totalCPU acc) (Node.CPUCount node))
                (PrimFloat.add (Totals.totalMem acc) (Node.MemoryTotal node))
                (PrimFloat.add (Totals.usedMem acc) (Node.MemoryUsed node))
                (PrimFloat.add (Totals.cpuUsage acc) (Node.CPUUsage node))
                (Totals.onlineNodes acc + 1)
                (Totals.nodesWithMetrics acc + 1)
    else
      Totals.mk (Totals.totalCPU acc) (Totals.totalMem acc) (Totals.usedMem acc)
                (Totals.cpuUsage acc) (Totals.onlineNodes acc + 1)
                (Totals.nodesWithMetrics acc)
  else acc.

(** The version of the first node that has one. *)
Fixpoint firstVersion (nodes : list Node.t) : option string :=
  match nodes with
  | [] => None
  | node :: rest =>
      if negb (String.eqb (Node.Version node) "") then Some (Node.Version node)
      else firstVersion rest
  end.

Definition calculateClusterTotals (cluster : Cluster.t) : Cluster.t :=
  let acc := fold_left totalsStep (Cluster.Nodes cluster)
               (Totals.mk 0 0 0 (Cluster.CPUUsage cluster) 0 0) in
  let cpuUsage :=
    if 0 <? Totals.nodesWithMetrics acc
    then PrimFloat.div (Totals.cpuUsage acc) (float_of_int (Totals.nodesWithMetrics acc))
    else Totals.cpuUsage acc in
  let version :=
    match firstVersion (Cluster.Nodes cluster) with
    | Some v => "Proxmox VE " +:+ v
    | None => Cluster.Version cluster
    end in
  Cluster.mk (Cluster.Name cluster) version (Cluster.Quorate cluster)
             (Cluster.TotalNodes cluster)
             (Totals.onlineNodes acc) (Totals.totalCPU acc) cpuUsage
             (Totals.totalMem acc) (Totals.usedMem acc)
             (StorageManager.GetTotalCapacity (Cluster.StorageManager cluster))
             (StorageManager.GetTotalUsage (Cluster.StorageManager cluster))
             (Cluster.Nodes cluster) (Cluster.StorageManager cluster)
             (Cluster.lastUpdate cluster).

(** *** GetClusterStatus *)

Definition GetClusterStatus (c : Client) : error + Cluster.t :=
  match getClusterBasicStatus c (newCluster c) with
  | inl err => inl err
  | inr cluster =>
      match enrichNodeStatuses c cluster with
      | (_, Some err) => inl err
      | (cluster, None) =>
          match processClusterResources c cluster with
          | inl err => inl err
          | inr cluster =>
              let '(cluster, _, _) := EnrichVMs c cluster in
              inr (calculateClusterTotals cluster)
          end
      end
  end.

(** *** FastGetClusterStatus *)

(** The condition of the second pass. *)
Definition needsRetry (vm : VM.t) : bool :=
  isRunning vm && String.eqb (VM.Type_ vm) VMTypeQemu && VM.AgentEnabled vm &&
  (negb (VM.AgentRunning vm) || (length (VM.NetInterfaces vm) =? 0)%nat).

Fixpoint retryGuests (c : Client) (vms : list VM.t) : list VM.t * list Event :=
  match vms with
  | [] => ([], [])
  | vm :: rest =>
      let '(rest', evs) := retryGuests c rest in
      if needsRetry vm
      then (fst (GetVmStatus c vm) :: rest',
            EvGetVmStatus (VM.Node vm) (VM.ID vm) :: evs)
      else (vm :: rest', evs)
  end.

Fixpoint retryNodes (c : Client) (nodes : list Node.t) : list Node.t * list Event :=
  match nodes with
  | [] => ([], [])
  | node :: rest =>
      let '(rest', evs) := retryNodes c rest in
      if Node.Online node then
        let '(vms, evs0) := retryGuests c (Node.VMs node) in
        (Node.set_VMs vms node :: rest', (evs0 ++ evs)%list)
      else (node :: rest', evs)
  end.

(** The goroutine that [FastGetClusterStatus] starts: the first enrichment
    pass, the sleep, the retry pass and the callback.  [c] answers the
    requests of the first pass and [late] those made after the sleep.  The
    result is the cluster once the goroutine has ended and what it did, in
    order. *)
Definition backgroundEnrichment (c late : Client) (cluster : Cluster.t)
           (onEnrichmentComplete : option Callback) : Cluster.t * list Event :=
  let '(cluster, _, first) := EnrichVMs c cluster in
  let '(nodes, retry) := retryNodes late (Cluster.Nodes cluster) in
  (Cluster.set_Nodes nodes cluster,
   (first ++ [EvSleep 3] ++ retry ++
      match onEnrichmentComplete with
      | Some f => [EvCallback f]
      | None => []
      end)%list).

(** The value returned to the caller and the work of the goroutine, which
    is started only when the first three phases succeed. *)
Definition FastGetClusterStatus (c late : Client)
           (onEnrichmentComplete : option Callback)
  : (error + Cluster.t) * list Event :=
  match getClusterBasicStatus c (newCluster c) with
  | inl err => (inl err, [])
  | inr cluster =>
      match enrichNodeStatuses c cluster with
      | (_, Some err) => (inl err, [])
      | (cluster, None) =>
          match processClusterResources c cluster with
          | inl err => (inl err, [])
          | inr cluster =>
              let cluster := calculateClusterTotals cluster in
              (inr cluster,
               snd (backgroundEnrichment c late cluster onEnrichmentComplete))
          end
      end
  end.
End cluster_go_builds.

(** ** [internal/ui/components/vm_list.go] *)

Module VMList.

(** A row of the list widget, by the fields of the guest that its two
    texts are formatted from. *)
Record Row : Type := mkRow {
  rowID : Z;
  rowName : string;
  rowStatus : string;
  rowNode : string;
  rowType : string
}.

Definition rowOf (vm : VM.t) : Row :=
  mkRow (VM.ID vm) (VM.Name vm) (VM.Status vm) (VM.Node vm) (VM.Type_ vm).

(** The widget's items and the slice that selection indices resolve
    against. *)
Record t : Type := mk {
  items : list Row;
  vms : list VM.t
}.

(** The comparison function passed to [sort.Slice]. *)
Definition less (a b : VM.t) : bool :=
  if isRunning a && negb (isRunning b) then true
  else if negb (isRunning a) && isRunning b then false
  else VM.ID a <? VM.ID b.

(** The rank of a guest's status group: running guests first. *)
Definition group (vm : VM.t) : Z := if isRunning vm then 0 else 1.

(** [a] may stand before [b]: [b] is not less than [a]. *)
Definition before (a b : VM.t) : Prop := less b a = false.

(** What [sort.Slice] guarantees for a comparison that is a strict weak
    order: the slice is rearranged, and no element is less than one that
    stands before it.  The order of elements that compare equal is not
    determined. *)
Definition sort_Slice (lt : VM.t -> VM.t -> bool) (input output : list VM.t) : Prop :=
  Permutation input output /\
  forall (i j : nat) (a b : VM.t),
    (i < j)%nat -> output !! i = Some a -> output !! j = Some b -> lt b a = false.

(** [SetVMs vms vl] holds when [vl] is a state of the list after
    [SetVMs(vms)]: the guests are copied and sorted, the sorted slice is
    kept, and one item is added per guest in that order. *)
Inductive SetVMs (input : list VM.t) : t -> Prop :=
| SetVMs_sorted (sortedVMs : list VM.t) :
    sort_Slice less input sortedVMs ->
    SetVMs input (mk (map rowOf sortedVMs) sortedVMs).

(** An insertion sort, one algorithm that meets the contract (the library
    uses it for short slices); it makes [SetVMs] executable. *)
Fixpoint insert (vm : VM.t) (sorted : list VM.t) : list VM.t :=
  match sorted with
  | [] => [vm]
  | x :: rest => if less vm x then vm :: x :: rest else x :: insert vm rest
  end.

Fixpoint insertionSort (l : list VM.t) : list VM.t :=
  match l with
  | [] => []
  | vm :: rest => insert vm (insertionSort rest)
  end.

Definition SetVMs_run (input : list VM.t) : t :=
  let sortedVMs := insertionSort input in
  mk (map rowOf sortedVMs) sortedVMs.

End VMList.

(** ** A reference environment and the scenarios of the specification *)

Module Scenario.

(** A sample of [net.ParseIP]: dotted-quad IPv4 text. *)
Definition isOctet (s : string) : bool :=
  (1 <=? String.length s)%nat && (String.length s <=? 3)%nat &&
  forallb isDigit (list_ascii_of_string s) &&
  (fold_left (fun acc a => (10 * acc + (nat_of_ascii a - 48))%nat)
             (list_ascii_of_string s) O <=? 255)%nat.

Definition dottedQuad (s : string) : bool :=
  let parts := strings.Split s "."%char in
  (length parts =? 4)%nat && forallb isOctet parts.

(** A sample of [GetFirstNonLoopbackIP]: the first IPv4 address of the
    first interface that is not a loopback and has one. *)
Fixpoint firstIPv4 (ifaces : list NetworkInterface.t) : string :=
  match ifaces with
  | [] => ""
  | iface :: rest =>
      if NetworkInterface.IsLoopback iface then firstIPv4 rest
      else match List.find (fun ip => String.eqb (IPAddress.Type_ ip) IPTypeIPv4)
                           (NetworkInterface.IPAddresses iface) with
           | Some ip => IPAddress.Address ip
           | None => firstIPv4 rest
           end
  end.

(** Typed accessors that return the zero value for a missing entry or an
    entry of another type. *)
Definition env : Externals := {|
  getString m k := match jlookup m k with Some (JString s) => s | _ => "" end;
  getFloat m k := match jlookup m k with Some (JNumber f) => f | _ => 0%float end;
  getInt m k := match jlookup m k with Some (JNumber f) => int64_of_float f | _ => 0 end;
  getBool m k := match jlookup m k with
                 | Some (JBool b) => b
                 | Some (JNumber f) => negb (PrimFloat.eqb f 0)
                 | _ => false
                 end;
  GetFirstNonLoopbackIP ifaces _ := firstIPv4 ifaces;
  ParseIP := dottedQuad
|}.

Definition unreachable : error := ErrTransport "500 Internal Server Error".

(** A client that answers nothing. *)
Definition offline : Client := {|
  GetWithCache _ := inl unreachable;
  GetNodeStatus _ := inl unreachable;
  GetGuestAgentInterfaces _ := ([], Some unreachable);
  GetLxcInterfaces _ := ([], Some unreachable);
  Now := 0
|}.

(** A response whose [data] entry is an object. *)
Definition data (m : JMap) : error + JMap := inr [("data", JObject m)].

(** A client that answers the three per-guest requests and the interface
    queries as given, whatever the guest. *)
Definition guestClient (status config fsinfo : error + JMap)
           (ifaces : list NetworkInterface.t * option error) : Client := {|
  GetWithCache ep :=
    match ep with
    | EpStatusCurrent _ _ _ => status
    | EpConfig _ _ _ => config
    | EpAgentFsinfo _ _ => fsinfo
    | _ => inl unreachable
    end;
  GetNodeStatus _ := inl unreachable;
  GetGuestAgentInterfaces _ := ifaces;
  GetLxcInterfaces _ := ifaces;
  Now := 0
|}.

Definition v4 (a : string) : IPAddress.t := IPAddress.mk a IPTypeIPv4 24.
Definition v6 (a : string) : IPAddress.t := IPAddress.mk a IPTypeIPv6 64.

Definition lo : NetworkInterface.t :=
  NetworkInterface.mk "lo" "00:00:00:00:00:00" [v4 "127.0.0.1"] true.
(** S3 and S4: the configured interface, with three addresses. *)
Definition eth0 : NetworkInterface.t :=
  NetworkInterface.mk "eth0" "aa:bb:cc:dd:ee:ff"
    [v6 "fe80::1"; v4 "10.0.0.5"; v6 "2001:db8::1"] false.
Definition docker0 : NetworkInterface.t :=
  NetworkInterface.mk "docker0" "DE:AD:BE:EF:00:01" [v4 "172.17.0.1"] false.
Definition veth0 : NetworkInterface.t :=
  NetworkInterface.mk "veth3f2a" "AA:BB:CC:DD:EE:FF" [] false.

(** A running guest as [processClusterResources] leaves it. *)
Definition guest (type : string) (vmid : Z) (disk maxdisk : Z) : VM.t :=
  VM.mk vmid "guest" "a" type VMStatusRunning "" 0%float 0 0 disk maxdisk 0
        0 0 0 0 "" "" "" false "" false false [] [] None false.

(** S3: a QEMU config with one network device and the agent enabled. *)
Definition qemuConfigS3 : JMap :=
  [("net0", JString "virtio=AA:BB:CC:DD:EE:FF,bridge=vmbr0"); ("agent", JString "1")].
Definition clientS3 : Client :=
  guestClient (data []) (data qemuConfigS3) (inl unreachable)
              ([lo; eth0; docker0; veth0], None).

(** A QEMU config with the agent enabled and no network device (a guest
    whose only NIC is a passed-through PCI device). *)
Definition qemuConfigNoNet : JMap := [("agent", JString "1")].
Definition clientNoNet : Client :=
  guestClient (data []) (data qemuConfigNoNet) (inl unreachable)
              ([lo; eth0], None).

(** S5: an LXC config whose address is a placeholder. *)
Definition lxcConfigS5 : JMap :=
  [("net0", JString "name=eth0,ip=dhcp,hwaddr=aa:bb:cc:dd:ee:ff,bridge=vmbr0")].
Definition clientS5 : Client :=
  guestClient (data [("name", JString "ct")]) (data lxcConfigS5)
              (inl unreachable) ([], None).
(** An LXC config as Proxmox prints it, keys in alphabetical order after
    the name, with an IPv6 gateway of 17 bytes and five colons. *)
Definition lxcConfigGw6 : JMap :=
[("net0", JString "name=eth0,bridge=vmbr0,gw6=2001:db8:0:1::ff1,hwaddr=AA:BB:CC:DD:EE:FF,ip=dhcp,ip6=2001:db8:0:1::10/64")].
Definition clientGw6 : Client :=
guestClient (data [("name", JString "ct")]) (data lxcConfigGw6)
(inl unreachable) ([], None).
Definition lxcConfigStatic : JMap :=
  [("net0", JString "name=eth0,ip=10.0.0.7/24,hwaddr=AA:BB:CC:DD:EE:FF")].
Definition clientStatic : Client :=
  guestClient (data []) (data lxcConfigStatic) (inl unreachable) ([], None).

(** A guest agent that reports one root filesystem of 100 MiB, 60 MiB
    used, for a guest whose [status/current] has no disk fields. *)
Definition fsinfo : JMap :=
  [("result",
    JArray [JObject [("name", JString "sda1"); ("mountpoint", JString "/");
                     ("type", JString "ext4");
                     ("total-bytes", JNumber 104857600);
                     ("used-bytes", JNumber 62914560)]])].
Definition clientFs : Client :=
  guestClient (data [("cpu", JNumber 0.5)]) (data qemuConfigS3)
              (data fsinfo) ([eth0], None).

End Scenario.

(** ** Predicates used by the properties *)

(** A stored MAC: 17 bytes, five colons, no lower-case letter. *)
Definition wellFormedMAC (m : string) : Prop :=
  String.length m = 17%nat /\ strings.Count m ":"%char = 5%nat /\
  strings.isUpper m = true.

(** Every key of a configured-MAC map is well formed. *)
Definition macsWellFormed (macs : option (gset string)) : Prop :=
  match macs with
  | None => True
  | Some s => forall m : string, m ∈ s -> wellFormedMAC m
  end.

(** The number of config entries that name a network device. *)
Definition netDevices (configData : JMap) : nat :=
  length (List.filter (fun kv => isNetDevice (fst kv)) configData).

(** A guest that has been enriched once in scenario S3. *)
Definition guestS3 : VM.t :=
  VM.set_ConfiguredMACs (Some {["AA:BB:CC:DD:EE:FF"]})
    (VM.set_AgentEnabled true (Scenario.guest VMTypeQemu 100 10 20)).

(** The guest that [GetDetailedVmInfo] builds from the static LXC config. *)
Definition detailStatic : VM.t :=
  match GetDetailedVmInfo (X:=Scenario.env) Scenario.clientStatic "a" VMTypeLXC 101 with
  | inr vm => vm
  | inl _ => zeroVM
  end.

(** The choice of an interface's address as the specification words it: the
    first IPv4 address if there is one, otherwise the first IPv6 address,
    otherwise the first address, and nothing for an empty list. *)
Definition hasType (ty : string) (ip : IPAddress.t) : bool :=
  String.eqb (IPAddress.Type_ ip) ty.

Definition bestAddress (ips : list IPAddress.t) : list IPAddress.t :=
  match List.find (hasType IPTypeIPv4) ips with
  | Some ip => [ip]
  | None =>
      match List.find (hasType IPTypeIPv6) ips with
      | Some ip => [ip]
      | None => match ips with ip0 :: _ => [ip0] | [] => [] end
      end
  end.

(** The filter on reported interfaces as the specification words it, for a
    configured-MAC set [macs]. *)
Definition specShows (macs : gset string) (iface : NetworkInterface.t) : bool :=
  negb (NetworkInterface.IsLoopback iface) &&
  negb (strings.HasPrefix (NetworkInterface.Name iface) "veth") &&
  (bool_decide (macs = ∅) ||
   bool_decide (strings.ToUpper (NetworkInterface.MACAddress iface) ∈ macs)).

(** The QEMU guest of scenario S3 after [GetVmStatus], and the same guest
    when its config names no network device. *)
Definition enrichedS3 : VM.t :=
  fst (GetVmStatus (X:=Scenario.env) Scenario.clientS3 (Scenario.guest VMTypeQemu 100 10 20)).

Definition enrichedNoNet : VM.t :=
  fst (GetVmStatus (X:=Scenario.env) Scenario.clientNoNet (Scenario.guest VMTypeQemu 100 10 20)).

(** The same answers given to an LXC container. *)
Definition enrichedNoNetLxc : VM.t :=
  fst (GetVmStatus (X:=Scenario.env) Scenario.clientNoNet (Scenario.guest VMTypeLXC 101 10 20)).

(** The [status/current] answer for [vm] holds no positive number under
    [key]: the entry is missing, is not a number, or is not positive. *)
Definition noPositive (c : Client) (vm : VM.t) (key : string) : Prop :=
  forall (res data : JMap) (f : float),
    GetWithCache c (EpStatusCurrent (VM.Node vm) (VM.Type_ vm) (VM.ID vm)) = inr res ->
    jlookup res "data" = Some (JObject data) ->
    asFloat (jlookup data key) = Some f ->
    PrimFloat.ltb 0 f = false.

(** The disk fields of [vm'] come from the guest agent's filesystems: the
    guest is a running QEMU guest whose agent answered, the filtered
    filesystems have a positive total, and the two fields are their sums. *)
Definition filesystemOverride (vm' : VM.t) : Prop :=
  VM.Type_ vm' = VMTypeQemu /\ isRunning vm' = true /\
  VM.AgentEnabled vm' = true /\ VM.AgentRunning vm' = true /\
  0 < sum64 (map Filesystem.TotalBytes (VM.Filesystems vm')) /\
  VM.MaxDisk vm' = sum64 (map Filesystem.TotalBytes (VM.Filesystems vm')) /\
  VM.Disk vm' = sum64 (map Filesystem.UsedBytes (VM.Filesystems vm')).

(** The guest of the filesystem scenario before and after [GetVmStatus]. *)
Definition guestFs : VM.t := Scenario.guest VMTypeQemu 100 10 20.
Definition enrichedFs : VM.t :=
  fst (GetVmStatus (X:=Scenario.env) Scenario.clientFs guestFs).

(** A stopped guest with known disk figures, asked for its status. *)
Definition guestStopped : VM.t :=
  VM.set_Status VMStatusStopped (Scenario.guest VMTypeQemu 102 10 20).

(** Three guests in the order in which a node reports them. *)
Definition guestList : list VM.t :=
  [guestStopped; Scenario.guest VMTypeLXC 101 0 0; Scenario.guest VMTypeQemu 100 10 20].

(** The nodes that [calculateClusterTotals] aggregates over: online, with a
    positive core count. *)
Definition metered (nodes : list Node.t) : list Node.t :=
  List.filter (fun node => Node.Online node && PrimFloat.ltb 0 (Node.CPUCount node)) nodes.

(** The arithmetic mean of the CPU usage over the metered nodes, zero when
    there is none. *)
Definition meanCPUUsage (nodes : list Node.t) : float :=
  match metered nodes with
  | [] => 0%float
  | _ :: _ =>
      PrimFloat.div (fsum (map Node.CPUUsage (metered nodes)))
                    (float_of_int (Z.of_nat (length (metered nodes))))
  end.

(** The four aggregates of [cluster] are those of [nodes]. *)
Definition totalsOver (nodes : list Node.t) (cluster : Cluster.t) : Prop :=
  Cluster.CPUUsage cluster = meanCPUUsage nodes /\
  Cluster.TotalCPU cluster = fsum (map Node.CPUCount (metered nodes)) /\
  Cluster.MemoryTotal cluster = fsum (map Node.MemoryTotal (metered nodes)) /\
  Cluster.MemoryUsed cluster = fsum (map Node.MemoryUsed (metered nodes)).

(** Four nodes: two metered, one online without a core count, one offline. *)
Definition nodeOf (name : string) (online : bool) (cores usage : float) : Node.t :=
  Node.mk name name "" online "8.2" "" cores usage None [] 64%float 16%float
          0 0 0 None [] 0.

Definition fourNodes : Cluster.t :=
  Cluster.set_Nodes
    [nodeOf "a" true 8%float 0.25%float; nodeOf "b" true 0%float 0.875%float;
     nodeOf "c" false 4%float 0.5%float; nodeOf "d" true 4%float 0.75%float]
    (newCluster Scenario.offline).

(** The structs that a pass over the resources hands to [AddStorage] for the
    nodes of the cluster, in the order of the answer. *)
Definition storageReport {X : Externals} (nodes : list Node.t) (item : JSON)
  : option Storage.t :=
  match item with
  | JObject resource =>
      if String.eqb (getString resource "type") "storage" then
        match nodeMap nodes (getString resource "node") with
        | Some _ => Some (storageOf resource (getString resource "node"))
        | None => None
        end
      else None
  | _ => None
  end.

Definition storageReports {X : Externals} (nodes : list Node.t) (items : list JSON)
  : list Storage.t :=
  omap (storageReport nodes) items.

(** What the manager holds after a list of reports: as canonical shared
    storages the first report of each storage id, and every report of a
    non-shared storage. *)
Fixpoint distinctById (seen : list string) (l : list Storage.t) : list Storage.t :=
  match l with
  | [] => []
  | s :: rest =>
      if existsb (fun id => String.eqb id (StorageManager.storageId s)) seen
      then distinctById seen rest
      else s :: distinctById (seen ++ [StorageManager.storageId s]) rest
  end.

Definition sharedOnce (reports : list Storage.t) : list Storage.t :=
  distinctById [] (List.filter StorageManager.IsShared reports).

Definition nonShared (reports : list Storage.t) : list Storage.t :=
  List.filter (fun s => negb (StorageManager.IsShared s)) reports.

Definition expectedTotal (field : Storage.t -> Z) (reports : list Storage.t) : Z :=
  wrap64 (foldr Z.add 0 (map field (sharedOnce reports)) +
          foldr Z.add 0 (map field (nonShared reports))).

(** The storage manager after the reports have been added in order. *)
Definition addAll (reports : list Storage.t) (sm : StorageManager.t)
  : StorageManager.t :=
  fold_left (fun sm s => StorageManager.AddStorage s sm) reports sm.

(** *** The storage totals as the specification words them

    The specification's view of one storage record of [/cluster/resources]:
    the storage id (the [storage] entry of the record: [nas], [local]), the
    node that reports it, the shared flag ([shared = 1]) and the two figures
    [maxdisk] and [disk] as [int64].  These definitions read the records of
    the answer themselves and owe nothing to [storageOf] or to the storage
    manager. *)
Module StorageEntry.
Record t : Type := mk {
  id : string;
  node : string;
  shared : bool;
  maxdisk : Z;
  disk : Z
}.
End StorageEntry.

(** [name] is the name of a node of the cluster. *)
Definition isNodeOf (nodes : list Node.t) (name : string) : bool :=
  existsb (fun node => String.eqb (Node.Name node) name) nodes.

(** The entry that one element of the answer stands for: an object of type
    [storage] reported by a node of the cluster. *)
Definition storageEntryOf {X : Externals} (nodes : list Node.t) (item : JSON)
  : option StorageEntry.t :=
  match item with
  | JObject resource =>
      if String.eqb (getString resource "type") "storage" &&
         isNodeOf nodes (getString resource "node")
      then Some (StorageEntry.mk (getString resource "storage")
                                 (getString resource "node")
                                 (getInt resource "shared" =? 1)
                                 (int64_of_float (getFloat resource "maxdisk"))
                                 (int64_of_float (getFloat resource "disk")))
      else None
  | _ => None
  end.

Definition storageEntries {X : Externals} (nodes : list Node.t) (items : list JSON)
  : list StorageEntry.t :=
  omap (storageEntryOf nodes) items.

(** The first entry of each storage id that is not in [seen]. *)
Fixpoint firstOfEachId (seen : list string) (l : list StorageEntry.t)
  : list StorageEntry.t :=
  match l with
  | [] => []
  | e :: rest =>
      if existsb (fun id => String.eqb id (StorageEntry.id e)) seen
      then firstOfEachId seen rest
      else e :: firstOfEachId (seen ++ [StorageEntry.id e]) rest
  end.

(** Each distinct shared storage once, by its first entry. *)
Definition sharedEntriesOnce (entries : list StorageEntry.t) : list StorageEntry.t :=
  firstOfEachId [] (List.filter StorageEntry.shared entries).

(** Every (node, storage) entry of a non-shared storage. *)
Definition localEntries (entries : list StorageEntry.t) : list StorageEntry.t :=
  List.filter (fun e => negb (StorageEntry.shared e)) entries.

(** The sum of a figure taken once per distinct shared storage id plus once
    per entry of a non-shared storage, as an [int64]. *)
Definition storageSum (field : StorageEntry.t -> Z) (entries : list StorageEntry.t) : Z :=
  wrap64 (foldr Z.add 0 (map field (sharedEntriesOnce entries)) +
          foldr Z.add 0 (map field (localEntries entries))).

(** The entry that a struct of the code stands for. *)
Definition entryOf (s : Storage.t) : StorageEntry.t :=
  StorageEntry.mk (Storage.Name s) (Storage.Node s) (StorageManager.IsShared s)
                  (Storage.MaxDisk s) (Storage.Disk s).

(** The events that are calls of the callback. *)
Definition isCallback (e : Event) : bool :=
  match e with EvCallback _ => true | _ => false end.

(** A node's status request is made and fails, or is made and succeeds; no
    request is made for a node that [/cluster/status] reports offline. *)
Definition statusFails (c : Client) (node : Node.t) : Prop :=
  Node.Online node = true /\ exists err, GetNodeStatus c (Node.Name node) = inl err.

Definition statusSucceeds (c : Client) (node : Node.t) : Prop :=
  Node.Online node = true /\ exists full, GetNodeStatus c (Node.Name node) = inr full.

(** Some node's request fails while another's succeeds. *)
Definition partialFailure (c : Client) (nodes : list Node.t) : Prop :=
  (exists node, node ∈ nodes /\ statusFails c node) /\
  (exists node, node ∈ nodes /\ statusSucceeds c node).

(** The cluster of scenarios S1 and S2: nodes a, b and c, of which the node
    named [down] does not answer its status request; [resources] is the answer
    to [/cluster/resources]. *)
Definition clusterStatusS1 : JMap :=
  [("data",
    JArray [JObject [("type", JString "cluster"); ("name", JString "lab");
                     ("quorate", JNumber 1); ("nodes", JNumber 3)];
            JObject [("type", JString "node"); ("name", JString "a");
                     ("ip", JString "10.0.0.1"); ("online", JNumber 1)];
            JObject [("type", JString "node"); ("name", JString "b");
                     ("ip", JString "10.0.0.2"); ("online", JNumber 1)];
            JObject [("type", JString "node"); ("name", JString "c");
                     ("ip", JString "10.0.0.3"); ("online", JNumber 1)]])].

Definition clusterClient (down : string) (resources : error + JMap) : Client := {|
  GetWithCache ep :=
    match ep with
    | EpClusterStatus => inr clusterStatusS1
    | EpClusterResources => resources
    | _ => inl Scenario.unreachable
    end;
  GetNodeStatus name :=
    if String.eqb name down then inl Scenario.unreachable
    else inr (nodeOf name true 8%float 0%float);
  GetGuestAgentInterfaces _ := ([], Some Scenario.unreachable);
  GetLxcInterfaces _ := ([], Some Scenario.unreachable);
  Now := 1700000000
|}.

(** S1: node b is down. *)
Definition clientS1 (resources : error + JMap) : Client := clusterClient "b" resources.

Definition storageRecord (node name : string) (shared maxdisk disk : float) : JSON :=
  JObject [("type", JString "storage"); ("node", JString node);
           ("id", JString ("storage/" +:+ node +:+ "/" +:+ name));
           ("storage", JString name); ("shared", JNumber shared);
           ("maxdisk", JNumber maxdisk); ("disk", JNumber disk)].

(** S2: the shared storage [nas] of 1 TB seen from a and b, and a local
    storage of 500 GB on each of them; every node answers. *)
Definition resourcesS2 : JMap :=
  [("data",
    JArray [storageRecord "a" "nas" 1 1000000000000 400000000000;
            storageRecord "a" "local" 0 500000000000 100000000000;
            storageRecord "b" "nas" 1 1000000000000 400000000000;
            storageRecord "b" "local" 0 500000000000 200000000000])].

Definition clientS2 : Client := clusterClient "" (inr resourcesS2).

(** The nodes after phase 1 of scenario S1. *)
Definition nodesS1 : Cluster.t :=
  match getClusterBasicStatus (X:=Scenario.env) (clientS1 (inr resourcesS2))
                              (newCluster (clientS1 (inr resourcesS2))) with
  | inr cluster => cluster
  | inl _ => newCluster (clientS1 (inr resourcesS2))
  end.

(** A node stub as phase 1 creates it. *)
Definition stub (name ip : string) : Node.t :=
  Node.mk name name ip true "" "" 0%float 0%float None [] 0%float 0%float
          0 0 0 None [] 0.

(** The cluster that [GetClusterStatus] returns in scenario S2. *)
Definition clusterS2 : Cluster.t :=
  match GetClusterStatus (X:=Scenario.env) clientS2 with
  | inr cluster => cluster
  | inl _ => newCluster clientS2
  end.

(** The guests of the online nodes, in the order in which both passes of
    the background enrichment visit them, and the call made for a guest. *)
Definition guestsOf (nodes : list Node.t) : list VM.t :=
  flat_map Node.VMs (List.filter Node.Online nodes).

Definition callOf (vm : VM.t) : Event := EvGetVmStatus (VM.Node vm) (VM.ID vm).

(** S6: two running QEMU guests with the agent enabled on node a; [ifaces]
    is what the guest agent answers. *)
Definition guestRecord (node : string) (vmid : float) : JSON :=
  JObject [("type", JString "qemu"); ("node", JString node); ("vmid", JNumber vmid);
           ("name", JString "vm"); ("status", JString "running")].

Definition clientS6 (ifaces : list NetworkInterface.t * option error) : Client := {|
  GetWithCache ep :=
    match ep with
    | EpClusterStatus => inr clusterStatusS1
    | EpClusterResources =>
        inr [("data", JArray [guestRecord "a" 100; guestRecord "a" 101])]
    | EpStatusCurrent _ _ _ => Scenario.data []
    | EpConfig _ _ _ => Scenario.data Scenario.qemuConfigS3
    | EpAgentFsinfo _ _ => inl Scenario.unreachable
    end;
  GetNodeStatus name := inr (nodeOf name true 8%float 0%float);
  GetGuestAgentInterfaces _ := ifaces;
  GetLxcInterfaces _ := ([], None);
  Now := 1700000000
|}.

Definition agentStarting : Client := clientS6 ([], Some Scenario.unreachable).
Definition agentReady : Client := clientS6 ([Scenario.eth0], None).

(** ** Predicates and scenarios for the further properties *)

(** A part of a net string that yields an address: [ip=] followed by a value
    that passes [isValidIP] once its mask is cut. *)
Definition validIPPart {X : Externals} (part : string) : bool :=
  startsWith3 part "ip=" && isValidIP (stripMask (strings.drop 3 part)).

(** Some string entry of the config whose key starts with [net] has such a
    part. *)
Definition hasConfigIP {X : Externals} (configData : JMap) : Prop :=
  exists k netStr part : string,
    (k, JString netStr) ∈ configData /\ startsWith3 k "net" = true /\
    part ∈ strings.Split netStr ","%char /\ validIPPart part = true.

(** The config of scenario S3 as another run of the [range] loop may visit
    it. *)
Definition qemuConfigS3_reordered : JMap :=
  [("agent", JString "1"); ("net0", JString "virtio=AA:BB:CC:DD:EE:FF,bridge=vmbr0")].

(** The fields that identify a guest and that come from
    [/cluster/resources] only. *)
Definition sameIdentity (a b : VM.t) : Prop :=
  VM.ID a = VM.ID b /\ VM.Name a = VM.Name b /\ VM.Node a = VM.Node b /\
  VM.Type_ a = VM.Type_ b /\ VM.Status a = VM.Status b /\
  VM.Template a = VM.Template b /\ VM.Tags a = VM.Tags b /\
  VM.HAState a = VM.HAState b /\ VM.Lock a = VM.Lock b /\ VM.Pool a = VM.Pool b.

(** What only the branches for running guests write. *)
Definition sameGuestView (a b : VM.t) : Prop :=
  VM.IP a = VM.IP b /\ VM.AgentEnabled a = VM.AgentEnabled b /\
  VM.AgentRunning a = VM.AgentRunning b /\
  VM.NetInterfaces a = VM.NetInterfaces b /\
  VM.Filesystems a = VM.Filesystems b /\
  VM.ConfiguredMACs a = VM.ConfiguredMACs b.

(** The path of a guest's [status/current] request. *)
Definition statusEndpoint (vm : VM.t) : Endpoint :=
  EpStatusCurrent (VM.Node vm) (VM.Type_ vm) (VM.ID vm).

(** [GetVmStatus] takes one of its two branches for [vm]. *)
Definition takesBranch (vm : VM.t) : bool :=
  isRunning vm &&
  (String.eqb (VM.Type_ vm) VMTypeQemu || String.eqb (VM.Type_ vm) VMTypeLXC).

(** An interface that both filters of [GetVmStatus] may show for [vm]: not a
    loopback, and with its MAC among the configured ones when there are
    any. *)
Definition shownFor (vm : VM.t) (iface : NetworkInterface.t) : Prop :=
  NetworkInterface.IsLoopback iface = false /\
  (noConfiguredMACs vm = false ->
   hasConfiguredMAC vm (strings.ToUpper (NetworkInterface.MACAddress iface)) = true).

(** How the address of a guest may differ after [GetVmStatus]: it is the
    one held before, or it has been cleared (then the guest carries no
    interface and no configured MAC), or there was none and it has been taken
    from the interfaces that the guest now carries. *)
Definition ipOutcome {X : Externals} (vm vm' : VM.t) : Prop :=
  VM.IP vm' = VM.IP vm \/
  (VM.IP vm' = "" /\ VM.NetInterfaces vm' = [] /\ noConfiguredMACs vm' = true) \/
  (VM.IP vm = "" /\ VM.NetInterfaces vm' <> [] /\
   VM.IP vm' = GetFirstNonLoopbackIP (VM.NetInterfaces vm') true).

(** The flags that [GetGuestAgentFilesystems] derives from a mountpoint. *)
Definition flagsFromMountpoint (fs : Filesystem.t) : Prop :=
  Filesystem.IsRoot fs = String.eqb (Filesystem.Mountpoint fs) "/" /\
  Filesystem.IsSystemDrive fs =
    strings.HasPrefix (strings.ToLower (Filesystem.Mountpoint fs)) "c:".

(** The number of objects in a decoded array. *)
Definition objectsIn (items : list JSON) : nat :=
  length (List.filter (fun item => match item with JObject _ => true | _ => false end) items).

(** A running QEMU guest whose agent is disabled in its config. *)
Definition guestAgentOff : VM.t := Scenario.guest VMTypeQemu 100 10 20.

(** [node'] is [node] with another list of guests. *)
Definition sameHost (node node' : Node.t) : Prop :=
  node' = Node.set_VMs (Node.VMs node') node.

(** What the first enrichment pass does to one guest. *)
Definition enrichedGuest {X : Externals} (c : Client) (vm vm' : VM.t) : Prop :=
  sameIdentity vm' vm /\
  (isRunning vm = false -> vm' = vm) /\
  (isRunning vm = true -> vm' = fst (enrichWorker c vm)).

(** What it does to one node. *)
Definition enrichedNode {X : Externals} (c : Client) (node node' : Node.t) : Prop :=
  sameHost node node' /\
  (Node.Online node = false -> node' = node) /\
  (Node.Online node = true -> Forall2 (enrichedGuest c) (Node.VMs node) (Node.VMs node')).

(** What the retry pass does to one guest and to one node. *)
Definition retriedGuest {X : Externals} (c : Client) (vm vm' : VM.t) : Prop :=
  sameIdentity vm' vm /\
  (needsRetry vm = false -> vm' = vm) /\
  (needsRetry vm = true -> vm' = fst (GetVmStatus c vm)).

Definition retriedNode {X : Externals} (c : Client) (node node' : Node.t) : Prop :=
  sameHost node node' /\
  (Node.Online node = false -> node' = node) /\
  (Node.Online node = true -> Forall2 (retriedGuest c) (Node.VMs node) (Node.VMs node')).

(** Every guest points back to the node that holds it and is a QEMU guest
    or a container. *)
Definition guestsConsistent (nodes : list Node.t) : Prop :=
  Forall (fun node =>
            Forall (fun vm => VM.Node vm = Node.Name node /\
                              (VM.Type_ vm = VMTypeQemu \/ VM.Type_ vm = VMTypeLXC))
                   (Node.VMs node))
         nodes.

(** The node that one record of [/cluster/status] adds, if any. *)
Definition nodeStub {X : Externals} (item : JSON) : option Node.t :=
  match item with
  | JObject itemMap =>
      if String.eqb (getString itemMap "type") "node" then
        Some (Node.mk (getString itemMap "name") (getString itemMap "name")
                      (getString itemMap "ip") (getInt itemMap "online" =? 1)
                      "" "" 0%float 0%float None [] 0%float 0%float
                      0 0 0 None [] 0)
      else None
  | _ => None
  end.

(** What node enrichment does to one node. *)
Definition refreshedNode (c : Client) (node node' : Node.t) : Prop :=
  Node.ID node' = Node.ID node /\ Node.Name node' = Node.Name node /\
  Node.IP node' = Node.IP node /\ Node.VMs node' = Node.VMs node /\
  Node.Storage node' = Node.Storage node /\
  (Node.Online node = false -> node' = node) /\
  (Node.Online node' = true <-> statusSucceeds c node) /\
  (Node.Online node' = true -> Node.lastMetricsUpdate node' = Now c).

(** A cluster that one of the two builds returns. *)
Definition builtBy {X : Externals} (c : Client) (cluster : Cluster.t) : Prop :=
  GetClusterStatus c = inr cluster \/
  exists late cb, fst (FastGetClusterStatus c late cb) = inr cluster.

(** The guest that one record of [/cluster/resources] adds to the node
    named [nodeName], if any, field by field from the entries of the record;
    the counters that the record does not carry are zero, and nothing of the
    guest has been enriched. *)
Definition guestReport {X : Externals} (nodeName : string) (item : JSON) : option VM.t :=
  match item with
  | JObject resource =>
      let resType := getString resource "type" in
      if (String.eqb resType VMTypeQemu || String.eqb resType VMTypeLXC) &&
         String.eqb (getString resource "node") nodeName
      then Some (VM.mk (getInt resource "vmid") (getString resource "name")
                       nodeName resType
                       (getString resource "status") (getString resource "ip")
                       (getFloat resource "cpu")
                       (int64_of_float (getFloat resource "mem"))
                       (int64_of_float (getFloat resource "maxmem"))
                       (int64_of_float (getFloat resource "disk"))
                       (int64_of_float (getFloat resource "maxdisk"))
                       (int64_of_float (getFloat resource "uptime"))
                       0 0 0 0
                       (getString resource "hastate") (getString resource "lock")
                       (getString resource "tags") (getBool resource "template")
                       (getString resource "pool")
                       false false [] [] None false)
      else None
  | _ => None
  end.

(** The guests that a pass over the records adds to the node at index [i]
    of [nodes]: those that name it, provided [nodeMap] leads to that index. *)
Definition guestReports {X : Externals} (nodes : list Node.t) (i : nat)
           (nodeName : string) (items : list JSON) : list VM.t :=
  if bool_decide (nodeMap nodes nodeName = Some i)
  then omap (guestReport nodeName) items
  else [].

(** The cluster that [GetClusterStatus] returns in scenario S6 once the
    guest agents answer. *)
Definition clusterS6 : Cluster.t :=
  match GetClusterStatus (X:=Scenario.env) agentReady with
  | inr cluster => cluster
  | inl _ => newCluster agentReady
  end.

(** The nodes of scenario S1 after the resources of scenario S6 have been
    processed. *)
Definition guestsS6 : Cluster.t :=
  match processClusterResources (X:=Scenario.env) agentReady nodesS1 with
  | inr cluster => cluster
  | inl _ => nodesS1
  end.

(** [GetSelectedVM], for the index [idx] that the list widget reports as
    its current item; [None] is the nil pointer. *)
Definition GetSelectedVM (vl : VMList.t) (idx : Z) : option VM.t :=
  if (0 <=? idx) && (idx <? Z.of_nat (length (VMList.vms vl)))
  then VMList.vms vl !! Z.to_nat idx
  else None.

(** A guest that the retry pass asks again. *)
Definition askedAgain (vm : VM.t) : Prop :=
  isRunning vm = true /\ VM.Type_ vm = VMTypeQemu /\ VM.AgentEnabled vm = true /\
  (VM.AgentRunning vm = false \/ VM.NetInterfaces vm = []).

(** * Properties *)

(** ** Byte strings *)

Lemma upperByte_not_lower (a : ascii) :
  let n := nat_of_ascii (strings.upperByte a) in
  ((97 <=? n) && (n <=? 122))%nat = false.
Proof. destruct a as [[] [] [] [] [] [] [] []]; reflexivity. Qed.

Lemma ToUpper_isUpper (s : string) : strings.isUpper (strings.ToUpper s) = true.
Proof.
  unfold strings.ToUpper.
  induction s as [|a s IH]; [reflexivity|].
  cbn [strings.mapBytes strings.isUpper].
  pose proof (upperByte_not_lower a) as H. cbv zeta in H |- *. rewrite H.
  exact IH.
Qed.

Lemma mapBytes_length (f : ascii -> ascii) (s : string) :
  String.length (strings.mapBytes f s) = String.length s.
Proof. induction s as [|a s IH]; cbn; [reflexivity|now rewrite IH]. Qed.

Lemma upperByte_colon (a : ascii) :
  Ascii.eqb (strings.upperByte a) ":"%char = Ascii.eqb a ":"%char.
Proof. destruct a as [[] [] [] [] [] [] [] []]; reflexivity. Qed.

Lemma ToUpper_Count_colon (s : string) :
  strings.Count (strings.ToUpper s) ":"%char = strings.Count s ":"%char.
Proof.
  unfold strings.ToUpper.
  induction s as [|a s IH]; [reflexivity|].
  cbn [strings.mapBytes strings.Count].
  now rewrite upperByte_colon, IH.
Qed.

(** ** Frame lemmas: what the field updates leave alone *)

Section frames.
Context {X : Externals} {A : Type} (proj : VM.t -> A).

Lemma updInt_frame data key set vm :
  (forall v x, proj (set v x) = proj x) -> proj (updInt data key set vm) = proj vm.
Proof. intros H. unfold updInt. destruct (asFloat _); [apply H|reflexivity]. Qed.

Lemma updFloat_frame data key set vm :
  (forall v x, proj (set v x) = proj x) -> proj (updFloat data key set vm) = proj vm.
Proof. intros H. unfold updFloat. destruct (asFloat _); [apply H|reflexivity]. Qed.

Lemma updString_frame data key set vm :
  (forall v x, proj (set v x) = proj x) -> proj (updString data key set vm) = proj vm.
Proof. intros H. unfold updString. destruct (asString _); [apply H|reflexivity]. Qed.

Lemma fillIP_frame vm :
  (forall v x, proj (VM.set_IP v x) = proj x) -> proj (fillIP vm) = proj vm.
Proof. intros H. unfold fillIP. destruct (_ && _); [apply H|reflexivity]. Qed.

Lemma clearIPWithoutMACs_frame vm :
  (forall v x, proj (VM.set_IP v x) = proj x) ->
  proj (clearIPWithoutMACs vm) = proj vm.
Proof.
  intros H. unfold clearIPWithoutMACs.
  destruct (noConfiguredMACs vm); [apply H|reflexivity].
Qed.

Lemma statusDisk_frame data currentDisk currentMaxDisk vm :
  (forall v x, proj (VM.set_Disk v x) = proj x) ->
  (forall v x, proj (VM.set_MaxDisk v x) = proj x) ->
  proj (statusDisk data currentDisk currentMaxDisk vm) = proj vm.
Proof.
  intros Hd Hm. unfold statusDisk.
  destruct (asFloat (jlookup data "disk")) as [f|]; [destruct (PrimFloat.ltb 0 f)|];
    (destruct (asFloat (jlookup data "maxdisk")) as [g|];
     [destruct (PrimFloat.ltb 0 g)|]);
    cbn [negb andb];
    destruct (0 <? currentDisk); destruct (0 <? currentMaxDisk);
    rewrite ?Hd, ?Hm, ?Hd, ?Hm; reflexivity.
Qed.
End frames.

(** A setter of another field preserves the projection by computation. *)
Ltac setter_frame := intros ? ?; reflexivity.

(** Peels the field updates off [proj (f (g (... vm)))] when none of them
    writes the projected field. *)
Ltac frame proj :=
  repeat first
    [ reflexivity
    | rewrite (updInt_frame proj) by setter_frame
    | rewrite (updFloat_frame proj) by setter_frame
    | rewrite (updString_frame proj) by setter_frame
    | rewrite (fillIP_frame proj) by setter_frame
    | rewrite (clearIPWithoutMACs_frame proj) by setter_frame
    | rewrite (statusDisk_frame proj) by setter_frame ].

(** ** The configured-MAC set (C9) *)

Section configured_macs.
Context {X : Externals}.

Lemma macShape_spec (m : string) :
  macShape m = true <->
  String.length m = 17%nat /\ strings.Count m ":"%char = 5%nat.
Proof.
  unfold macShape. rewrite andb_true_iff, !Nat.eqb_eq. reflexivity.
Qed.

Lemma macShape_ToUpper (m : string) : macShape (strings.ToUpper m) = macShape m.
Proof.
  unfold macShape, strings.ToUpper at 1.
  now rewrite mapBytes_length, ToUpper_Count_colon.
Qed.

(** Whatever the branch (an [hwaddr=] part, a [model=MAC] part or a bare
    MAC), the candidate is an upper-cased string or empty. *)
Lemma macOfPart_isUpper (part : string) : strings.isUpper (macOfPart part) = true.
Proof.
  unfold macOfPart.
  destruct (strings.HasPrefix part "hwaddr="); [apply ToUpper_isUpper|].
  destruct (strings.Contains part "=").
  - destruct (strings.SplitN2 part "="%char) as [|? [|m [|? ?]]]; try reflexivity.
    destruct (macShape m); [apply ToUpper_isUpper|reflexivity].
  - destruct (macShape part); [apply ToUpper_isUpper|reflexivity].
Qed.

Lemma firstMAC_wellFormed (parts : list string) (m : string) :
  firstMAC parts = Some m -> wellFormedMAC m.
Proof.
  induction parts as [|part rest IH]; cbn [firstMAC]; [discriminate|].
  destruct (negb (String.eqb (macOfPart part) "") && macShape (macOfPart part))
    eqn:E; [|exact IH].
  intros [= <-]. apply andb_true_iff in E as [_ Hs].
  apply macShape_spec in Hs as [Hl Hc].
  repeat split; auto using macOfPart_isUpper.
Qed.

Lemma addConfiguredMAC_wellFormed (macs : gset string) (kv : string * JSON) :
  (forall m : string, m ∈ macs -> wellFormedMAC m) ->
  forall m : string, m ∈ addConfiguredMAC macs kv -> wellFormedMAC m.
Proof.
  intros Hwf m. unfold addConfiguredMAC.
  destruct (isNetDevice kv.1); [|apply Hwf].
  destruct kv.2 as [| | |netStr| |]; try apply Hwf.
  destruct (firstMAC _) as [mac|] eqn:E; [|apply Hwf].
  rewrite elem_of_union, elem_of_singleton.
  intros [->|Hin]; [eapply firstMAC_wellFormed; eassumption|now apply Hwf].
Qed.

Lemma fold_addConfiguredMAC_wellFormed (configData : JMap) (macs : gset string) :
  (forall m : string, m ∈ macs -> wellFormedMAC m) ->
  forall m : string,
    m ∈ fold_left addConfiguredMAC configData macs -> wellFormedMAC m.
Proof.
  revert macs. induction configData as [|kv rest IH]; intros macs Hwf; [exact Hwf|].
  cbn [fold_left]. apply IH. now apply addConfiguredMAC_wellFormed.
Qed.

Lemma configuredMACs_wellFormed (configData : JMap) :
  macsWellFormed (Some (configuredMACs configData)).
Proof.
  intros m Hm.
  eapply fold_addConfiguredMAC_wellFormed; [|exact Hm].
  intros m' Hm'. now apply not_elem_of_empty in Hm'.
Qed.

Lemma size_add_singleton (m : string) (s : gset string) :
  (size ({[m]} ∪ s) <= S (size s))%nat.
Proof.
  rewrite size_union_alt, size_singleton.
  pose proof (subseteq_size (s ∖ {[m]}) s) as Hle.
  assert (s ∖ {[m]} ⊆ s) as Hsub
    by (intros x Hx; apply elem_of_difference in Hx; tauto).
  specialize (Hle Hsub). lia.
Qed.

Lemma fold_addConfiguredMAC_size (configData : JMap) (macs : gset string) :
  (size (fold_left addConfiguredMAC configData macs)
   <= size macs + netDevices configData)%nat.
Proof.
  revert macs. induction configData as [|kv rest IH]; intros macs.
  - cbn. lia.
  - cbn [fold_left]. etransitivity; [apply IH|].
    unfold netDevices, addConfiguredMAC. cbn [List.filter].
    destruct (isNetDevice kv.1); cbn [length]; [|lia].
    destruct kv.2 as [| | |netStr| |]; try lia.
    destruct (firstMAC _); [|lia].
    pose proof (size_add_singleton s macs). unfold netDevices. lia.
Qed.
End configured_macs.

Section configured_macs_later.
Context {X : Externals}.

Lemma statusMetrics_MACs data d m vm :
  VM.ConfiguredMACs (statusMetrics data d m vm) = VM.ConfiguredMACs vm.
Proof. unfold statusMetrics. frame VM.ConfiguredMACs. Qed.

Lemma qemuConfig_MACs (c : Client) (vm : VM.t) :
  macsWellFormed (VM.ConfiguredMACs vm) ->
  macsWellFormed (VM.ConfiguredMACs (qemuConfig c vm)).
Proof.
  intros Hwf. unfold qemuConfig.
  destruct (GetWithCache c _) as [|configRes]; [exact Hwf|].
  destruct (jlookup configRes "data") as [[| | | | |configData]|]; try exact Hwf.
  destruct (jlookup configData "agent"); apply configuredMACs_wellFormed.
Qed.

Lemma applyFilesystems_MACs fss vm :
  VM.ConfiguredMACs (applyFilesystems fss vm) = VM.ConfiguredMACs vm.
Proof. unfold applyFilesystems. destruct (0 <? _); reflexivity. Qed.

Lemma enrichQemu_MACs (c : Client) (vm : VM.t) :
  macsWellFormed (VM.ConfiguredMACs vm) ->
  macsWellFormed (VM.ConfiguredMACs (enrichQemu c vm)).
Proof.
  intros Hwf. apply (qemuConfig_MACs c) in Hwf. unfold enrichQemu.
  set (vm1 := qemuConfig c vm) in *.
  destruct (VM.AgentEnabled vm1); [|exact Hwf].
  destruct (GetGuestAgentInterfaces c vm1) as [raw [err|]].
  - now rewrite (clearIPWithoutMACs_frame VM.ConfiguredMACs) by setter_frame.
  - destruct (0 <? length raw)%nat.
    + destruct (GetGuestAgentFilesystems c _) as [|fss].
      * now rewrite (fillIP_frame VM.ConfiguredMACs) by setter_frame.
      * destruct (0 <? length fss)%nat;
          rewrite ?applyFilesystems_MACs;
          now rewrite (fillIP_frame VM.ConfiguredMACs) by setter_frame.
    + now rewrite (clearIPWithoutMACs_frame VM.ConfiguredMACs) by setter_frame.
Qed.

Lemma enrichLxc_MACs (c : Client) (vm : VM.t) :
  macsWellFormed (VM.ConfiguredMACs vm) ->
  macsWellFormed (VM.ConfiguredMACs (enrichLxc c vm)).
Proof.
  intros Hwf. unfold enrichLxc.
  set (vm1 := lxcConfig c vm).
  assert (macsWellFormed (VM.ConfiguredMACs vm1)) as Hwf1.
  { subst vm1. unfold lxcConfig. destruct (GetWithCache c _) as [|configRes]; [exact Hwf|].
    destruct (jlookup configRes "data") as [[| | | | |configData]|]; try exact Hwf.
    apply configuredMACs_wellFormed. }
  destruct (GetLxcInterfaces c vm1) as [raw err].
  destruct (0 <? length raw)%nat.
  - now rewrite (fillIP_frame VM.ConfiguredMACs) by setter_frame.
  - now rewrite (clearIPWithoutMACs_frame VM.ConfiguredMACs) by setter_frame.
Qed.

Lemma GetVmStatus_MACs (c : Client) (vm : VM.t) :
  macsWellFormed (VM.ConfiguredMACs vm) ->
  macsWellFormed (VM.ConfiguredMACs (fst (GetVmStatus c vm))).
Proof.
  intros Hwf. unfold GetVmStatus.
  destruct (GetWithCache c _) as [|res]; [exact Hwf|].
  destruct (jlookup res "data") as [[| | | | |data]|]; try exact Hwf.
  cbn [fst].
  set (vm1 := statusMetrics data _ _ vm).
  assert (macsWellFormed (VM.ConfiguredMACs vm1)) as Hwf1
    by (subst vm1; now rewrite statusMetrics_MACs).
  destruct (_ && _); [now apply enrichQemu_MACs|].
  destruct (_ && _); [now apply enrichLxc_MACs|exact Hwf1].
Qed.

Lemma enrichWorker_MACs (c : Client) (vm : VM.t) :
  macsWellFormed (VM.ConfiguredMACs vm) ->
  macsWellFormed (VM.ConfiguredMACs (fst (enrichWorker c vm))).
Proof.
  intros Hwf. apply (GetVmStatus_MACs c) in Hwf. unfold enrichWorker.
  destruct (GetVmStatus c vm) as [vm1 err]. cbn [fst] in *.
  destruct (_ && _); destruct (_ && _); exact Hwf.
Qed.

Lemma GetDetailedVmInfo_MACs (c : Client) (node vmType : string) (vmid : Z) (vm : VM.t) :
  GetDetailedVmInfo c node vmType vmid = inr vm ->
  exists configRes configData,
    GetWithCache c (EpConfig node vmType vmid) = inr configRes /\
    jlookup configRes "data" = Some (JObject configData) /\
    VM.ConfiguredMACs vm = Some (configuredMACs configData) /\
    VM.IP vm = match configIP configData with Some ip => ip | None => "" end.
Proof.
  unfold GetDetailedVmInfo.
  destruct (GetWithCache c (EpStatusCurrent _ _ _)) as [|statusRes]; [discriminate|].
  destruct (jlookup statusRes "data") as [[| | | | |statusData]|]; try discriminate.
  destruct (GetWithCache c (EpConfig _ _ _)) as [|configRes]; [discriminate|].
  destruct (jlookup configRes "data") as [[| | | | |configData]|] eqn:E; try discriminate.
  intros [= <-]. exists configRes, configData. repeat split; [exact E|].
  unfold detailFromConfig, populateConfiguredMACs.
  cbn [VM.IP VM.set_Enriched VM.set_ConfiguredMACs].
  destruct (configIP configData) as [ip|].
  - reflexivity.
  - destruct (jlookup configData "agent"); cbn [VM.IP VM.set_AgentEnabled];
      rewrite (updString_frame VM.IP) by setter_frame;
      destruct (jlookup configData "template"); cbn [VM.IP VM.set_Template];
      unfold detailFromStatus; frame VM.IP.
Qed.
End configured_macs_later.

(** C9.  After [populateConfiguredMACs] has processed a guest config, the
    configured-MAC map is allocated and each of its keys has exactly 17 bytes,
    exactly five colons and no lower-case letter, whichever of the three part
    formats it came from; one config entry adds at most one key, so there are
    at most as many keys as the config has network devices; and a map that is
    well formed stays so through [GetVmStatus] and the [EnrichVMs] worker, the
    only later operations that touch it. *)
Theorem C9_configured_macs_well_formed {X : Externals} :
  (forall (vm : VM.t) (configData : JMap),
     exists macs : gset string,
       VM.ConfiguredMACs (populateConfiguredMACs vm configData) = Some macs /\
       (forall m : string, m ∈ macs -> wellFormedMAC m) /\
       (size macs <= netDevices configData)%nat) /\
  (forall (macs : gset string) (kv : string * JSON),
     (size (addConfiguredMAC macs kv) <= S (size macs))%nat) /\
  (forall (c : Client) (vm : VM.t),
     macsWellFormed (VM.ConfiguredMACs vm) ->
     macsWellFormed (VM.ConfiguredMACs (fst (GetVmStatus c vm))) /\
     macsWellFormed (VM.ConfiguredMACs (fst (enrichWorker c vm)))).
Proof.
  split; [|split].
  - intros vm configData. exists (configuredMACs configData).
    split; [reflexivity|]. split.
    + exact (configuredMACs_wellFormed configData).
    + pose proof (fold_addConfiguredMAC_size configData ∅) as H.
      rewrite size_empty in H. exact H.
  - intros macs kv.
    pose proof (fold_addConfiguredMAC_size [kv] macs) as H.
    cbn [fold_left] in H. unfold netDevices in H. cbn [List.filter] in H.
    destruct (isNetDevice kv.1); cbn [length] in H; lia.
  - intros c vm Hwf. split.
    + now apply GetVmStatus_MACs.
    + now apply enrichWorker_MACs.
Qed.

Lemma guestS3_well_formed : macsWellFormed (VM.ConfiguredMACs guestS3).
Proof.
  intros m Hm. apply elem_of_singleton in Hm. subst m.
  repeat split; reflexivity.
Qed.

Lemma C9_witness :
  macsWellFormed (VM.ConfiguredMACs guestS3) /\
  macsWellFormed
    (VM.ConfiguredMACs (fst (GetVmStatus (X:=Scenario.env) Scenario.clientS3 guestS3))).
Proof.
  split; [exact guestS3_well_formed|].
  exact (proj1 (proj2 (proj2 (C9_configured_macs_well_formed (X:=Scenario.env)))
                  Scenario.clientS3 guestS3 guestS3_well_formed)).
Defined.

(** ** Addresses and MACs taken from a guest config (C7) *)

Section config_ip.
Context {X : Externals}.

Lemma isValidIP_true (ip : string) :
  isValidIP ip = true ->
  ip <> "" /\ ip <> "dhcp" /\ ip <> "manual" /\ ip <> "static" /\ ParseIP ip = true.
Proof.
  unfold isValidIP.
  destruct (String.eqb ip "") eqn:E0; [discriminate|].
  destruct (String.eqb ip "dhcp") eqn:E1; [discriminate|].
  destruct (String.eqb ip "manual") eqn:E2; [discriminate|].
  destruct (String.eqb ip "static") eqn:E3; [discriminate|].
  cbn [orb]. intros HP.
  apply String.eqb_neq in E0, E1, E2, E3. auto.
Qed.

Lemma firstConfigIP_Some (parts : list string) (ip : string) :
  firstConfigIP parts = Some ip ->
  exists part : string,
    part ∈ parts /\ startsWith3 part "ip=" = true /\
    ip = stripMask (strings.drop 3 part) /\ isValidIP ip = true.
Proof.
  induction parts as [|part rest IH]; cbn [firstConfigIP]; [discriminate|].
  destruct (startsWith3 part "ip=") eqn:Ep.
  - destruct (isValidIP (stripMask (strings.drop 3 part))) eqn:Ev.
    + intros [= <-]. exists part. repeat split; auto. left.
    + intros H. destruct (IH H) as (p & Hin & Hp). exists p. split; [now right|exact Hp].
  - intros H. destruct (IH H) as (p & Hin & Hp). exists p. split; [now right|exact Hp].
Qed.

Lemma configIP_Some (configData : JMap) (ip : string) :
  configIP configData = Some ip ->
  exists (k netStr : string),
    (k, JString netStr) ∈ configData /\ startsWith3 k "net" = true /\
    firstConfigIP (strings.Split netStr ","%char) = Some ip.
Proof.
  induction configData as [|[k v] rest IH]; cbn [configIP]; [discriminate|].
  assert (configIP rest = Some ip ->
          exists k0 netStr, (k0, JString netStr) ∈ (k, v) :: rest /\
            startsWith3 k0 "net" = true /\
            firstConfigIP (strings.Split netStr ","%char) = Some ip) as Hrest.
  { intros H. destruct (IH H) as (k0 & s & Hin & Hk). exists k0, s.
    split; [now right|exact Hk]. }
  destruct (startsWith3 k "net") eqn:Ek; [|exact Hrest].
  destruct v as [| | |netStr| |]; try exact Hrest.
  destruct (firstConfigIP _) as [ip'|] eqn:Ef; [|exact Hrest].
  intros [= <-]. exists k, netStr. repeat split; auto. left.
Qed.

Lemma fold_addConfiguredMAC_mono (configData : JMap) (macs : gset string) (m : string) :
  m ∈ macs -> m ∈ fold_left addConfiguredMAC configData macs.
Proof.
  revert macs. induction configData as [|kv rest IH]; intros macs Hm; [exact Hm|].
  cbn [fold_left]. apply IH. unfold addConfiguredMAC.
  destruct (isNetDevice kv.1); [|exact Hm].
  destruct kv.2; try exact Hm.
  destruct (firstMAC _); [|exact Hm].
  apply elem_of_union. now right.
Qed.

(** The MAC of a network device is stored whatever its [ip=] part says. *)
Lemma configuredMACs_stores (configData : JMap) (k netStr m : string) :
  (k, JString netStr) ∈ configData -> isNetDevice k = true ->
  firstMAC (strings.Split netStr ","%char) = Some m ->
  m ∈ configuredMACs configData.
Proof.
  unfold configuredMACs. generalize (∅ : gset string).
  induction configData as [|kv rest IH]; intros macs Hin Hk Hm.
  - now apply elem_of_nil in Hin.
  - apply elem_of_cons in Hin as [<-|Hin]; cbn [fold_left].
    + apply fold_addConfiguredMAC_mono. unfold addConfiguredMAC.
      cbn [fst snd]. rewrite Hk, Hm. apply elem_of_union. left.
      now apply elem_of_singleton.
    + now apply IH.
Qed.

Lemma macOfPart_hwaddr (mac : string) :
  macOfPart ("hwaddr=" +:+ mac) = strings.ToUpper mac.
Proof. reflexivity. Qed.

Lemma firstMAC_hwaddr (pre post : list string) (mac : string) :
  Forall (fun part => firstMAC [part] = None) pre ->
  macShape mac = true ->
  firstMAC (pre ++ ("hwaddr=" +:+ mac) :: post) = Some (strings.ToUpper mac).
Proof.
  intros Hpre Hmac. induction Hpre as [|part pre Hpart _ IH].
  - cbn [app firstMAC]. rewrite macOfPart_hwaddr, macShape_ToUpper, Hmac.
    apply macShape_spec in Hmac as [Hl _].
    destruct mac; [discriminate|reflexivity].
  - cbn [app firstMAC] in *.
    destruct (negb (String.eqb (macOfPart part) "") && macShape (macOfPart part));
      [discriminate|exact IH].
Qed.
End config_ip.

(** For a guest built by [GetDetailedVmInfo] from a config object
    [configData]: the guest IP is either left empty or is the value of an
    [ip=] part of a string entry whose key starts with [net], cut at its
    [/mask] suffix, and that value is accepted by [net.ParseIP]; it is never
    one of the placeholders [dhcp], [manual], [static]; and whatever the
    [ip=] part says, the [hwaddr] MAC of a network device entry is in the
    configured-MAC set when it has the shape of a MAC and no part before it
    has that shape. *)
Lemma GetDetailedVmInfo_config_ip {X : Externals}
        (c : Client) (node vmType : string) (vmid : Z) (vm : VM.t) :
  GetDetailedVmInfo c node vmType vmid = inr vm ->
  exists configRes configData,
    GetWithCache c (EpConfig node vmType vmid) = inr configRes /\
    jlookup configRes "data" = Some (JObject configData) /\
    (VM.IP vm = "" \/
     exists k netStr part : string,
       (k, JString netStr) ∈ configData /\ startsWith3 k "net" = true /\
       part ∈ strings.Split netStr ","%char /\ startsWith3 part "ip=" = true /\
       VM.IP vm = stripMask (strings.drop 3 part) /\
       ParseIP (VM.IP vm) = true) /\
    (VM.IP vm <> "dhcp" /\ VM.IP vm <> "manual" /\ VM.IP vm <> "static") /\
    (forall (k netStr mac : string) (pre post : list string),
       (k, JString netStr) ∈ configData -> isNetDevice k = true ->
       strings.Split netStr ","%char = (pre ++ ("hwaddr=" +:+ mac) :: post)%list ->
       Forall (fun part => firstMAC [part] = None) pre ->
       macShape mac = true ->
       hasConfiguredMAC vm (strings.ToUpper mac) = true).
Proof.
  intros Hvm.
  destruct (GetDetailedVmInfo_MACs c node vmType vmid vm Hvm)
    as (configRes & configData & Hres & Hdata & Hmacs & Hip).
  exists configRes, configData. split; [exact Hres|]. split; [exact Hdata|].
  split; [|split].
  - destruct (configIP configData) as [ip|] eqn:Eip; [right|now left].
    destruct (configIP_Some _ _ Eip) as (k & netStr & Hin & Hk & Hfirst).
    destruct (firstConfigIP_Some _ _ Hfirst) as (part & Hpart & Hpre & Heq & Hvalid).
    apply isValidIP_true in Hvalid as (_ & _ & _ & _ & Hparse).
    exists k, netStr, part. rewrite Hip. auto 10.
  - rewrite Hip. destruct (configIP configData) as [ip|] eqn:Eip.
    + destruct (configIP_Some _ _ Eip) as (k & netStr & _ & _ & Hfirst).
      destruct (firstConfigIP_Some _ _ Hfirst) as (_ & _ & _ & _ & Hvalid).
      apply isValidIP_true in Hvalid. tauto.
    + repeat split; discriminate.
  - intros k netStr mac pre post Hin Hk Hsplit Hpre Hshape.
    unfold hasConfiguredMAC. rewrite Hmacs. apply bool_decide_eq_true.
    eapply configuredMACs_stores; [exact Hin|exact Hk|].
    rewrite Hsplit. now apply firstMAC_hwaddr.
Qed.

Lemma detailStatic_config_ip :
  GetDetailedVmInfo (X:=Scenario.env) Scenario.clientStatic "a" VMTypeLXC 101
    = inr detailStatic /\
  exists configRes configData,
    GetWithCache Scenario.clientStatic (EpConfig "a" VMTypeLXC 101) = inr configRes /\
    jlookup configRes "data" = Some (JObject configData) /\
    (VM.IP detailStatic = "" \/
     exists k netStr part : string,
       (k, JString netStr) ∈ configData /\ startsWith3 k "net" = true /\
       part ∈ strings.Split netStr ","%char /\ startsWith3 part "ip=" = true /\
       VM.IP detailStatic = stripMask (strings.drop 3 part) /\
       ParseIP (Externals:=Scenario.env) (VM.IP detailStatic) = true) /\
    (VM.IP detailStatic <> "dhcp" /\ VM.IP detailStatic <> "manual" /\
     VM.IP detailStatic <> "static") /\
    (forall (k netStr mac : string) (pre post : list string),
       (k, JString netStr) ∈ configData -> isNetDevice k = true ->
       strings.Split netStr ","%char = (pre ++ ("hwaddr=" +:+ mac) :: post)%list ->
       Forall (fun part => firstMAC [part] = None) pre ->
       macShape mac = true ->
       hasConfiguredMAC detailStatic (strings.ToUpper mac) = true).
Proof.
  assert (GetDetailedVmInfo (X:=Scenario.env) Scenario.clientStatic "a" VMTypeLXC 101
          = inr detailStatic) as H by reflexivity.
  split; [exact H|].
  exact (GetDetailedVmInfo_config_ip (X:=Scenario.env)
           Scenario.clientStatic "a" VMTypeLXC 101 detailStatic H).
Qed.

(** Scenario S5: with [ip=dhcp] the guest IP stays empty and the MAC of the
    device is stored, upper-cased. *)
Example S5_placeholder_rejected :
  match GetDetailedVmInfo (X:=Scenario.env) Scenario.clientS5 "a" VMTypeLXC 101 with
  | inr vm => VM.IP vm = "" /\ hasConfiguredMAC vm "AA:BB:CC:DD:EE:FF" = true
  | inl _ => False
  end.
Proof. vm_compute. split; reflexivity. Qed.

Example static_ip_taken : VM.IP detailStatic = "10.0.0.7".
Proof. vm_compute. reflexivity. Qed.

(** C7, at the input where the code departs from the claim.  The config
    entry of a container has a placeholder address, an IPv6 gateway and a
    hardware address.  [GetDetailedVmInfo] leaves the guest IP empty, as
    claimed; but the part [gw6=2001:db8:0:1::ff1] goes through the branch
    meant for [model=MAC], its value has 17 bytes and five colons, and the
    loop stores it and breaks: the configured-MAC set holds the gateway and
    not the hardware address. *)
Theorem C7_gateway_stored_instead_of_hwaddr :
  match GetDetailedVmInfo (X:=Scenario.env) Scenario.clientGw6 "a" VMTypeLXC 101 with
  | inr vm =>
      VM.IP vm = "" /\
      VM.ConfiguredMACs vm = Some ({["2001:DB8:0:1::FF1"]} : gset string) /\
      hasConfiguredMAC vm "2001:DB8:0:1::FF1" = true /\
      hasConfiguredMAC vm "AA:BB:CC:DD:EE:FF" = false
  | inl _ => False
  end.
Proof. vm_compute. repeat split; reflexivity. Qed.

(** The branch for [model=MAC] takes the value of any key. *)
Example macOfPart_gateway : macOfPart "gw6=2001:db8:0:1::ff1" = "2001:DB8:0:1::FF1".
Proof. reflexivity. Qed.

(** ** The interface filter (C6, C3) *)

Section interfaces.
Context {X : Externals}.

Lemma scanType_find (ty : string) (ips : list IPAddress.t)
      (bestIP : IPAddress.t) (foundIP : bool) :
  scanType ty ips bestIP foundIP =
  match List.find (hasType ty) ips with
  | Some ip => (ip, true)
  | None => (bestIP, foundIP)
  end.
Proof.
  induction ips as [|ip rest IH]; cbn [scanType List.find]; [reflexivity|].
  unfold hasType at 1. destruct (String.eqb (IPAddress.Type_ ip) ty); [reflexivity|exact IH].
Qed.

Lemma selectBestIP_spec (iface : NetworkInterface.t) :
  selectBestIP iface =
  NetworkInterface.set_IPAddresses
    (bestAddress (NetworkInterface.IPAddresses iface)) iface.
Proof.
  unfold selectBestIP, bestAddress. rewrite !scanType_find.
  destruct (List.find (hasType IPTypeIPv4) _) as [ip4|]; [reflexivity|].
  cbn [negb andb].
  destruct (NetworkInterface.IPAddresses iface) as [|ip0 rest] eqn:E; [reflexivity|].
  cbn [length Nat.ltb Nat.leb]. rewrite scanType_find.
  destruct (List.find (hasType IPTypeIPv6) (ip0 :: rest)); reflexivity.
Qed.

Lemma bestAddress_length (ips : list IPAddress.t) : (length (bestAddress ips) <= 1)%nat.
Proof.
  unfold bestAddress.
  destruct (List.find _ ips); [cbn; lia|].
  destruct (List.find _ ips); [cbn; lia|].
  destruct ips; cbn; lia.
Qed.

Lemma filterInterfaces_spec (shows : NetworkInterface.t -> bool)
      (raw : list NetworkInterface.t) :
  filterInterfaces shows raw = map selectBestIP (List.filter shows raw).
Proof.
  induction raw as [|iface rest IH]; cbn [filterInterfaces List.filter map]; [reflexivity|].
  destruct (shows iface); cbn [map]; now rewrite IH.
Qed.

Lemma filterInterfaces_elem (shows : NetworkInterface.t -> bool)
      (raw : list NetworkInterface.t) (iface' : NetworkInterface.t) :
  iface' ∈ filterInterfaces shows raw <->
  exists iface, iface ∈ raw /\ shows iface = true /\ iface' = selectBestIP iface.
Proof.
  rewrite filterInterfaces_spec, list_elem_of_In, in_map_iff. split.
  - intros (iface & <- & Hin). apply filter_In in Hin as [Hin Hs].
    exists iface. rewrite list_elem_of_In. auto.
  - intros (iface & Hin & Hs & ->). exists iface. split; [reflexivity|].
    apply filter_In. rewrite <- list_elem_of_In. auto.
Qed.

Lemma applyFilesystems_interfaces fss vm :
  VM.NetInterfaces (applyFilesystems fss vm) = VM.NetInterfaces vm.
Proof. unfold applyFilesystems. destruct (0 <? _); reflexivity. Qed.

(** The interfaces of a guest after the QEMU branch: none, or the filtered
    answer of the guest agent. *)
Lemma enrichQemu_interfaces (c : Client) (vm : VM.t) :
  let vm1 := qemuConfig c vm in
  VM.NetInterfaces (enrichQemu c vm) =
  if VM.AgentEnabled vm1 then
    match GetGuestAgentInterfaces c vm1 with
    | (raw, None) => filterInterfaces (qemuShows vm1) raw
    | (_, Some _) => []
    end
  else [].
Proof.
  cbv zeta. unfold enrichQemu. set (vm1 := qemuConfig c vm).
  destruct (VM.AgentEnabled vm1); [|reflexivity].
  destruct (GetGuestAgentInterfaces c vm1) as [raw [err|]].
  - now rewrite (clearIPWithoutMACs_frame VM.NetInterfaces) by setter_frame.
  - destruct (0 <? length raw)%nat eqn:Eraw.
    + destruct (GetGuestAgentFilesystems c _) as [|fss];
        [|destruct (0 <? length fss)%nat];
        rewrite ?applyFilesystems_interfaces;
        now rewrite (fillIP_frame VM.NetInterfaces) by setter_frame.
    + destruct raw; [|discriminate].
      now rewrite (clearIPWithoutMACs_frame VM.NetInterfaces) by setter_frame.
Qed.

Lemma enrichLxc_interfaces (c : Client) (vm : VM.t) :
  let vm1 := lxcConfig c vm in
  VM.NetInterfaces (enrichLxc c vm) =
  filterInterfaces (lxcShows vm1) (fst (GetLxcInterfaces c vm1)).
Proof.
  cbv zeta. unfold enrichLxc. set (vm1 := lxcConfig c vm).
  destruct (GetLxcInterfaces c vm1) as [raw err]. cbn [fst].
  destruct (0 <? length raw)%nat eqn:Eraw.
  - now rewrite (fillIP_frame VM.NetInterfaces) by setter_frame.
  - destruct raw; [|discriminate].
    now rewrite (clearIPWithoutMACs_frame VM.NetInterfaces) by setter_frame.
Qed.

Lemma statusMetrics_Type data d m vm :
  VM.Type_ (statusMetrics data d m vm) = VM.Type_ vm.
Proof. unfold statusMetrics. frame VM.Type_. Qed.

Lemma statusMetrics_Status data d m vm :
  VM.Status (statusMetrics data d m vm) = VM.Status vm.
Proof. unfold statusMetrics. frame VM.Status. Qed.

(** The shape of a successful call of [GetVmStatus]. *)
Lemma GetVmStatus_ok (c : Client) (vm vm' : VM.t) :
  GetVmStatus c vm = (vm', None) ->
  exists res data,
    GetWithCache c (EpStatusCurrent (VM.Node vm) (VM.Type_ vm) (VM.ID vm)) = inr res /\
    jlookup res "data" = Some (JObject data) /\
    let vm1 := statusMetrics data (VM.Disk vm) (VM.MaxDisk vm) vm in
    vm' = VM.set_Enriched true
            (if String.eqb (VM.Type_ vm) VMTypeQemu && isRunning vm
             then enrichQemu c vm1
             else if String.eqb (VM.Type_ vm) VMTypeLXC && isRunning vm
             then enrichLxc c vm1
             else vm1).
Proof.
  unfold GetVmStatus.
  destruct (GetWithCache c _) as [|res] eqn:Eres; [discriminate|].
  destruct (jlookup res "data") as [[| | | | |data]|] eqn:Edata; try discriminate.
  intros [= <-]. exists res, data. split; [reflexivity|]. split; [exact Edata|].
  cbv zeta. unfold isRunning. now rewrite statusMetrics_Type, statusMetrics_Status.
Qed.
End interfaces.

(** C6.  Every interface that a running QEMU or LXC guest carries after
    [GetVmStatus] is an interface reported for it whose address list has been
    replaced by the specification's choice: the first IPv4 address if there is
    one, otherwise the first IPv6 address, otherwise the first address; the
    list has at most one element and is empty when the interface had no
    address. *)
Theorem C6_best_address {X : Externals}
        (c : Client) (vm vm' : VM.t) (iface' : NetworkInterface.t) :
  GetVmStatus c vm = (vm', None) ->
  isRunning vm = true ->
  VM.Type_ vm = VMTypeQemu \/ VM.Type_ vm = VMTypeLXC ->
  iface' ∈ VM.NetInterfaces vm' ->
  exists (vm0 : VM.t) (iface : NetworkInterface.t),
    (iface ∈ fst (GetGuestAgentInterfaces c vm0) \/
     iface ∈ fst (GetLxcInterfaces c vm0)) /\
    iface' = NetworkInterface.set_IPAddresses
               (bestAddress (NetworkInterface.IPAddresses iface)) iface /\
    (length (NetworkInterface.IPAddresses iface') <= 1)%nat /\
    (NetworkInterface.IPAddresses iface = [] ->
     NetworkInterface.IPAddresses iface' = []).
Proof.
  intros Hcall Hrun Hty Hin.
  destruct (GetVmStatus_ok c vm vm' Hcall) as (res & data & _ & _ & Hvm').
  cbv zeta in Hvm'. rewrite Hrun in Hvm'.
  set (vm1 := statusMetrics data (VM.Disk vm) (VM.MaxDisk vm) vm) in *.
  assert (forall shows raw vm0,
             iface' ∈ filterInterfaces shows raw ->
             (raw = fst (GetGuestAgentInterfaces c vm0) \/
              raw = fst (GetLxcInterfaces c vm0)) ->
             exists (vm0 : VM.t) (iface : NetworkInterface.t),
               (iface ∈ fst (GetGuestAgentInterfaces c vm0) \/
                iface ∈ fst (GetLxcInterfaces c vm0)) /\
               iface' = NetworkInterface.set_IPAddresses
                          (bestAddress (NetworkInterface.IPAddresses iface)) iface /\
               (length (NetworkInterface.IPAddresses iface') <= 1)%nat /\
               (NetworkInterface.IPAddresses iface = [] ->
                NetworkInterface.IPAddresses iface' = [])) as Hfilter.
  { intros shows raw vm0 Hi Hraw.
    apply filterInterfaces_elem in Hi as (iface & Hiraw & _ & ->).
    exists vm0, iface. rewrite selectBestIP_spec. split.
    - destruct Hraw as [<-|<-]; auto.
    - split; [reflexivity|]. cbn [NetworkInterface.IPAddresses NetworkInterface.set_IPAddresses].
      split; [apply bestAddress_length|]. now intros ->. }
  assert (String.eqb VMTypeQemu VMTypeQemu = true) as Eqq by reflexivity.
  assert (String.eqb VMTypeLXC VMTypeQemu = false) as Elq by reflexivity.
  assert (String.eqb VMTypeLXC VMTypeLXC = true) as Ell by reflexivity.
  destruct Hty as [Hq|Hl]; rewrite ?Hq, ?Hl, ?Eqq, ?Elq, ?Ell in Hvm';
    cbn [andb] in Hvm'; subst vm'; cbn [VM.NetInterfaces VM.set_Enriched] in Hin.
  - rewrite enrichQemu_interfaces in Hin. cbv zeta in Hin.
    destruct (VM.AgentEnabled (qemuConfig c vm1)); [|now apply elem_of_nil in Hin].
    destruct (GetGuestAgentInterfaces c (qemuConfig c vm1)) as [raw [err|]] eqn:Eraw;
      [now apply elem_of_nil in Hin|].
    apply (Hfilter _ raw (qemuConfig c vm1) Hin). left. now rewrite Eraw.
  - rewrite enrichLxc_interfaces in Hin. cbv zeta in Hin.
    apply (Hfilter _ _ (lxcConfig c vm1) Hin). now right.
Qed.

Lemma C6_witness :
  exists (vm0 : VM.t) (iface : NetworkInterface.t),
    (iface ∈ fst (GetGuestAgentInterfaces Scenario.clientS3 vm0) \/
     iface ∈ fst (GetLxcInterfaces Scenario.clientS3 vm0)) /\
    NetworkInterface.set_IPAddresses [Scenario.v4 "10.0.0.5"] Scenario.eth0 =
    NetworkInterface.set_IPAddresses
      (bestAddress (NetworkInterface.IPAddresses iface)) iface /\
    (length (NetworkInterface.IPAddresses
               (NetworkInterface.set_IPAddresses [Scenario.v4 "10.0.0.5"] Scenario.eth0))
     <= 1)%nat /\
    (NetworkInterface.IPAddresses iface = [] ->
     NetworkInterface.IPAddresses
       (NetworkInterface.set_IPAddresses [Scenario.v4 "10.0.0.5"] Scenario.eth0) = []).
Proof.
  apply (C6_best_address (X:=Scenario.env) Scenario.clientS3
           (Scenario.guest VMTypeQemu 100 10 20) enrichedS3).
  - reflexivity.
  - reflexivity.
  - left. reflexivity.
  - vm_compute. left.
Defined.

(** Scenario S4: of a link-local IPv6, an IPv4 and a global IPv6 address the
    interface keeps exactly the IPv4 one. *)
Example S4_ip_preference :
  NetworkInterface.IPAddresses (selectBestIP Scenario.eth0) = [Scenario.v4 "10.0.0.5"].
Proof. reflexivity. Qed.

(** Scenario S3: of the reported interfaces only the one with the configured
    MAC is kept. *)
Example S3_mac_filter :
  map NetworkInterface.MACAddress (VM.NetInterfaces enrichedS3) = ["aa:bb:cc:dd:ee:ff"] /\
  map (fun i => strings.ToUpper (NetworkInterface.MACAddress i))
      (VM.NetInterfaces enrichedS3) = ["AA:BB:CC:DD:EE:FF"].
Proof. vm_compute. split; reflexivity. Qed.

Section qemu_filter.
Context {X : Externals}.

(** With an allocated configured-MAC map the QEMU loop keeps exactly the
    interfaces that are not loopback, not [veth*], and whose upper-cased
    MAC is a key of the map. *)
Lemma qemuShows_allocated (vm : VM.t) (macs : gset string) (iface : NetworkInterface.t) :
  VM.ConfiguredMACs vm = Some macs ->
  qemuShows vm iface =
  negb (NetworkInterface.IsLoopback iface) &&
  negb (strings.HasPrefix (NetworkInterface.Name iface) "veth") &&
  bool_decide (strings.ToUpper (NetworkInterface.MACAddress iface) ∈ macs).
Proof. intros H. unfold qemuShows, hasConfiguredMAC. now rewrite H. Qed.

(** When the map is not empty this is the filter of the specification. *)
Lemma qemuShows_nonempty (vm : VM.t) (macs : gset string) (iface : NetworkInterface.t) :
  VM.ConfiguredMACs vm = Some macs -> macs <> ∅ ->
  qemuShows vm iface = specShows macs iface.
Proof.
  intros H Hne. rewrite (qemuShows_allocated vm macs iface H). unfold specShows.
  now rewrite (bool_decide_eq_false_2 _ Hne).
Qed.

(** With an allocated and empty map the QEMU loop keeps nothing. *)
Lemma qemuShows_empty (vm : VM.t) (raw : list NetworkInterface.t) :
  VM.ConfiguredMACs vm = Some ∅ ->
  filterInterfaces (qemuShows vm) raw = [].
Proof.
  intros H. induction raw as [|iface rest IH]; [reflexivity|].
  cbn [filterInterfaces]. rewrite (qemuShows_allocated vm ∅ iface H).
  rewrite bool_decide_eq_false_2 by apply not_elem_of_empty.
  now rewrite !andb_false_r.
Qed.

(** The LXC loop, its sibling, applies the filter of the specification for
    every allocated map, empty or not. *)
Lemma lxcShows_allocated (vm : VM.t) (macs : gset string) (iface : NetworkInterface.t) :
  VM.ConfiguredMACs vm = Some macs ->
  lxcShows vm iface =
  negb (NetworkInterface.IsLoopback iface) &&
  (bool_decide (macs = ∅) ||
   bool_decide (strings.ToUpper (NetworkInterface.MACAddress iface) ∈ macs)).
Proof.
  intros H. unfold lxcShows, noConfiguredMACs, hasConfiguredMAC. rewrite H.
  destruct (bool_decide (macs = ∅)); cbn [negb orb]; [now rewrite andb_true_r|reflexivity].
Qed.

(** A guest whose agent flag is set by [qemuConfig] has an allocated map:
    the same config answer sets both. *)
Lemma qemuConfig_allocates (c : Client) (vm : VM.t) :
  VM.AgentEnabled vm = false ->
  VM.AgentEnabled (qemuConfig c vm) = true ->
  exists macs, VM.ConfiguredMACs (qemuConfig c vm) = Some macs.
Proof.
  unfold qemuConfig. intros Hoff.
  destruct (GetWithCache c _) as [|configRes]; [congruence|].
  destruct (jlookup configRes "data") as [[| | | | |configData]|]; try congruence.
  intros _. destruct (jlookup configData "agent"); eexists; reflexivity.
Qed.
End qemu_filter.

(** C3, at the input where the code departs from the claim.  A running QEMU
    guest whose config enables the agent and names no network device has an
    allocated, empty configured-MAC set; the agent reports the loopback and
    [eth0], which is neither loopback nor [veth*]; after [GetVmStatus] the
    guest carries no interface, whereas the filter of the specification keeps
    [eth0], as the LXC branch does on the same answers. *)
Theorem C3_qemu_empty_mac_set_drops_interfaces :
  GetVmStatus (X:=Scenario.env) Scenario.clientNoNet (Scenario.guest VMTypeQemu 100 10 20)
    = (enrichedNoNet, None) /\
  VM.AgentEnabled enrichedNoNet = true /\
  VM.AgentRunning enrichedNoNet = true /\
  VM.ConfiguredMACs enrichedNoNet = Some ∅ /\
  fst (GetGuestAgentInterfaces Scenario.clientNoNet enrichedNoNet)
    = [Scenario.lo; Scenario.eth0] /\
  List.filter (specShows ∅) [Scenario.lo; Scenario.eth0] = [Scenario.eth0] /\
  VM.NetInterfaces enrichedNoNet = [] /\
  VM.NetInterfaces enrichedNoNetLxc = [selectBestIP Scenario.eth0].
Proof. vm_compute. repeat split; reflexivity. Qed.

(** ** The disk figures of a guest (C8) *)

Section disk.
Context {X : Externals}.

Lemma qemuConfig_frame {A : Type} (proj : VM.t -> A) (c : Client) (vm : VM.t) :
  (forall v x, proj (VM.set_ConfiguredMACs v x) = proj x) ->
  (forall v x, proj (VM.set_AgentEnabled v x) = proj x) ->
  proj (qemuConfig c vm) = proj vm.
Proof.
  intros Hm Ha. unfold qemuConfig, populateConfiguredMACs.
  destruct (GetWithCache c _) as [|configRes]; [reflexivity|].
  destruct (jlookup configRes "data") as [[| | | | |configData]|]; try reflexivity.
  destruct (jlookup configData "agent"); now rewrite ?Ha, Hm.
Qed.

Lemma lxcConfig_frame {A : Type} (proj : VM.t -> A) (c : Client) (vm : VM.t) :
  (forall v x, proj (VM.set_ConfiguredMACs v x) = proj x) ->
  proj (lxcConfig c vm) = proj vm.
Proof.
  intros Hm. unfold lxcConfig, populateConfiguredMACs.
  destruct (GetWithCache c _) as [|configRes]; [reflexivity|].
  destruct (jlookup configRes "data") as [[| | | | |configData]|]; try reflexivity.
  apply Hm.
Qed.

Lemma enrichLxc_frame {A : Type} (proj : VM.t -> A) (c : Client) (vm : VM.t) :
  (forall v x, proj (VM.set_ConfiguredMACs v x) = proj x) ->
  (forall v x, proj (VM.set_NetInterfaces v x) = proj x) ->
  (forall v x, proj (VM.set_IP v x) = proj x) ->
  proj (enrichLxc c vm) = proj vm.
Proof.
  intros Hm Hn Hi. unfold enrichLxc.
  destruct (GetLxcInterfaces c _) as [raw err].
  destruct (0 <? length raw)%nat.
  - rewrite (fillIP_frame proj) by exact Hi. rewrite Hn. now apply lxcConfig_frame.
  - rewrite (clearIPWithoutMACs_frame proj) by exact Hi. rewrite Hn.
    now apply lxcConfig_frame.
Qed.

(** The QEMU branch leaves a field alone when none of the setters it uses
    writes it. *)
Lemma enrichQemu_frame {A : Type} (proj : VM.t -> A) (c : Client) (vm : VM.t) :
  (forall v x, proj (VM.set_ConfiguredMACs v x) = proj x) ->
  (forall v x, proj (VM.set_AgentEnabled v x) = proj x) ->
  (forall v x, proj (VM.set_AgentRunning v x) = proj x) ->
  (forall v x, proj (VM.set_NetInterfaces v x) = proj x) ->
  (forall v x, proj (VM.set_IP v x) = proj x) ->
  (forall v x, proj (VM.set_Filesystems v x) = proj x) ->
  (forall v x, proj (VM.set_Disk v x) = proj x) ->
  (forall v x, proj (VM.set_MaxDisk v x) = proj x) ->
  proj (enrichQemu c vm) = proj vm.
Proof.
  intros Hm Ha Hr Hn Hi Hf Hd Hx. unfold enrichQemu.
  rewrite <- (qemuConfig_frame proj c vm Hm Ha).
  set (vm1 := qemuConfig c vm).
  destruct (VM.AgentEnabled vm1); [|now rewrite Hn, Hr].
  destruct (GetGuestAgentInterfaces c vm1) as [raw [err|]].
  - rewrite (clearIPWithoutMACs_frame proj) by exact Hi. now rewrite Hn, Hr.
  - destruct (0 <? length raw)%nat.
    + assert (forall fss y, proj (applyFilesystems fss y) = proj y) as Hfs.
      { intros fss y. unfold applyFilesystems.
        destruct (0 <? _); now rewrite ?Hd, ?Hx, Hf. }
      destruct (GetGuestAgentFilesystems c _) as [|fss];
        [|destruct (0 <? length fss)%nat]; rewrite ?Hfs;
        rewrite (fillIP_frame proj) by exact Hi; now rewrite Hn, Hr.
    + rewrite (clearIPWithoutMACs_frame proj) by exact Hi. now rewrite Hn, Hr.
Qed.

(** The QEMU branch keeps both disk figures, or overrides both with the
    filesystem sums. *)
Lemma enrichQemu_disk (c : Client) (vm : VM.t) :
  (VM.Disk (enrichQemu c vm) = VM.Disk vm /\
   VM.MaxDisk (enrichQemu c vm) = VM.MaxDisk vm) \/
  (let vm' := enrichQemu c vm in
   VM.AgentEnabled vm' = true /\ VM.AgentRunning vm' = true /\
   0 < sum64 (map Filesystem.TotalBytes (VM.Filesystems vm')) /\
   VM.MaxDisk vm' = sum64 (map Filesystem.TotalBytes (VM.Filesystems vm')) /\
   VM.Disk vm' = sum64 (map Filesystem.UsedBytes (VM.Filesystems vm'))).
Proof.
  unfold enrichQemu.
  rewrite <- (qemuConfig_frame VM.Disk c vm) by setter_frame.
  rewrite <- (qemuConfig_frame VM.MaxDisk c vm) by setter_frame.
  set (vm1 := qemuConfig c vm).
  destruct (VM.AgentEnabled vm1) eqn:Ea; [|left; split; reflexivity].
  destruct (GetGuestAgentInterfaces c vm1) as [raw [err|]].
  - left. split.
    + now rewrite (clearIPWithoutMACs_frame VM.Disk) by setter_frame.
    + now rewrite (clearIPWithoutMACs_frame VM.MaxDisk) by setter_frame.
  - destruct (0 <? length raw)%nat.
    + set (vm2 := fillIP _).
      assert (VM.Disk vm2 = VM.Disk vm1) as Hd
        by (subst vm2; now rewrite (fillIP_frame VM.Disk) by setter_frame).
      assert (VM.MaxDisk vm2 = VM.MaxDisk vm1) as Hx
        by (subst vm2; now rewrite (fillIP_frame VM.MaxDisk) by setter_frame).
      assert (VM.AgentEnabled vm2 = true) as He
        by (subst vm2; now rewrite (fillIP_frame VM.AgentEnabled) by setter_frame).
      assert (VM.AgentRunning vm2 = true) as Hr
        by (subst vm2; now rewrite (fillIP_frame VM.AgentRunning) by setter_frame).
      destruct (GetGuestAgentFilesystems c vm2) as [|fss]; [left; auto|].
      destruct (0 <? length fss)%nat; [|left; auto].
      unfold applyFilesystems.
      destruct (0 <? sum64 _) eqn:Et; [right|left; auto].
      apply Z.ltb_lt in Et. cbv zeta.
      cbn [VM.AgentEnabled VM.AgentRunning VM.Filesystems VM.MaxDisk VM.Disk
           VM.set_Disk VM.set_MaxDisk VM.set_Filesystems].
      auto.
    + left. split.
      * now rewrite (clearIPWithoutMACs_frame VM.Disk) by setter_frame.
      * now rewrite (clearIPWithoutMACs_frame VM.MaxDisk) by setter_frame.
Qed.

(** After the metrics of [status/current] a positive disk figure that the
    answer does not replace by a positive number is the one held before. *)
Lemma statusMetrics_Disk (data : JMap) (vm : VM.t) :
  0 < VM.Disk vm ->
  (forall f, asFloat (jlookup data "disk") = Some f -> PrimFloat.ltb 0 f = false) ->
  VM.Disk (statusMetrics data (VM.Disk vm) (VM.MaxDisk vm) vm) = VM.Disk vm.
Proof.
  intros Hpos Hno. unfold statusMetrics. frame VM.Disk.
  set (vm1 := updInt data "maxmem" _ _).
  assert (VM.Disk vm1 = VM.Disk vm) as H1 by (subst vm1; frame VM.Disk).
  apply Z.ltb_lt in Hpos. unfold statusDisk.
  destruct (asFloat (jlookup data "disk")) as [f|] eqn:Ef;
    [rewrite (Hno f eq_refl)|];
    (destruct (asFloat (jlookup data "maxdisk")) as [g|];
     [destruct (PrimFloat.ltb 0 g)|]);
    cbn [negb andb]; rewrite Hpos;
    destruct (0 <? VM.MaxDisk vm); reflexivity.
Qed.

Lemma statusMetrics_MaxDisk (data : JMap) (vm : VM.t) :
  0 < VM.MaxDisk vm ->
  (forall f, asFloat (jlookup data "maxdisk") = Some f -> PrimFloat.ltb 0 f = false) ->
  VM.MaxDisk (statusMetrics data (VM.Disk vm) (VM.MaxDisk vm) vm) = VM.MaxDisk vm.
Proof.
  intros Hpos Hno. unfold statusMetrics. frame VM.MaxDisk.
  apply Z.ltb_lt in Hpos. unfold statusDisk.
  destruct (asFloat (jlookup data "maxdisk")) as [g|] eqn:Eg;
    [rewrite (Hno g eq_refl)|];
    (destruct (asFloat (jlookup data "disk")) as [f|];
     [destruct (PrimFloat.ltb 0 f)|]);
    cbn [negb andb]; rewrite Hpos;
    destruct (0 <? VM.Disk vm); reflexivity.
Qed.
End disk.

(** C8, as amended.  When a guest's Disk (respectively MaxDisk) is positive
    before [GetVmStatus] and the [status/current] answer gives no positive
    number for [disk] (respectively [maxdisk]), the field is unchanged after
    the call unless the guest-agent filesystem override took place, in which
    case both fields are the sums over the filtered filesystems; and the
    [EnrichVMs] worker puts the value held before the call back whenever the
    field is zero after it. *)
Theorem C8_disk_kept_or_overridden {X : Externals} (c : Client) (vm : VM.t) :
  let vm' := fst (GetVmStatus c vm) in
  let worked := fst (enrichWorker c vm) in
  (0 < VM.Disk vm -> noPositive c vm "disk" ->
   VM.Disk vm' = VM.Disk vm \/ filesystemOverride vm') /\
  (0 < VM.MaxDisk vm -> noPositive c vm "maxdisk" ->
   VM.MaxDisk vm' = VM.MaxDisk vm \/ filesystemOverride vm') /\
  (0 < VM.Disk vm -> VM.Disk vm' = 0 -> VM.Disk worked = VM.Disk vm) /\
  (0 < VM.MaxDisk vm -> VM.MaxDisk vm' = 0 -> VM.MaxDisk worked = VM.MaxDisk vm).
Proof.
  cbv zeta.
  assert (forall key (proj : VM.t -> Z),
             (forall data,
                 (forall f, asFloat (jlookup data key) = Some f -> PrimFloat.ltb 0 f = false) ->
                 proj (statusMetrics data (VM.Disk vm) (VM.MaxDisk vm) vm) = proj vm) ->
             (forall c0 v, (VM.Disk (enrichQemu c0 v) = VM.Disk v /\
                            VM.MaxDisk (enrichQemu c0 v) = VM.MaxDisk v) ->
                           proj (enrichQemu c0 v) = proj v) ->
             (forall c0 v, proj (enrichLxc c0 v) = proj v) ->
             (forall b v, proj (VM.set_Enriched b v) = proj v) ->
             noPositive c vm key ->
             proj (fst (GetVmStatus c vm)) = proj vm \/
             filesystemOverride (fst (GetVmStatus c vm))) as Hgen.
  { intros key proj Hmetrics Hq Hl He Hno. unfold GetVmStatus.
    destruct (GetWithCache c _) as [|res] eqn:Eres; [now left|].
    destruct (jlookup res "data") as [[| | | | |data]|] eqn:Edata; try now left.
    cbn [fst]. specialize (Hmetrics data (fun f => Hno res data f Eres Edata)).
    set (vm1 := statusMetrics data (VM.Disk vm) (VM.MaxDisk vm) vm) in *.
    destruct (String.eqb (VM.Type_ vm1) VMTypeQemu && isRunning vm1) eqn:Eq.
    - apply andb_true_iff in Eq as [Ety Erun].
      destruct (enrichQemu_disk c vm1) as [Hkeep|Hover].
      + left. now rewrite He, (Hq c vm1 Hkeep).
      + right. cbv zeta in Hover. destruct Hover as (Ha & Hr & Ht & Hm & Hd).
        unfold filesystemOverride, isRunning.
        cbn [VM.Type_ VM.Status VM.AgentEnabled VM.AgentRunning VM.Filesystems
             VM.MaxDisk VM.Disk VM.set_Enriched].
        rewrite (enrichQemu_frame VM.Type_) by setter_frame.
        rewrite (enrichQemu_frame VM.Status) by setter_frame.
        apply String.eqb_eq in Ety. auto 10.
    - left. destruct (String.eqb (VM.Type_ vm1) VMTypeLXC && isRunning vm1).
      + now rewrite He, Hl.
      + now rewrite He. }
  split; [|split; [|split]].
  - intros Hpos Hno. apply (Hgen "disk" VM.Disk); auto.
    + intros data Hd. now apply statusMetrics_Disk.
    + intros c0 v [H _]. exact H.
    + intros c0 v. apply enrichLxc_frame; setter_frame.
  - intros Hpos Hno. apply (Hgen "maxdisk" VM.MaxDisk); auto.
    + intros data Hd. now apply statusMetrics_MaxDisk.
    + intros c0 v [_ H]. exact H.
    + intros c0 v. apply enrichLxc_frame; setter_frame.
  - intros Hpos Hzero. unfold enrichWorker.
    destruct (GetVmStatus c vm) as [vm1 err]. cbn [fst] in *.
    apply Z.ltb_lt in Hpos. rewrite Hzero, Hpos. cbn [Z.eqb andb].
    destruct (_ && _); reflexivity.
  - intros Hpos Hzero. unfold enrichWorker.
    destruct (GetVmStatus c vm) as [vm1 err]. cbn [fst] in *.
    apply Z.ltb_lt in Hpos.
    destruct ((VM.Disk vm1 =? 0) && (0 <? VM.Disk vm));
      cbn [VM.MaxDisk VM.set_Disk]; rewrite Hzero, Hpos; reflexivity.
Qed.

Lemma clientFs_omits_disk : noPositive Scenario.clientFs guestFs "disk".
Proof.
  intros res data f Hres Hdata Hf.
  vm_compute in Hres. injection Hres as <-.
  vm_compute in Hdata. injection Hdata as <-.
  vm_compute in Hf. discriminate Hf.
Qed.

Lemma C8_witness :
  VM.Disk enrichedFs = VM.Disk guestFs \/ filesystemOverride enrichedFs.
Proof.
  apply (proj1 (C8_disk_kept_or_overridden (X:=Scenario.env) Scenario.clientFs guestFs)).
  - reflexivity.
  - exact clientFs_omits_disk.
Defined.

(** C8 as stated fails: the guest holds Disk = 10, the [status/current]
    answer has no [disk] entry, and after [GetVmStatus] Disk is the 60 MiB
    that the guest agent reports as used. *)
Lemma C8_counterexample :
  0 < VM.Disk guestFs /\
  noPositive Scenario.clientFs guestFs "disk" /\
  VM.Disk (fst (GetVmStatus (X:=Scenario.env) Scenario.clientFs guestFs)) = 62914560 /\
  VM.Disk (fst (GetVmStatus (X:=Scenario.env) Scenario.clientFs guestFs))
    <> VM.Disk guestFs.
Proof.
  split; [reflexivity|]. split; [exact clientFs_omits_disk|].
  split; [vm_compute; reflexivity|]. vm_compute. discriminate.
Qed.

(** ** The guest list (C10) *)

Module VMListFacts.
Import VMList.

Lemma less_spec (a b : VM.t) :
  less a b = true <->
  group a < group b \/ (group a = group b /\ VM.ID a < VM.ID b).
Proof.
  unfold less, group.
  destruct (isRunning a), (isRunning b); cbn [negb andb];
    rewrite ?Z.ltb_lt; split; intros H; try lia; try discriminate; auto.
Qed.

Lemma not_less_spec (a b : VM.t) :
  less b a = false <->
  group a < group b \/ (group a = group b /\ VM.ID a <= VM.ID b).
Proof.
  destruct (less b a) eqn:E.
  - apply less_spec in E. split; [discriminate|]. unfold group in *.
    destruct (isRunning a), (isRunning b); lia.
  - split; [intros _|reflexivity].
    assert (~ (group b < group a \/ (group b = group a /\ VM.ID b < VM.ID a))) as H.
    { intros H. apply less_spec in H. congruence. }
    unfold group in *. destruct (isRunning a), (isRunning b); lia.
Qed.

Lemma before_trans (a b c : VM.t) : before a b -> before b c -> before a c.
Proof. unfold before. rewrite !not_less_spec. lia. Qed.

Lemma less_before (a b : VM.t) : less a b = true -> before a b.
Proof. unfold before. rewrite less_spec, not_less_spec. lia. Qed.

Lemma insert_perm (vm : VM.t) (l : list VM.t) : Permutation (vm :: l) (insert vm l).
Proof.
  induction l as [|x rest IH]; cbn [insert]; [reflexivity|].
  destruct (less vm x); [reflexivity|].
  rewrite perm_swap. now apply perm_skip.
Qed.

Lemma insertionSort_perm (l : list VM.t) : Permutation l (insertionSort l).
Proof.
  induction l as [|vm rest IH]; cbn [insertionSort]; [reflexivity|].
  rewrite <- insert_perm. now apply perm_skip.
Qed.

Lemma insert_sorted (vm : VM.t) (l : list VM.t) :
  StronglySorted before l -> StronglySorted before (insert vm l).
Proof.
  induction 1 as [|x rest Hs IH Hx]; cbn [insert].
  - repeat constructor.
  - destruct (less vm x) eqn:E.
    + constructor; [now constructor|].
      constructor; [now apply less_before|].
      eapply Forall_impl; [exact Hx|].
      intros y Hy. eapply before_trans; [|exact Hy]. now apply less_before.
    + constructor; [exact IH|].
      rewrite <- insert_perm. constructor; [exact E|exact Hx].
Qed.

Lemma insertionSort_sorted (l : list VM.t) : StronglySorted before (insertionSort l).
Proof.
  induction l as [|vm rest IH]; cbn [insertionSort]; [constructor|].
  now apply insert_sorted.
Qed.

Lemma sorted_lookup (l : list VM.t) :
  StronglySorted before l ->
  forall (i j : nat) (a b : VM.t),
    (i < j)%nat -> l !! i = Some a -> l !! j = Some b -> before a b.
Proof.
  induction 1 as [|x rest Hs IH Hx]; intros i j a b Hij Ha Hb.
  - discriminate.
  - destruct j as [|j]; [lia|]. cbn in Hb.
    destruct i as [|i]; cbn in Ha.
    + injection Ha as <-. rewrite Forall_forall in Hx. apply Hx.
      eapply list_elem_of_lookup_2. exact Hb.
    + apply (IH i j); [lia|exact Ha|exact Hb].
Qed.

(** The insertion sort meets the contract of [sort.Slice], so a state
    after [SetVMs] exists for every input. *)
Lemma SetVMs_run_ok (input : list VM.t) : SetVMs input (SetVMs_run input).
Proof.
  unfold SetVMs_run. constructor. split.
  - apply insertionSort_perm.
  - apply sorted_lookup, insertionSort_sorted.
Qed.
End VMListFacts.

(** C10.  In every state that [SetVMs] can leave the list in, the slice that
    selection indices resolve against is a rearrangement of the guests passed
    in, the displayed items are its guests in the same order, every running
    guest stands before every guest that is not running, and two guests of
    the same status group stand in ascending order of ID. *)
Theorem C10_SetVMs_sorted (input : list VM.t) (vl : VMList.t) :
  VMList.SetVMs input vl ->
  Permutation input (VMList.vms vl) /\
  VMList.items vl = map VMList.rowOf (VMList.vms vl) /\
  forall (i j : nat) (a b : VM.t),
    (i < j)%nat -> VMList.vms vl !! i = Some a -> VMList.vms vl !! j = Some b ->
    (isRunning b = true -> isRunning a = true) /\
    (isRunning a = isRunning b -> VM.ID a <= VM.ID b).
Proof.
  intros [sortedVMs [Hperm Hsorted]]. cbn [VMList.vms VMList.items].
  split; [exact Hperm|]. split; [reflexivity|].
  intros i j a b Hij Ha Hb.
  specialize (Hsorted i j a b Hij Ha Hb).
  apply VMListFacts.not_less_spec in Hsorted. unfold VMList.group in Hsorted.
  destruct (isRunning a), (isRunning b); split; intros; try reflexivity; try lia;
    discriminate.
Qed.

Lemma C10_witness :
  Permutation guestList (VMList.vms (VMList.SetVMs_run guestList)) /\
  VMList.items (VMList.SetVMs_run guestList)
    = map VMList.rowOf (VMList.vms (VMList.SetVMs_run guestList)) /\
  forall (i j : nat) (a b : VM.t),
    (i < j)%nat ->
    VMList.vms (VMList.SetVMs_run guestList) !! i = Some a ->
    VMList.vms (VMList.SetVMs_run guestList) !! j = Some b ->
    (isRunning b = true -> isRunning a = true) /\
    (isRunning a = isRunning b -> VM.ID a <= VM.ID b).
Proof.
  apply (C10_SetVMs_sorted guestList (VMList.SetVMs_run guestList)).
  apply VMListFacts.SetVMs_run_ok.
Defined.

(** The three guests are shown as 100, 101 (running) and then 102. *)
Example guestList_order :
  map VMList.rowID (VMList.items (VMList.SetVMs_run guestList)) = [100; 101; 102].
Proof. reflexivity. Qed.

(** ** What the phases of a build leave alone *)

Section cluster_frames.
Context {X : Externals} {A : Type} (proj : Cluster.t -> A).
Hypothesis set_Nodes_frame : forall v x, proj (Cluster.set_Nodes v x) = proj x.

Lemma basicStatus_frame (c : Client) (cluster cluster' : Cluster.t) :
  (forall n q t x, proj (Cluster.set_identity n q t x) = proj x) ->
  getClusterBasicStatus c cluster = inr cluster' -> proj cluster' = proj cluster.
Proof.
  intros Hid. unfold getClusterBasicStatus.
  destruct (GetWithCache c _) as [|statusResp]; [discriminate|].
  destruct (jlookup statusResp "data") as [[| | | |statusData|]|]; try discriminate.
  intros [= <-]. revert cluster.
  induction statusData as [|item rest IH]; intros cluster; [reflexivity|].
  cbn [fold_left]. rewrite IH. unfold basicStatusItem.
  destruct item as [| | | | |itemMap]; try reflexivity.
  destruct (String.eqb _ "cluster"); [apply Hid|].
  destruct (String.eqb _ "node"); [apply set_Nodes_frame|reflexivity].
Qed.

Lemma enrichNodeStatuses_frame (c : Client) (cluster : Cluster.t) :
  proj (fst (enrichNodeStatuses c cluster)) = proj cluster.
Proof.
  unfold enrichNodeStatuses. destruct (_ && _); cbn [fst]; apply set_Nodes_frame.
Qed.

Lemma processResource_frame (cluster : Cluster.t) (item : JSON) :
  (forall v x, proj (Cluster.set_StorageManager v x) = proj x) ->
  proj (processResource cluster item) = proj cluster.
Proof.
  intros Hsm. unfold processResource.
  destruct item as [| | | | |resource]; try reflexivity.
  destruct (String.eqb _ "node").
  { destruct (nodeMap _ _); [apply set_Nodes_frame|reflexivity]. }
  destruct (String.eqb _ "storage").
  { destruct (nodeMap _ _); [|reflexivity]. now rewrite Hsm, set_Nodes_frame. }
  destruct (_ || _); [|reflexivity].
  destruct (nodeMap _ _); [apply set_Nodes_frame|reflexivity].
Qed.

Lemma processClusterResources_frame (c : Client) (cluster cluster' : Cluster.t) :
  (forall v x, proj (Cluster.set_StorageManager v x) = proj x) ->
  processClusterResources c cluster = inr cluster' -> proj cluster' = proj cluster.
Proof.
  intros Hsm. unfold processClusterResources.
  destruct (GetWithCache c _) as [|resourcesResp]; [discriminate|].
  destruct (jlookup resourcesResp "data") as [[| | | |resourcesData|]|]; try discriminate.
  intros [= <-]. revert cluster.
  induction resourcesData as [|item rest IH]; intros cluster; [reflexivity|].
  cbn [fold_left]. rewrite IH. now apply processResource_frame.
Qed.

Lemma EnrichVMs_frame (c : Client) (cluster : Cluster.t) :
  proj (fst (fst (EnrichVMs c cluster))) = proj cluster.
Proof.
  unfold EnrichVMs. destruct (_ =? _)%nat; cbn [fst]; [reflexivity|].
  apply set_Nodes_frame.
Qed.
End cluster_frames.

(** ** Cluster totals (C4) *)

Section totals.
Context {X : Externals}.

Lemma totalsStep_fold (nodes : list Node.t) (acc : Totals.t) :
  fold_left totalsStep nodes acc =
  Totals.mk
    (fold_left PrimFloat.add (map Node.CPUCount (metered nodes)) (Totals.totalCPU acc))
    (fold_left PrimFloat.add (map Node.MemoryTotal (metered nodes)) (Totals.totalMem acc))
    (fold_left PrimFloat.add (map Node.MemoryUsed (metered nodes)) (Totals.usedMem acc))
    (fold_left PrimFloat.add (map Node.CPUUsage (metered nodes)) (Totals.cpuUsage acc))
    (Totals.onlineNodes acc + Z.of_nat (length (List.filter Node.Online nodes)))
    (Totals.nodesWithMetrics acc + Z.of_nat (length (metered nodes))).
Proof.
  revert acc. induction nodes as [|node rest IH]; intros acc.
  - destruct acc. cbn. now rewrite !Z.add_0_r.
  - cbn [fold_left]. rewrite IH. unfold totalsStep, metered.
    cbn [List.filter].
    destruct (Node.Online node); cbn [andb]; [|reflexivity].
    destruct (PrimFloat.ltb 0 (Node.CPUCount node));
      cbn [map fold_left length Totals.totalCPU Totals.totalMem Totals.usedMem
           Totals.cpuUsage Totals.onlineNodes Totals.nodesWithMetrics];
      f_equal; lia.
Qed.

Lemma calculateClusterTotals_Nodes (cluster : Cluster.t) :
  Cluster.Nodes (calculateClusterTotals cluster) = Cluster.Nodes cluster.
Proof. reflexivity. Qed.

Lemma calculateClusterTotals_spec (cluster : Cluster.t) :
  Cluster.CPUUsage cluster = 0%float ->
  totalsOver (Cluster.Nodes cluster) (calculateClusterTotals cluster).
Proof.
  intros Hzero. unfold totalsOver, calculateClusterTotals.
  cbn [Cluster.CPUUsage Cluster.TotalCPU Cluster.MemoryTotal Cluster.MemoryUsed].
  rewrite totalsStep_fold.
  cbn [Totals.totalCPU Totals.totalMem Totals.usedMem Totals.cpuUsage
       Totals.nodesWithMetrics].
  rewrite Hzero. repeat split; try reflexivity.
  unfold meanCPUUsage. destruct (metered (Cluster.Nodes cluster)) as [|node rest].
  - reflexivity.
  - replace (0 <? 0 + Z.of_nat (length (node :: rest))) with true
      by (symmetry; apply Z.ltb_lt; cbn [length]; lia).
    reflexivity.
Qed.

Lemma GetClusterStatus_totals (c : Client) (cluster : Cluster.t) :
  GetClusterStatus c = inr cluster -> totalsOver (Cluster.Nodes cluster) cluster.
Proof.
  unfold GetClusterStatus.
  destruct (getClusterBasicStatus c (newCluster c)) as [|cl1] eqn:E1; [discriminate|].
  pose proof (enrichNodeStatuses_frame Cluster.CPUUsage (fun _ _ => eq_refl) c cl1) as E2.
  destruct (enrichNodeStatuses c cl1) as [cl2 [err|]]; [discriminate|]. cbn [fst] in E2.
  destruct (processClusterResources c cl2) as [|cl3] eqn:E3; [discriminate|].
  pose proof (EnrichVMs_frame Cluster.CPUUsage (fun _ _ => eq_refl) c cl3) as E4.
  destruct (EnrichVMs c cl3) as [[cl4 err] evs]. cbn [fst] in E4.
  intros [= <-]. rewrite calculateClusterTotals_Nodes.
  apply calculateClusterTotals_spec.
  rewrite E4, (processClusterResources_frame Cluster.CPUUsage (fun _ _ => eq_refl)
                 c cl2 cl3 (fun _ _ => eq_refl) E3), E2.
  now rewrite (basicStatus_frame Cluster.CPUUsage (fun _ _ => eq_refl)
                 c _ cl1 (fun _ _ _ _ => eq_refl) E1).
Qed.

Lemma FastGetClusterStatus_totals (c late : Client) (cb : option Callback)
      (cluster : Cluster.t) :
  fst (FastGetClusterStatus c late cb) = inr cluster ->
  totalsOver (Cluster.Nodes cluster) cluster.
Proof.
  unfold FastGetClusterStatus.
  destruct (getClusterBasicStatus c (newCluster c)) as [|cl1] eqn:E1; [discriminate|].
  pose proof (enrichNodeStatuses_frame Cluster.CPUUsage (fun _ _ => eq_refl) c cl1) as E2.
  destruct (enrichNodeStatuses c cl1) as [cl2 [err|]]; [discriminate|]. cbn [fst] in E2.
  destruct (processClusterResources c cl2) as [|cl3] eqn:E3; [discriminate|].
  cbn [fst]. intros [= <-]. rewrite calculateClusterTotals_Nodes.
  apply calculateClusterTotals_spec.
  rewrite (processClusterResources_frame Cluster.CPUUsage (fun _ _ => eq_refl)
             c cl2 cl3 (fun _ _ => eq_refl) E3), E2.
  now rewrite (basicStatus_frame Cluster.CPUUsage (fun _ _ => eq_refl)
                 c _ cl1 (fun _ _ _ _ => eq_refl) E1).
Qed.
End totals.

(** C4.  [calculateClusterTotals], entered with the zero [CPUUsage] of a
    fresh cluster as both builds do, leaves in [CPUUsage] the arithmetic mean
    of the nodes' CPU usage over exactly the online nodes with a positive core
    count (zero when there is none), and in [TotalCPU], [MemoryTotal] and
    [MemoryUsed] the sums of the nodes' fields over those same nodes; so do
    the clusters that [GetClusterStatus] and [FastGetClusterStatus] return. *)
Theorem C4_cluster_totals {X : Externals} :
  (forall cluster : Cluster.t,
     Cluster.CPUUsage cluster = 0%float ->
     totalsOver (Cluster.Nodes cluster) (calculateClusterTotals cluster)) /\
  (forall (c : Client) (cluster : Cluster.t),
     GetClusterStatus c = inr cluster ->
     totalsOver (Cluster.Nodes cluster) cluster) /\
  (forall (c late : Client) (cb : option Callback) (cluster : Cluster.t),
     fst (FastGetClusterStatus c late cb) = inr cluster ->
     totalsOver (Cluster.Nodes cluster) cluster).
Proof.
  split; [|split].
  - exact calculateClusterTotals_spec.
  - exact GetClusterStatus_totals.
  - exact FastGetClusterStatus_totals.
Qed.

Lemma C4_witness :
  totalsOver (Cluster.Nodes fourNodes) (calculateClusterTotals fourNodes).
Proof.
  apply (proj1 (C4_cluster_totals (X:=Scenario.env)) fourNodes).
  reflexivity.
Defined.

(** The mean is taken over nodes a and d only: (0.25 + 0.75) / 2. *)
Example fourNodes_mean :
  Cluster.CPUUsage (calculateClusterTotals fourNodes) = 0.5%float /\
  Cluster.TotalCPU (calculateClusterTotals fourNodes) = 12%float /\
  Cluster.OnlineNodes (calculateClusterTotals fourNodes) = 3.
Proof. vm_compute. repeat split; reflexivity. Qed.

(** Entered with a non-zero [CPUUsage] the function adds to it: the zero of
    a fresh cluster is what makes the result a mean. *)
Example calculateClusterTotals_accumulates :
  Cluster.CPUUsage (calculateClusterTotals (calculateClusterTotals fourNodes)) = 0.75%float.
Proof. vm_compute. reflexivity. Qed.

(** ** Arithmetic on [int64] *)

Lemma wrap64_add_l (a b : Z) : wrap64 (wrap64 a + b) = wrap64 (a + b).
Proof.
  unfold wrap64. f_equal.
  replace ((a + 2 ^ 63) mod 2 ^ 64 - 2 ^ 63 + b + 2 ^ 63)
    with ((a + 2 ^ 63) mod 2 ^ 64 + b) by lia.
  rewrite Zplus_mod_idemp_l. f_equal. lia.
Qed.

Lemma wrap64_add_r (a b : Z) : wrap64 (a + wrap64 b) = wrap64 (a + b).
Proof. rewrite (Z.add_comm a), wrap64_add_l. f_equal. lia. Qed.

Lemma wrap64_small (z : Z) : - 2 ^ 63 <= z < 2 ^ 63 -> wrap64 z = z.
Proof. intros H. unfold wrap64. rewrite Z.mod_small; lia. Qed.

Lemma fold_add64 (l : list Z) (a : Z) :
  fold_left add64 l (wrap64 a) = wrap64 (a + foldr Z.add 0 l).
Proof.
  revert a. induction l as [|x rest IH]; intros a; cbn [fold_left foldr].
  - now rewrite Z.add_0_r.
  - unfold add64 at 2. rewrite wrap64_add_l, IH. f_equal. lia.
Qed.

Lemma sum64_wrap (l : list Z) : sum64 l = wrap64 (foldr Z.add 0 l).
Proof. unfold sum64. change 0 with (wrap64 0) at 1. now rewrite fold_add64. Qed.

(** ** Storage totals (C2) *)

Section storage.
Import StorageManager.
Context {X : Externals}.

Lemma known_ids (id : string) (l : list shared_entry) :
  known id l =
  existsb (fun id' => String.eqb id' id) (map storageId (map canonical l)).
Proof.
  unfold known. induction l as [|e rest IH]; cbn [existsb map]; [reflexivity|].
  now rewrite IH.
Qed.

Lemma add_reporter_canonical (s : Storage.t) (l : list shared_entry) :
  map canonical (map (add_reporter s) l) = map canonical l.
Proof.
  induction l as [|e rest IH]; cbn [map]; [reflexivity|].
  rewrite IH. f_equal. unfold add_reporter. destruct (String.eqb _ _); reflexivity.
Qed.

(** Adding reports extends the canonical shared entries by the reports
    whose id is new, and the local entries by every non-shared report. *)
Lemma addAll_spec (reports : list Storage.t) (sm : StorageManager.t) :
  canonicals (addAll reports sm) =
    canonicals sm ++
    distinctById (map storageId (canonicals sm)) (List.filter IsShared reports) /\
  LocalStorages (addAll reports sm) = LocalStorages sm ++ nonShared reports.
Proof.
  revert sm. induction reports as [|s rest IH]; intros sm.
  - cbn. now rewrite !app_nil_r.
  - unfold addAll in *. cbn [fold_left]. destruct (IH (AddStorage s sm)) as [IHs IHl].
    rewrite IHs, IHl. clear IH IHs IHl.
    unfold AddStorage, nonShared, canonicals. cbn [List.filter].
    destruct (IsShared s) eqn:Es; cbn [negb].
    + rewrite known_ids. cbn [distinctById].
      destruct (existsb _ (map storageId (map canonical (SharedStorages sm)))) eqn:Ek;
        cbn [SharedStorages LocalStorages].
      * now rewrite add_reporter_canonical.
      * rewrite !map_app. cbn [map canonical]. now rewrite <- !app_assoc.
    + cbn [SharedStorages LocalStorages]. now rewrite <- app_assoc.
Qed.

Lemma totals_of_manager (field : Storage.t -> Z) (sm : StorageManager.t) :
  add64 (sum64 (map (fun e => field (canonical e)) (SharedStorages sm)))
        (sum64 (map field (LocalStorages sm))) =
  wrap64 (foldr Z.add 0 (map field (canonicals sm)) +
          foldr Z.add 0 (map field (LocalStorages sm))).
Proof.
  unfold add64, canonicals. rewrite !sum64_wrap, wrap64_add_l, wrap64_add_r.
  now rewrite map_map.
Qed.

Lemma addAll_totals (field : Storage.t -> Z) (reports : list Storage.t) :
  let sm := addAll reports NewStorageManager in
  add64 (sum64 (map (fun e => field (canonical e)) (SharedStorages sm)))
        (sum64 (map field (LocalStorages sm))) = expectedTotal field reports.
Proof.
  cbv zeta. rewrite totals_of_manager.
  destruct (addAll_spec reports NewStorageManager) as [Hs Hl].
  rewrite Hs, Hl. reflexivity.
Qed.

(** No id occurs twice among the shared storages that are counted, and
    the ids counted are exactly the ids of the shared reports. *)
Lemma distinctById_fresh (seen : list string) (l : list Storage.t) (s : Storage.t) :
  s ∈ distinctById seen l -> storageId s ∉ seen.
Proof.
  revert seen. induction l as [|x rest IH]; intros seen; cbn [distinctById].
  - intros H. now apply elem_of_nil in H.
  - destruct (existsb _ seen) eqn:E; [apply IH|].
    intros H. apply elem_of_cons in H as [->|H].
    + intros Hin. apply list_elem_of_In in Hin.
      assert (existsb (fun id => String.eqb id (storageId x)) seen = true) as Ht.
      { apply existsb_exists. exists (storageId x). split; [exact Hin|apply String.eqb_refl]. }
      congruence.
    + intros Hin. apply (IH _ H). apply elem_of_app. now left.
Qed.

Lemma distinctById_NoDup (seen : list string) (l : list Storage.t) :
  NoDup (map storageId (distinctById seen l)).
Proof.
  revert seen. induction l as [|x rest IH]; intros seen; cbn [distinctById].
  - constructor.
  - destruct (existsb _ seen); [apply IH|].
    cbn [map]. constructor; [|apply IH].
    intros Hin. apply list_elem_of_fmap in Hin as (s & Hid & Hs).
    apply distinctById_fresh in Hs. apply Hs. rewrite <- Hid.
    apply elem_of_app. right. apply list_elem_of_singleton. reflexivity.
Qed.

Lemma distinctById_ids (seen : list string) (l : list Storage.t) (id : string) :
  id ∈ map storageId (distinctById seen l) <->
  id ∈ map storageId l /\ id ∉ seen.
Proof.
  revert seen. induction l as [|x rest IH]; intros seen; cbn [distinctById map].
  - split; [intros H; now apply elem_of_nil in H|intros [H _]; now apply elem_of_nil in H].
  - destruct (existsb _ seen) eqn:E.
    + rewrite IH, elem_of_cons. split; [tauto|].
      intros [[->|H] Hn]; [|tauto]. exfalso. apply Hn.
      apply existsb_exists in E as (id' & Hin & Heq).
      apply String.eqb_eq in Heq. subst id'. now apply list_elem_of_In.
    + cbn [map]. rewrite !elem_of_cons, IH, elem_of_app, list_elem_of_singleton.
      split.
      * intros [->|[H Hn]]; [|tauto]. split; [now left|].
        intros Hin. apply list_elem_of_In in Hin.
        assert (existsb (fun id => String.eqb id (storageId x)) seen = true) as Ht
          by (apply existsb_exists; exists (storageId x); split;
              [exact Hin|apply String.eqb_refl]).
        congruence.
      * intros [[->|H] Hn]; [now left|].
        destruct (decide (id = storageId x)) as [->|Hne]; [now left|right; tauto].
Qed.
End storage.

(** ** What phases 3 and 4 leave alone in the nodes *)

Section node_frames.
Context {X : Externals} {B : Type} (proj : Node.t -> B).
Hypothesis set_VMs_frame : forall v x, proj (Node.set_VMs v x) = proj x.

Lemma alter_map (f : Node.t -> Node.t) (i : nat) (nodes : list Node.t) :
  (forall x, proj (f x) = proj x) ->
  map proj (alter f i nodes) = map proj nodes.
Proof.
  intros Hf. revert i. induction nodes as [|x rest IH]; intros [|i]; cbn; try reflexivity.
  - now rewrite Hf.
  - f_equal. apply IH.
Qed.

Lemma processResource_map (cluster : Cluster.t) (item : JSON) :
  (forall v x, proj (Node.set_CPUUsage v x) = proj x) ->
  (forall v x, proj (Node.set_MemoryUsed v x) = proj x) ->
  (forall v x, proj (Node.set_MemoryTotal v x) = proj x) ->
  (forall v x, proj (Node.set_Storage v x) = proj x) ->
  map proj (Cluster.Nodes (processResource cluster item)) =
  map proj (Cluster.Nodes cluster).
Proof.
  intros Hc Hu Ht Hs. unfold processResource.
  destruct item as [| | | | |resource]; try reflexivity.
  destruct (String.eqb _ "node").
  { destruct (nodeMap _ _); [|reflexivity]. cbn [Cluster.Nodes Cluster.set_Nodes].
    apply alter_map. intros x. unfold nodeResource.
    destruct (PrimFloat.leb _ _), (PrimFloat.ltb 0 (getFloat resource "mem")),
      (PrimFloat.ltb 0 (getFloat resource "maxmem")); now rewrite ?Ht, ?Hu, ?Hc. }
  destruct (String.eqb _ "storage").
  { destruct (nodeMap _ _); [|reflexivity].
    cbn [Cluster.Nodes Cluster.set_Nodes Cluster.set_StorageManager].
    apply alter_map. intros x. apply Hs. }
  destruct (_ || _); [|reflexivity].
  destruct (nodeMap _ _); [|reflexivity]. cbn [Cluster.Nodes Cluster.set_Nodes].
  apply alter_map. intros x. apply set_VMs_frame.
Qed.

Lemma processClusterResources_map (c : Client) (cluster cluster' : Cluster.t) :
  (forall v x, proj (Node.set_CPUUsage v x) = proj x) ->
  (forall v x, proj (Node.set_MemoryUsed v x) = proj x) ->
  (forall v x, proj (Node.set_MemoryTotal v x) = proj x) ->
  (forall v x, proj (Node.set_Storage v x) = proj x) ->
  processClusterResources c cluster = inr cluster' ->
  map proj (Cluster.Nodes cluster') = map proj (Cluster.Nodes cluster).
Proof.
  intros Hc Hu Ht Hs. unfold processClusterResources.
  destruct (GetWithCache c _) as [|resp]; [discriminate|].
  destruct (jlookup resp "data") as [[| | | |items|]|]; try discriminate.
  intros [= <-]. revert cluster.
  induction items as [|item rest IH]; intros cluster; [reflexivity|].
  cbn [fold_left]. rewrite IH. now apply processResource_map.
Qed.

Lemma enrichNodes_map (c : Client) (nodes : list Node.t) :
  map proj (value (enrichNodes c nodes)) = map proj nodes.
Proof.
  induction nodes as [|node rest IH]; cbn [enrichNodes]; [reflexivity|].
  destruct (Node.Online node); cbn [value map]; now rewrite IH, ?set_VMs_frame.
Qed.

Lemma EnrichVMs_map (c : Client) (cluster : Cluster.t) :
  map proj (Cluster.Nodes (fst (fst (EnrichVMs c cluster)))) =
  map proj (Cluster.Nodes cluster).
Proof.
  unfold EnrichVMs. destruct (_ =? _)%nat; cbn [fst]; [reflexivity|].
  apply enrichNodes_map.
Qed.
End node_frames.

Section storage_of_builds.
Context {X : Externals}.

Lemma nodeMap_names (n1 n2 : list Node.t) (name : string) :
  map Node.Name n1 = map Node.Name n2 -> nodeMap n1 name = nodeMap n2 name.
Proof.
  revert n2. induction n1 as [|x rest IH]; intros [|y rest2] H; try discriminate.
  - reflexivity.
  - cbn [map] in H. injection H as Hx Hrest. cbn [nodeMap].
    now rewrite (IH rest2 Hrest), Hx.
Qed.

Lemma alter_names (f : Node.t -> Node.t) (i : nat) (nodes : list Node.t) :
  (forall x, Node.Name (f x) = Node.Name x) ->
  map Node.Name (alter f i nodes) = map Node.Name nodes.
Proof. apply alter_map. Qed.

Lemma processResource_names (cluster : Cluster.t) (item : JSON) :
  map Node.Name (Cluster.Nodes (processResource cluster item)) =
  map Node.Name (Cluster.Nodes cluster).
Proof. apply processResource_map; intros; reflexivity. Qed.

Lemma processResource_manager (cluster : Cluster.t) (item : JSON) :
  Cluster.StorageManager (processResource cluster item) =
  match storageReport (Cluster.Nodes cluster) item with
  | Some s => StorageManager.AddStorage s (Cluster.StorageManager cluster)
  | None => Cluster.StorageManager cluster
  end.
Proof.
  unfold processResource, storageReport.
  destruct item as [| | | | |resource]; try reflexivity.
  destruct (String.eqb (getString resource "type") "storage") eqn:Es.
  - apply String.eqb_eq in Es. rewrite Es. cbn [String.eqb Ascii.eqb Bool.eqb].
    destruct (nodeMap _ _); reflexivity.
  - destruct (String.eqb _ "node"); [destruct (nodeMap _ _); reflexivity|].
    destruct (_ || _); [destruct (nodeMap _ _); reflexivity|reflexivity].
Qed.

Lemma storageReports_names (n1 n2 : list Node.t) (items : list JSON) :
  map Node.Name n1 = map Node.Name n2 ->
  storageReports n1 items = storageReports n2 items.
Proof.
  intros H. unfold storageReports. induction items as [|item rest IH]; [reflexivity|].
  cbn [omap list_omap]. rewrite IH.
  replace (storageReport n2 item) with (storageReport n1 item); [reflexivity|].
  unfold storageReport. destruct item; try reflexivity.
  destruct (String.eqb _ _); [|reflexivity]. now rewrite (nodeMap_names n1 n2 _ H).
Qed.

Lemma fold_processResource (items : list JSON) (cluster : Cluster.t) :
  let cluster' := fold_left processResource items cluster in
  map Node.Name (Cluster.Nodes cluster') = map Node.Name (Cluster.Nodes cluster) /\
  Cluster.StorageManager cluster' =
  addAll (storageReports (Cluster.Nodes cluster) items) (Cluster.StorageManager cluster).
Proof.
  cbv zeta. revert cluster. induction items as [|item rest IH]; intros cluster.
  - split; reflexivity.
  - cbn [fold_left]. destruct (IH (processResource cluster item)) as [Hn Hs].
    rewrite Hn, Hs, processResource_names. split; [reflexivity|].
    rewrite (storageReports_names _ (Cluster.Nodes cluster) rest
               (processResource_names cluster item)).
    rewrite processResource_manager. unfold storageReports, addAll.
    cbn [omap list_omap].
    destruct (storageReport (Cluster.Nodes cluster) item); reflexivity.
Qed.

Lemma enrichNodes_names (c : Client) (nodes : list Node.t) :
  map Node.Name (value (enrichNodes c nodes)) = map Node.Name nodes.
Proof. apply enrichNodes_map. intros; reflexivity. Qed.

Lemma EnrichVMs_names (c : Client) (cluster : Cluster.t) :
  map Node.Name (Cluster.Nodes (fst (fst (EnrichVMs c cluster)))) =
  map Node.Name (Cluster.Nodes cluster).
Proof. apply EnrichVMs_map. intros; reflexivity. Qed.

(** After phase 3 the storage manager holds the reports of the answer. *)
Lemma processClusterResources_manager (c : Client) (cluster cluster' : Cluster.t) :
  processClusterResources c cluster = inr cluster' ->
  exists resp items,
    GetWithCache c EpClusterResources = inr resp /\
    jlookup resp "data" = Some (JArray items) /\
    map Node.Name (Cluster.Nodes cluster') = map Node.Name (Cluster.Nodes cluster) /\
    Cluster.StorageManager cluster' =
    addAll (storageReports (Cluster.Nodes cluster') items) (Cluster.StorageManager cluster).
Proof.
  unfold processClusterResources.
  destruct (GetWithCache c _) as [|resp]; [discriminate|].
  destruct (jlookup resp "data") as [[| | | |items|]|] eqn:E; try discriminate.
  intros [= <-]. exists resp, items.
  destruct (fold_processResource items cluster) as [Hn Hs].
  repeat split; auto. rewrite Hs. f_equal. symmetry. now apply storageReports_names.
Qed.
End storage_of_builds.

(** *** The manager's reports and the entries of the answer *)

Section storage_entries.
Context {X : Externals}.

Lemma nodeMap_isNodeOf (nodes : list Node.t) (name : string) :
  isNodeOf nodes name = match nodeMap nodes name with Some _ => true | None => false end.
Proof.
  unfold isNodeOf. induction nodes as [|node rest IH]; cbn [existsb nodeMap]; [reflexivity|].
  rewrite IH. destruct (nodeMap rest name); [apply orb_true_r|].
  destruct (String.eqb (Node.Name node) name); reflexivity.
Qed.

(** The struct that [processClusterResources] builds from a record stands
    for the entry that the record describes. *)
Lemma storageReport_entry (nodes : list Node.t) (item : JSON) :
  option_map entryOf (storageReport nodes item) = storageEntryOf nodes item.
Proof.
  unfold storageReport, storageEntryOf. destruct item as [| | | | |resource]; try reflexivity.
  destruct (String.eqb (getString resource "type") "storage"); [|reflexivity].
  cbn [andb]. rewrite nodeMap_isNodeOf.
  destruct (nodeMap nodes (getString resource "node")); reflexivity.
Qed.

Lemma storageReports_entries (nodes : list Node.t) (items : list JSON) :
  map entryOf (storageReports nodes items) = storageEntries nodes items.
Proof.
  unfold storageReports, storageEntries.
  induction items as [|item rest IH]; [reflexivity|].
  cbn [omap list_omap]. rewrite <- storageReport_entry.
  destruct (storageReport nodes item); cbn [option_map map]; now rewrite IH.
Qed.

Lemma filter_shared_entries (reports : list Storage.t) :
  map entryOf (List.filter StorageManager.IsShared reports) =
  List.filter StorageEntry.shared (map entryOf reports).
Proof.
  induction reports as [|s rest IH]; [reflexivity|]. cbn [List.filter map].
  change (StorageEntry.shared (entryOf s)) with (StorageManager.IsShared s).
  destruct (StorageManager.IsShared s); cbn [map]; now rewrite IH.
Qed.

Lemma nonShared_entries (reports : list Storage.t) :
  map entryOf (nonShared reports) = localEntries (map entryOf reports).
Proof.
  unfold nonShared, localEntries.
  induction reports as [|s rest IH]; [reflexivity|]. cbn [List.filter map].
  change (StorageEntry.shared (entryOf s)) with (StorageManager.IsShared s).
  destruct (StorageManager.IsShared s); cbn [negb map]; now rewrite IH.
Qed.

Lemma distinctById_entries (seen : list string) (reports : list Storage.t) :
  map entryOf (distinctById seen reports) = firstOfEachId seen (map entryOf reports).
Proof.
  revert seen. induction reports as [|s rest IH]; intros seen; [reflexivity|].
  cbn [distinctById firstOfEachId map].
  change (StorageEntry.id (entryOf s)) with (StorageManager.storageId s).
  destruct (existsb _ seen); cbn [map]; now rewrite IH.
Qed.

Lemma sharedOnce_entries (reports : list Storage.t) :
  map entryOf (sharedOnce reports) = sharedEntriesOnce (map entryOf reports).
Proof.
  unfold sharedOnce, sharedEntriesOnce.
  now rewrite distinctById_entries, filter_shared_entries.
Qed.

(** The manager's total of a field is the specification's sum of the
    corresponding figure over the entries. *)
Lemma expectedTotal_entries (field : Storage.t -> Z) (figure : StorageEntry.t -> Z)
      (reports : list Storage.t) :
  (forall s, figure (entryOf s) = field s) ->
  expectedTotal field reports = storageSum figure (map entryOf reports).
Proof.
  intros H. unfold expectedTotal, storageSum.
  rewrite <- sharedOnce_entries, <- nonShared_entries, !map_map.
  do 3 f_equal; apply map_ext; intros s; now rewrite H.
Qed.

Lemma firstOfEachId_elem (seen : list string) (l : list StorageEntry.t) (e : StorageEntry.t) :
  e ∈ firstOfEachId seen l -> e ∈ l.
Proof.
  revert seen. induction l as [|x rest IH]; intros seen; cbn [firstOfEachId]; [auto|].
  destruct (existsb _ seen).
  - intros H. right. now apply (IH seen).
  - intros H. apply elem_of_cons in H as [->|H]; [left|right; now apply (IH _ H)].
Qed.

(** The storage manager of a cluster that either build returns. *)
Lemma built_manager (c late : Client) (cb : option Callback) (cluster : Cluster.t) :
  GetClusterStatus c = inr cluster \/ fst (FastGetClusterStatus c late cb) = inr cluster ->
  exists resp items,
    GetWithCache c EpClusterResources = inr resp /\
    jlookup resp "data" = Some (JArray items) /\
    Cluster.StorageTotal cluster =
      expectedTotal Storage.MaxDisk (storageReports (Cluster.Nodes cluster) items) /\
    Cluster.StorageUsed cluster =
      expectedTotal Storage.Disk (storageReports (Cluster.Nodes cluster) items).
Proof.
  intros Hbuild.
  assert (exists cl1 cl2 cl3,
             getClusterBasicStatus c (newCluster c) = inr cl1 /\
             cl2 = fst (enrichNodeStatuses c cl1) /\
             processClusterResources c cl2 = inr cl3 /\
             map Node.Name (Cluster.Nodes cluster) = map Node.Name (Cluster.Nodes cl3) /\
             Cluster.StorageManager cluster = Cluster.StorageManager cl3 /\
             Cluster.StorageTotal cluster =
               StorageManager.GetTotalCapacity (Cluster.StorageManager cl3) /\
             Cluster.StorageUsed cluster =
               StorageManager.GetTotalUsage (Cluster.StorageManager cl3))
    as (cl1 & cl2 & cl3 & E1 & E2 & E3 & Hn & Hsm & Ht & Hu).
  { destruct Hbuild as [H|H]; revert H;
      unfold GetClusterStatus, FastGetClusterStatus;
      destruct (getClusterBasicStatus c (newCluster c)) as [|cl1]; try discriminate;
      destruct (enrichNodeStatuses c cl1) as [cl2 [err|]] eqn:E2; try discriminate;
      destruct (processClusterResources c cl2) as [|cl3] eqn:E3; try discriminate.
    - pose proof (EnrichVMs_names c cl3) as Hn.
      pose proof (EnrichVMs_frame Cluster.StorageManager (fun _ _ => eq_refl) c cl3) as Hs.
      destruct (EnrichVMs c cl3) as [[cl4 err] evs]. cbn [fst] in Hn, Hs.
      intros [= <-]. exists cl1, cl2, cl3.
      cbn [Cluster.Nodes Cluster.StorageManager Cluster.StorageTotal Cluster.StorageUsed
           calculateClusterTotals].
      rewrite Hs, E2. auto 10.
    - cbn [fst]. intros [= <-]. exists cl1, cl2, cl3. rewrite E2. auto 10. }
  destruct (processClusterResources_manager c cl2 cl3 E3)
    as (resp & items & Hresp & Hdata & _ & Hmgr).
  exists resp, items. split; [exact Hresp|]. split; [exact Hdata|].
  assert (Cluster.StorageManager cl2 = StorageManager.NewStorageManager) as Hnew.
  { subst cl2. rewrite (enrichNodeStatuses_frame Cluster.StorageManager (fun _ _ => eq_refl)).
    now rewrite (basicStatus_frame Cluster.StorageManager (fun _ _ => eq_refl)
                   c _ cl1 (fun _ _ _ _ => eq_refl) E1). }
  rewrite Hnew in Hmgr.
  rewrite (storageReports_names _ _ items Hn), Ht, Hu, Hmgr.
  split; [apply (addAll_totals Storage.MaxDisk)|apply (addAll_totals Storage.Disk)].
Qed.
End storage_entries.

(** C2.  In the cluster that either build returns, [StorageTotal] is the
    [int64] sum of [maxdisk], and [StorageUsed] that of [disk], over the
    storage records of the [/cluster/resources] answer whose node is in the
    cluster, a record counting once per distinct storage id when it is shared
    and once per record when it is not.  The figures, the shared flag and the
    storage id are read from the records themselves.  Of the shared records,
    those that count are records of the answer, no storage id is counted
    twice, and every storage id of a shared record is counted: a shared
    storage that several nodes report contributes exactly once. *)
Theorem C2_storage_totals {X : Externals}
        (c late : Client) (cb : option Callback) (cluster : Cluster.t) :
  GetClusterStatus c = inr cluster \/ fst (FastGetClusterStatus c late cb) = inr cluster ->
  exists resp items,
    GetWithCache c EpClusterResources = inr resp /\
    jlookup resp "data" = Some (JArray items) /\
    let entries := storageEntries (Cluster.Nodes cluster) items in
    Cluster.StorageTotal cluster = storageSum StorageEntry.maxdisk entries /\
    Cluster.StorageUsed cluster = storageSum StorageEntry.disk entries /\
    NoDup (map StorageEntry.id (sharedEntriesOnce entries)) /\
    (forall id : string,
       id ∈ map StorageEntry.id (sharedEntriesOnce entries) <->
       id ∈ map StorageEntry.id (List.filter StorageEntry.shared entries)) /\
    (forall e : StorageEntry.t,
       e ∈ sharedEntriesOnce entries -> e ∈ entries /\ StorageEntry.shared e = true).
Proof.
  intros Hbuild.
  destruct (built_manager c late cb cluster Hbuild)
    as (resp & items & Hresp & Hdata & Ht & Hu).
  exists resp, items. split; [exact Hresp|]. split; [exact Hdata|]. cbv zeta.
  rewrite <- storageReports_entries.
  set (reports := storageReports (Cluster.Nodes cluster) items) in *.
  split; [|split; [|split; [|split]]].
  - rewrite Ht. now apply expectedTotal_entries.
  - rewrite Hu. now apply expectedTotal_entries.
  - rewrite <- sharedOnce_entries, map_map.
    exact (distinctById_NoDup [] (List.filter StorageManager.IsShared reports)).
  - intros id. rewrite <- sharedOnce_entries, <- filter_shared_entries, !map_map.
    change (map (fun s => StorageEntry.id (entryOf s))) with (map StorageManager.storageId).
    unfold sharedOnce. rewrite distinctById_ids. split; [tauto|].
    intros H. split; [exact H|]. intros Hn. now apply elem_of_nil in Hn.
  - intros e He. unfold sharedEntriesOnce in He. apply firstOfEachId_elem in He.
    rewrite list_elem_of_In in He. apply filter_In in He as [Hin Hs].
    rewrite list_elem_of_In. auto.
Qed.

(** Scenario S2: 1 TB shared, counted once, plus 500 GB on each node. *)
Example S2_shared_storage_dedup :
  match GetClusterStatus (X:=Scenario.env) clientS2 with
  | inr cluster =>
      Cluster.StorageTotal cluster = 2000000000000 /\
      Cluster.StorageUsed cluster = 700000000000
  | inl _ => False
  end.
Proof. vm_compute. split; reflexivity. Qed.

(** In scenario S2 the sums over the four records of the answer are 2 TB of
    capacity and 700 GB in use. *)
Lemma C2_witness :
  Cluster.StorageTotal clusterS2 = 2000000000000 /\
  Cluster.StorageUsed clusterS2 = 700000000000.
Proof.
  assert (GetClusterStatus (X:=Scenario.env) clientS2 = inr clusterS2 \/
          fst (FastGetClusterStatus (X:=Scenario.env) clientS2 Scenario.offline None)
          = inr clusterS2) as Hbuild by (left; vm_compute; reflexivity).
  pose proof (C2_storage_totals (X:=Scenario.env) clientS2 Scenario.offline None
                clusterS2 Hbuild) as (resp & items & Hresp & Hdata & H).
  vm_compute in Hresp. injection Hresp as <-.
  vm_compute in Hdata. injection Hdata as <-.
  cbv zeta in H. destruct H as (Ht & Hu & _).
  rewrite Ht, Hu. vm_compute. split; reflexivity.
Defined.

(** ** Partial failure of the node status requests (C1) *)

Section node_statuses.
Context {X : Externals}.

Lemma updateNodeMetrics_error (c : Client) (node : Node.t) :
  snd (updateNodeMetrics c node) <> None <-> statusFails c node.
Proof.
  unfold updateNodeMetrics, statusFails.
  destruct (Node.Online node); cbn [negb].
  - destruct (GetNodeStatus c (Node.Name node)) as [err|full]; cbn [snd].
    + split; [intros _; split; [reflexivity|now exists err]|discriminate].
    + split; [congruence|]. intros [_ [err H]]. discriminate.
  - cbn [snd]. split; [congruence|]. intros [H _]. discriminate.
Qed.

Lemma updateNodeMetrics_fails (c : Client) (node : Node.t) :
  statusFails c node -> fst (updateNodeMetrics c node) = Node.set_Online false node.
Proof.
  intros [Hon [err Herr]]. unfold updateNodeMetrics. now rewrite Hon, Herr.
Qed.

Lemma updateNodeMetrics_Name (c : Client) (node : Node.t) :
  Node.Name (fst (updateNodeMetrics c node)) = Node.Name node.
Proof.
  unfold updateNodeMetrics.
  destruct (Node.Online node); [|reflexivity]. cbn [negb].
  destruct (GetNodeStatus c (Node.Name node)) as [err|full]; [reflexivity|].
  cbn [fst].
  destruct (PrimFloat.eqb (Node.MemoryTotal _) 0);
    destruct (PrimFloat.eqb (Node.MemoryUsed _) 0); reflexivity.
Qed.

Lemma collectErrors_le (l : list (option error)) :
  (length (collectErrors l) <= length l)%nat.
Proof. induction l as [|[e|] rest IH]; cbn [collectErrors length]; lia. Qed.

Lemma collectErrors_all (l : list (option error)) :
  length (collectErrors l) = length l -> Forall (fun o => o <> None) l.
Proof.
  induction l as [|[e|] rest IH]; cbn [collectErrors length]; intros H.
  - constructor.
  - constructor; [discriminate|]. apply IH. lia.
  - pose proof (collectErrors_le rest). lia.
Qed.

(** An error of the phase means that there are nodes and that every one of
    them had its request fail. *)
Lemma enrichNodeStatuses_error (c : Client) (cluster : Cluster.t) (err : error) :
  snd (enrichNodeStatuses c cluster) = Some err ->
  Cluster.Nodes cluster <> [] /\
  forall node, node ∈ Cluster.Nodes cluster -> statusFails c node.
Proof.
  unfold enrichNodeStatuses.
  destruct ((0 <? _)%nat && _) eqn:E; cbn [snd]; [intros _|discriminate].
  apply andb_true_iff in E as [Hpos Hall].
  apply Nat.ltb_lt in Hpos. apply Nat.eqb_eq in Hall.
  split.
  - intros Hnil. rewrite Hnil in Hpos. cbn in Hpos. lia.
  - replace (length (Cluster.Nodes cluster))
      with (length (map snd (map (updateNodeMetrics c) (Cluster.Nodes cluster)))) in Hall
      by now rewrite !List.length_map.
    apply collectErrors_all in Hall. rewrite map_map, Forall_map in Hall.
    rewrite Forall_forall in Hall. intros node Hin.
    apply updateNodeMetrics_error. apply Hall. exact Hin.
Qed.

Lemma enrichNodeStatuses_partial (c : Client) (cluster : Cluster.t) :
  partialFailure c (Cluster.Nodes cluster) -> snd (enrichNodeStatuses c cluster) = None.
Proof.
  intros [_ (node & Hin & Hon & full & Hok)].
  destruct (snd (enrichNodeStatuses c cluster)) as [err|] eqn:E; [|reflexivity].
  apply enrichNodeStatuses_error in E as [_ Hall].
  destruct (Hall node Hin) as [_ [err' Herr]]. congruence.
Qed.

Lemma enrichNodeStatuses_nodes (c : Client) (cluster : Cluster.t) :
  Cluster.Nodes (fst (enrichNodeStatuses c cluster)) =
  map (fun node => fst (updateNodeMetrics c node)) (Cluster.Nodes cluster).
Proof.
  unfold enrichNodeStatuses. destruct (_ && _); cbn [fst Cluster.Nodes Cluster.set_Nodes];
    now rewrite map_map.
Qed.
End node_statuses.

(** C1, as amended.  When some node's status request fails while another
    node's succeeds, node enrichment returns no error; a node whose request
    fails becomes the same node with [Online = false], every other field
    retained; node enrichment returns an error only when there are nodes and
    the request of every one of them fails; and a build in which phase 1
    succeeded with such a partial failure returns an error exactly when the
    later [/cluster/resources] phase does, and otherwise returns a cluster
    that holds the same nodes, online or offline as node enrichment left
    them. *)
Theorem C1_partial_node_failure {X : Externals} (c : Client) (cluster : Cluster.t) :
  let result := enrichNodeStatuses c cluster in
  (partialFailure c (Cluster.Nodes cluster) -> snd result = None) /\
  Forall2 (fun node node' => statusFails c node -> node' = Node.set_Online false node)
          (Cluster.Nodes cluster) (Cluster.Nodes (fst result)) /\
  (forall err, snd result = Some err ->
     Cluster.Nodes cluster <> [] /\
     forall node, node ∈ Cluster.Nodes cluster -> statusFails c node) /\
  (getClusterBasicStatus c (newCluster c) = inr cluster ->
   partialFailure c (Cluster.Nodes cluster) ->
   forall (late : Client) (cb : option Callback),
     match processClusterResources c (fst result) with
     | inl err =>
         GetClusterStatus c = inl err /\ fst (FastGetClusterStatus c late cb) = inl err
     | inr _ =>
         exists built built',
           GetClusterStatus c = inr built /\
           fst (FastGetClusterStatus c late cb) = inr built' /\
           map Node.Name (Cluster.Nodes built) = map Node.Name (Cluster.Nodes cluster) /\
           map Node.Online (Cluster.Nodes built) = map Node.Online (Cluster.Nodes (fst result)) /\
           map Node.Name (Cluster.Nodes built') = map Node.Name (Cluster.Nodes cluster) /\
           map Node.Online (Cluster.Nodes built') = map Node.Online (Cluster.Nodes (fst result))
     end).
Proof.
  cbv zeta. split; [apply enrichNodeStatuses_partial|]. split; [|split].
  - rewrite enrichNodeStatuses_nodes.
    induction (Cluster.Nodes cluster) as [|node rest IH]; cbn [map]; constructor.
    + apply updateNodeMetrics_fails.
    + exact IH.
  - apply enrichNodeStatuses_error.
  - intros Hbasic Hpartial late cb.
    pose proof (enrichNodeStatuses_partial c cluster Hpartial) as Hnone.
    unfold GetClusterStatus, FastGetClusterStatus. rewrite Hbasic.
    pose proof (enrichNodeStatuses_nodes c cluster) as Hnodes.
    destruct (enrichNodeStatuses c cluster) as [cl2 err]. cbn [fst snd] in *. subst err.
    assert (map Node.Name (Cluster.Nodes cl2) = map Node.Name (Cluster.Nodes cluster)) as Hn2.
    { rewrite Hnodes, map_map. apply map_ext. intros node.
      apply updateNodeMetrics_Name. }
    destruct (processClusterResources c cl2) as [err|cl3] eqn:E3.
    + split; reflexivity.
    + pose proof (processClusterResources_map Node.Name (fun _ _ => eq_refl) c cl2 cl3
                    (fun _ _ => eq_refl) (fun _ _ => eq_refl) (fun _ _ => eq_refl)
                    (fun _ _ => eq_refl) E3) as Hn3.
      pose proof (processClusterResources_map Node.Online (fun _ _ => eq_refl) c cl2 cl3
                    (fun _ _ => eq_refl) (fun _ _ => eq_refl) (fun _ _ => eq_refl)
                    (fun _ _ => eq_refl) E3) as Ho3.
      pose proof (EnrichVMs_map Node.Name (fun _ _ => eq_refl) c cl3) as Hn4.
      pose proof (EnrichVMs_map Node.Online (fun _ _ => eq_refl) c cl3) as Ho4.
      destruct (EnrichVMs c cl3) as [[cl4 err] evs]. cbn [fst] in *.
      eexists. eexists. split; [reflexivity|]. split; [reflexivity|].
      rewrite !calculateClusterTotals_Nodes.
      rewrite Hn4, Ho4, Hn3, Ho3, Hn2. auto.
Qed.

Lemma nodesS1_nodes :
  Cluster.Nodes nodesS1 = [stub "a" "10.0.0.1"; stub "b" "10.0.0.2"; stub "c" "10.0.0.3"].
Proof. reflexivity. Qed.

Lemma nodesS1_partial (resources : error + JMap) :
  partialFailure (clientS1 resources) (Cluster.Nodes nodesS1).
Proof.
  rewrite nodesS1_nodes. split.
  - exists (stub "b" "10.0.0.2"). split; [right; left|].
    split; [reflexivity|]. eexists. reflexivity.
  - exists (stub "a" "10.0.0.1"). split; [left|].
    split; [reflexivity|]. eexists. reflexivity.
Qed.

Lemma C1_witness :
  snd (enrichNodeStatuses (clientS1 (inr resourcesS2)) nodesS1) = None.
Proof.
  apply (proj1 (C1_partial_node_failure (X:=Scenario.env) (clientS1 (inr resourcesS2)) nodesS1)).
  apply nodesS1_partial.
Defined.

(** C1 as stated fails: in scenario S1 node b fails and nodes a and c answer,
    yet both builds return an error when [/cluster/resources] cannot be
    fetched. *)
Lemma C1_counterexample :
  let c := clientS1 (inl Scenario.unreachable) in
  getClusterBasicStatus (X:=Scenario.env) c (newCluster c) = inr nodesS1 /\
  partialFailure c (Cluster.Nodes nodesS1) /\
  GetClusterStatus (X:=Scenario.env) c
    = inl (ErrWrap "failed to get cluster resources" Scenario.unreachable) /\
  fst (FastGetClusterStatus (X:=Scenario.env) c c (Some (callback "refresh")))
    = inl (ErrWrap "failed to get cluster resources" Scenario.unreachable).
Proof.
  cbv zeta. split; [reflexivity|]. split; [apply nodesS1_partial|].
  split; vm_compute; reflexivity.
Qed.

(** Scenario S1: the snapshot holds the three nodes, b is offline, and two
    nodes are counted as online. *)
Example S1_partial_node_outage :
  match GetClusterStatus (X:=Scenario.env) (clientS1 (inr resourcesS2)) with
  | inr cluster =>
      map Node.Name (Cluster.Nodes cluster) = ["a"; "b"; "c"] /\
      map Node.Online (Cluster.Nodes cluster) = [true; false; true] /\
      Cluster.OnlineNodes cluster = 2
  | inl _ => False
  end.
Proof. vm_compute. repeat split; reflexivity. Qed.

(** When every node fails, node enrichment fails. *)
Example all_nodes_unreachable :
  snd (enrichNodeStatuses Scenario.offline nodesS1)
    = Some (ErrAllNodesUnreachable 3).
Proof. reflexivity. Qed.

(** ** The background enrichment and its callback (C5) *)

Section background.
Context {X : Externals}.

Lemma enrichGuests_no_callback (c : Client) (vms : list VM.t) :
  List.filter isCallback (trace (enrichGuests c vms)) = [].
Proof.
  induction vms as [|vm rest IH]; cbn [enrichGuests]; [reflexivity|].
  destruct (isRunning vm); [destruct (enrichWorker c vm)|]; cbn [trace List.filter isCallback];
    exact IH.
Qed.

Lemma enrichNodes_no_callback (c : Client) (nodes : list Node.t) :
  List.filter isCallback (trace (enrichNodes c nodes)) = [].
Proof.
  induction nodes as [|node rest IH]; cbn [enrichNodes]; [reflexivity|].
  destruct (Node.Online node); cbn [trace]; [|exact IH].
  now rewrite List.filter_app, enrichGuests_no_callback, IH.
Qed.

Lemma EnrichVMs_no_callback (c : Client) (cluster : Cluster.t) :
  List.filter isCallback (snd (EnrichVMs c cluster)) = [].
Proof.
  unfold EnrichVMs. destruct (_ =? _)%nat; cbn [snd]; [reflexivity|].
  apply enrichNodes_no_callback.
Qed.

Lemma retryGuests_no_callback (c : Client) (vms : list VM.t) :
  List.filter isCallback (snd (retryGuests c vms)) = [].
Proof.
  induction vms as [|vm rest IH]; cbn [retryGuests]; [reflexivity|].
  destruct (retryGuests c rest) as [rest' evs]. cbn [snd] in IH.
  destruct (needsRetry vm); cbn [snd List.filter isCallback]; exact IH.
Qed.

Lemma retryNodes_no_callback (c : Client) (nodes : list Node.t) :
  List.filter isCallback (snd (retryNodes c nodes)) = [].
Proof.
  induction nodes as [|node rest IH]; cbn [retryNodes]; [reflexivity|].
  destruct (retryNodes c rest) as [rest' evs]. cbn [snd] in IH.
  destruct (Node.Online node); cbn [snd]; [|exact IH].
  pose proof (retryGuests_no_callback c (Node.VMs node)) as Hg.
  destruct (retryGuests c (Node.VMs node)) as [vms evs0]. cbn [snd] in *.
  now rewrite List.filter_app, Hg, IH.
Qed.

(** What the goroutine does: the calls of the first pass, the sleep, the
    calls of the retry pass, and then the callback if there is one. *)
Lemma backgroundEnrichment_trace (c late : Client) (cluster : Cluster.t)
      (cb : option Callback) :
  exists first retry,
    first = snd (EnrichVMs c cluster) /\
    retry = snd (retryNodes late (Cluster.Nodes (fst (fst (EnrichVMs c cluster))))) /\
    snd (backgroundEnrichment c late cluster cb) =
    first ++ [EvSleep 3] ++ retry ++
      match cb with Some f => [EvCallback f] | None => [] end.
Proof.
  unfold backgroundEnrichment.
  destruct (EnrichVMs c cluster) as [[cl1 err] first]. cbn [fst snd].
  destruct (retryNodes late (Cluster.Nodes cl1)) as [nodes retry]. cbn [snd].
  exists first, retry. auto.
Qed.
End background.

Section background_passes.
Context {X : Externals}.

Lemma enrichGuests_trace (c : Client) (vms : list VM.t) :
  trace (enrichGuests c vms) = map callOf (List.filter isRunning vms).
Proof.
  induction vms as [|vm rest IH]; cbn [enrichGuests List.filter]; [reflexivity|].
  destruct (isRunning vm); [destruct (enrichWorker c vm)|]; cbn [trace map];
    now rewrite IH.
Qed.

Lemma enrichNodes_trace (c : Client) (nodes : list Node.t) :
  trace (enrichNodes c nodes) = map callOf (List.filter isRunning (guestsOf nodes)).
Proof.
  unfold guestsOf.
  induction nodes as [|node rest IH]; cbn [enrichNodes List.filter]; [reflexivity|].
  destruct (Node.Online node); cbn [trace flat_map]; [|exact IH].
  now rewrite List.filter_app, map_app, enrichGuests_trace, IH.
Qed.

Lemma totalVMs_guestsOf (nodes : list Node.t) : totalVMs nodes = length (guestsOf nodes).
Proof.
  unfold totalVMs, guestsOf.
  induction nodes as [|node rest IH]; [reflexivity|].
  cbn [map List.filter].
  change (list_sum (?h :: ?t)) with (h + list_sum t)%nat. rewrite IH.
  destruct (Node.Online node); cbn [flat_map]; rewrite ?length_app; reflexivity.
Qed.

(** The first pass calls [GetVmStatus] once for every running guest of an
    online node. *)
Lemma EnrichVMs_trace (c : Client) (cluster : Cluster.t) :
  snd (EnrichVMs c cluster) =
  map callOf (List.filter isRunning (guestsOf (Cluster.Nodes cluster))).
Proof.
  unfold EnrichVMs. destruct (_ =? _)%nat eqn:E; cbn [snd].
  - apply Nat.eqb_eq in E. rewrite totalVMs_guestsOf in E.
    destruct (guestsOf (Cluster.Nodes cluster)); [reflexivity|discriminate].
  - apply enrichNodes_trace.
Qed.

Lemma retryGuests_trace (c : Client) (vms : list VM.t) :
  snd (retryGuests c vms) = map callOf (List.filter needsRetry vms).
Proof.
  induction vms as [|vm rest IH]; cbn [retryGuests List.filter]; [reflexivity|].
  destruct (retryGuests c rest) as [rest' evs]. cbn [snd] in IH.
  destruct (needsRetry vm); cbn [snd map]; now rewrite IH.
Qed.

(** The retry pass calls it once more for every running QEMU guest of an
    online node whose agent is enabled and has not answered. *)
Lemma retryNodes_trace (c : Client) (nodes : list Node.t) :
  snd (retryNodes c nodes) = map callOf (List.filter needsRetry (guestsOf nodes)).
Proof.
  unfold guestsOf.
  induction nodes as [|node rest IH]; cbn [retryNodes List.filter]; [reflexivity|].
  destruct (retryNodes c rest) as [rest' evs]. cbn [snd] in IH.
  destruct (Node.Online node); cbn [snd flat_map]; [|exact IH].
  pose proof (retryGuests_trace c (Node.VMs node)) as Hg.
  destruct (retryGuests c (Node.VMs node)) as [vms evs0]. cbn [snd] in *.
  now rewrite List.filter_app, map_app, Hg, IH.
Qed.

Lemma calls_no_callback (vms : list VM.t) :
  List.filter isCallback (map callOf vms) = [].
Proof. induction vms as [|vm rest IH]; [reflexivity|exact IH]. Qed.
End background_passes.

(** C5, as amended.  A call of [FastGetClusterStatus] with a callback that
    returns a cluster starts background work that calls [GetVmStatus] for
    every running guest of an online node, sleeps three seconds, calls
    [GetVmStatus] again for every running agent-enabled QEMU guest whose agent
    has not answered, and then invokes the callback: exactly once, as the last
    thing it does.  A call that returns an error starts no background work and
    never invokes the callback. *)
Theorem C5_callback_once_after_both_passes {X : Externals}
        (c late : Client) (f : Callback) :
  match FastGetClusterStatus c late (Some f) with
  | (inr cluster, background) =>
      background =
        map callOf (List.filter isRunning (guestsOf (Cluster.Nodes cluster))) ++
        [EvSleep 3] ++
        map callOf (List.filter needsRetry
                      (guestsOf (Cluster.Nodes (fst (fst (EnrichVMs c cluster)))))) ++
        [EvCallback f] /\
      List.filter isCallback background = [EvCallback f]
  | (inl _, background) => background = []
  end.
Proof.
  unfold FastGetClusterStatus.
  destruct (getClusterBasicStatus c (newCluster c)) as [|cl1]; [reflexivity|].
  destruct (enrichNodeStatuses c cl1) as [cl2 [err|]]; [reflexivity|].
  destruct (processClusterResources c cl2) as [|cl3]; [reflexivity|].
  set (cluster := calculateClusterTotals cl3).
  destruct (backgroundEnrichment_trace c late cluster (Some f))
    as (first & retry & Hfirst & Hretry & Htrace).
  rewrite Htrace, Hfirst, Hretry, EnrichVMs_trace, retryNodes_trace.
  split; [reflexivity|].
  rewrite !List.filter_app, !calls_no_callback. reflexivity.
Qed.

(** C5 as stated fails: a call with a callback that cannot fetch
    [/cluster/status] returns an error and the callback is never invoked. *)
Lemma C5_counterexample :
  FastGetClusterStatus (X:=Scenario.env) Scenario.offline Scenario.offline
                       (Some (callback "refresh"))
    = (inl (ErrWrap "failed to get cluster status" Scenario.unreachable), []) /\
  length (List.filter isCallback
            (snd (FastGetClusterStatus (X:=Scenario.env) Scenario.offline Scenario.offline
                                       (Some (callback "refresh"))))) = 0%nat.
Proof. split; reflexivity. Qed.

(** Scenario S6: the agents of both guests answer only on the retry; each
    guest is asked twice and the callback is called once, last. *)
Example S6_retry_callback_once :
  snd (FastGetClusterStatus (X:=Scenario.env) agentStarting agentReady
                            (Some (callback "refresh")))
    = [EvGetVmStatus "a" 100; EvGetVmStatus "a" 101; EvSleep 3;
       EvGetVmStatus "a" 100; EvGetVmStatus "a" 101; EvCallback (callback "refresh")].
Proof. vm_compute. reflexivity. Qed.

(** * Further properties of the enricher, the aggregator and the guest list *)

(** ** The configured-MAC set as a set: contents and iteration order *)

Lemma addConfiguredMAC_elem (macs : gset string) (kv : string * JSON) (m : string) :
  m ∈ addConfiguredMAC macs kv <->
  m ∈ macs \/
  exists netStr, snd kv = JString netStr /\ isNetDevice (fst kv) = true /\
                 firstMAC (strings.Split netStr ","%char) = Some m.
Proof.
  unfold addConfiguredMAC.
  destruct (isNetDevice (fst kv)) eqn:Ek.
  - destruct (snd kv) as [| | | netStr | |] eqn:Ev;
      try (split; [now left|intros [H|(s & [=] & _)]; exact H]).
    destruct (firstMAC (strings.Split netStr ","%char)) as [mac|] eqn:Em.
    + rewrite elem_of_union, elem_of_singleton. split.
      * intros [->|H]; [right|now left]. exists netStr. auto.
      * intros [H|(s & [= <-] & _ & Hs)]; [now right|left]. congruence.
    + split; [now left|]. intros [H|(s & [= <-] & _ & Hs)]; [exact H|congruence].
  - split; [now left|]. intros [H|(s & _ & [=] & _)]. exact H.
Qed.

Lemma fold_addConfiguredMAC_elem (configData : JMap) (macs : gset string) (m : string) :
  m ∈ fold_left addConfiguredMAC configData macs <->
  m ∈ macs \/
  exists k netStr, (k, JString netStr) ∈ configData /\ isNetDevice k = true /\
                   firstMAC (strings.Split netStr ","%char) = Some m.
Proof.
  revert macs. induction configData as [|[k v] rest IH]; intros macs; cbn [fold_left].
  - split; [now left|]. intros [H|(k & s & Hin & _)]; [exact H|].
    now apply elem_of_nil in Hin.
  - rewrite IH, addConfiguredMAC_elem. cbn [fst snd]. split.
    + intros [[H|(s & -> & Hk & Hm)]|(k' & s & Hin & Hk & Hm)].
      * now left.
      * right. exists k, s. split; [apply list_elem_of_here|auto].
      * right. exists k', s. split; [now apply list_elem_of_further|auto].
    + intros [H|(k' & s & Hin & Hk & Hm)]; [now left; left|].
      apply elem_of_cons in Hin as [[= -> <-]|Hin].
      * left; right. exists s. auto.
      * right. exists k', s. auto.
Qed.

(** X1.  The configured-MAC set that [populateConfiguredMACs] stores holds
    exactly the MACs found in the network devices of the config: a key is in
    the set if and only if some entry [netN] of the config is a string whose
    first part of MAC shape, upper-cased, is that key.  Entries under other
    keys and entries that are not strings add nothing. *)
Theorem configuredMACs_contents (vm : VM.t) (configData : JMap) (m : string) :
  hasConfiguredMAC (populateConfiguredMACs vm configData) m = true <->
  exists k netStr : string,
    (k, JString netStr) ∈ configData /\ isNetDevice k = true /\
    firstMAC (strings.Split netStr ","%char) = Some m.
Proof.
  unfold hasConfiguredMAC, populateConfiguredMACs, configuredMACs.
  cbn [VM.ConfiguredMACs VM.set_ConfiguredMACs].
  rewrite bool_decide_eq_true, fold_addConfiguredMAC_elem. split.
  - intros [H|H]; [now apply elem_of_empty in H|exact H].
  - intros H. now right.
Qed.

(** X2.  Go leaves the order of a [range] over a map unspecified; the result
    of [populateConfiguredMACs] does not depend on it: two visits of the same
    config entries in different orders leave the guest in the same state. *)
Theorem populateConfiguredMACs_order
        (vm : VM.t) (configData configData' : JMap) :
  Permutation configData configData' ->
  populateConfiguredMACs vm configData = populateConfiguredMACs vm configData'.
Proof.
  intros Hperm. unfold populateConfiguredMACs. f_equal. f_equal.
  unfold configuredMACs. apply set_eq. intros m.
  rewrite !fold_addConfiguredMAC_elem.
  assert (forall kv, kv ∈ configData <-> kv ∈ configData') as Hin.
  { intros kv. now rewrite Hperm. }
  split; (intros [H|(k & s & Hk & Hrest)]; [now left|right; exists k, s]);
    (split; [now apply Hin|exact Hrest]).
Qed.

Lemma populateConfiguredMACs_order_witness :
  populateConfiguredMACs guestFs Scenario.qemuConfigS3
  = populateConfiguredMACs guestFs qemuConfigS3_reordered.
Proof.
  apply populateConfiguredMACs_order.
  apply perm_swap.
Defined.

(** ** The address that [GetDetailedVmInfo] takes from the config *)

Section config_ip_complete.
Context {X : Externals}.

Lemma firstConfigIP_None (parts : list string) :
  firstConfigIP parts = None <-> forall part, part ∈ parts -> validIPPart part = false.
Proof.
  unfold validIPPart. induction parts as [|part rest IH]; cbn [firstConfigIP].
  - split; [|reflexivity]. intros _ part Hin. now apply elem_of_nil in Hin.
  - destruct (startsWith3 part "ip=") eqn:Es;
      [destruct (isValidIP (stripMask (strings.drop 3 part))) eqn:Ev|].
    + split; [discriminate|]. intros H.
      specialize (H part (list_elem_of_here _ _)). now rewrite Es, Ev in H.
    + rewrite IH. split.
      * intros H p Hp. apply elem_of_cons in Hp as [->|Hp]; [now rewrite Es, Ev|auto].
      * intros H p Hp. apply H. now apply list_elem_of_further.
    + rewrite IH. split.
      * intros H p Hp. apply elem_of_cons in Hp as [->|Hp]; [now rewrite Es|auto].
      * intros H p Hp. apply H. now apply list_elem_of_further.
Qed.

Lemma configIP_None (configData : JMap) :
  configIP configData = None <-> ~ hasConfigIP configData.
Proof.
  unfold hasConfigIP. induction configData as [|[k v] rest IH]; cbn [configIP].
  - split; [|reflexivity]. intros _ (k & s & p & Hin & _). now apply elem_of_nil in Hin.
  - assert ((exists k0 netStr part : string,
                (k0, JString netStr) ∈ (k, v) :: rest /\ startsWith3 k0 "net" = true /\
                part ∈ strings.Split netStr ","%char /\ validIPPart part = true) <->
            (exists netStr part, v = JString netStr /\ startsWith3 k "net" = true /\
                part ∈ strings.Split netStr ","%char /\ validIPPart part = true) \/
            (exists k0 netStr part : string,
                (k0, JString netStr) ∈ rest /\ startsWith3 k0 "net" = true /\
                part ∈ strings.Split netStr ","%char /\ validIPPart part = true)) as ->.
    { split.
      - intros (k0 & s & p & Hin & Hrest).
        apply elem_of_cons in Hin as [[= -> <-]|Hin].
        + left. exists s, p. auto.
        + right. exists k0, s, p. auto.
      - intros [(s & p & -> & Hrest)|(k0 & s & p & Hin & Hrest)].
        + exists k, s, p. split; [apply list_elem_of_here|exact Hrest].
        + exists k0, s, p. split; [now apply list_elem_of_further|exact Hrest]. }
    destruct (startsWith3 k "net") eqn:Ek.
    + destruct v as [| | | netStr | |];
        try (rewrite IH; split; [intros H [(s & p & [=] & _)|H']; auto|tauto]).
      destruct (firstConfigIP (strings.Split netStr ","%char)) as [ip|] eqn:Ef.
      * split; [discriminate|]. intros H. exfalso. apply H. left.
        destruct (firstConfigIP_Some _ _ Ef) as (p & Hp & Hs & -> & Hv).
        exists netStr, p. unfold validIPPart. rewrite Hs, Hv. auto.
      * rewrite IH. split; [|tauto].
        intros H [(s & p & [= <-] & _ & Hp & Hv)|H']; [|auto].
        rewrite firstConfigIP_None in Ef. rewrite (Ef p Hp) in Hv. discriminate.
    + rewrite IH. split; [|tauto].
      intros H [(s & p & _ & [=] & _)|H']. auto.
Qed.
End config_ip_complete.

(** X3.  [GetDetailedVmInfo] gives the guest an address exactly when the
    config has one to give: the IP of the returned guest is non-empty if and
    only if some string entry whose key starts with [net] has a part [ip=...]
    whose value, cut at its mask, passes [isValidIP].  No valid address in
    the config is passed over, and no address comes from anywhere else. *)
Theorem GetDetailedVmInfo_ip_iff {X : Externals}
        (c : Client) (node vmType : string) (vmid : Z) (vm : VM.t) :
  GetDetailedVmInfo c node vmType vmid = inr vm ->
  exists configRes configData,
    GetWithCache c (EpConfig node vmType vmid) = inr configRes /\
    jlookup configRes "data" = Some (JObject configData) /\
    (VM.IP vm <> "" <-> hasConfigIP configData).
Proof.
  intros Hvm.
  destruct (GetDetailedVmInfo_MACs c node vmType vmid vm Hvm)
    as (configRes & configData & Hres & Hdata & _ & Hip).
  exists configRes, configData. split; [exact Hres|]. split; [exact Hdata|].
  rewrite Hip. destruct (configIP configData) as [ip|] eqn:Eip.
  - split.
    + intros _. destruct (configIP_Some _ _ Eip) as (k & netStr & Hin & Hk & Hfirst).
      destruct (firstConfigIP_Some _ _ Hfirst) as (p & Hp & Hs & -> & Hv).
      exists k, netStr, p. unfold validIPPart. rewrite Hs, Hv. auto.
    + intros _. destruct (configIP_Some _ _ Eip) as (k & netStr & _ & _ & Hfirst).
      destruct (firstConfigIP_Some _ _ Hfirst) as (_ & _ & _ & _ & Hvalid).
      apply isValidIP_true in Hvalid. tauto.
  - apply configIP_None in Eip. split; [congruence|tauto].
Qed.

Lemma GetDetailedVmInfo_ip_iff_witness :
  exists configRes configData,
    GetWithCache Scenario.clientStatic (EpConfig "a" VMTypeLXC 101) = inr configRes /\
    jlookup configRes "data" = Some (JObject configData) /\
    (VM.IP detailStatic <> "" <-> hasConfigIP (X:=Scenario.env) configData).
Proof.
  apply (GetDetailedVmInfo_ip_iff (X:=Scenario.env)
           Scenario.clientStatic "a" VMTypeLXC 101 detailStatic).
  reflexivity.
Defined.

(** ** [GetVmStatus]: failure, identity and the guests it only meters *)

Section status_call.
Context {X : Externals}.

(** [GetVmStatus] leaves a field alone when none of the setters it uses
    writes it. *)
Lemma GetVmStatus_frame {A : Type} (proj : VM.t -> A) (c : Client) (vm : VM.t) :
  (forall v x, proj (VM.set_CPU v x) = proj x) ->
  (forall v x, proj (VM.set_Mem v x) = proj x) ->
  (forall v x, proj (VM.set_MaxMem v x) = proj x) ->
  (forall v x, proj (VM.set_Disk v x) = proj x) ->
  (forall v x, proj (VM.set_MaxDisk v x) = proj x) ->
  (forall v x, proj (VM.set_DiskRead v x) = proj x) ->
  (forall v x, proj (VM.set_DiskWrite v x) = proj x) ->
  (forall v x, proj (VM.set_NetIn v x) = proj x) ->
  (forall v x, proj (VM.set_NetOut v x) = proj x) ->
  (forall v x, proj (VM.set_Uptime v x) = proj x) ->
  (forall v x, proj (VM.set_ConfiguredMACs v x) = proj x) ->
  (forall v x, proj (VM.set_AgentEnabled v x) = proj x) ->
  (forall v x, proj (VM.set_AgentRunning v x) = proj x) ->
  (forall v x, proj (VM.set_NetInterfaces v x) = proj x) ->
  (forall v x, proj (VM.set_IP v x) = proj x) ->
  (forall v x, proj (VM.set_Filesystems v x) = proj x) ->
  (forall v x, proj (VM.set_Enriched v x) = proj x) ->
  proj (fst (GetVmStatus c vm)) = proj vm.
Proof.
  intros Hcpu Hmem Hmaxmem Hd Hx Hdr Hdw Hni Hno Hup Hm Ha Hr Hn Hi Hf He.
  unfold GetVmStatus.
  destruct (GetWithCache c _) as [|res]; [reflexivity|].
  destruct (jlookup res "data") as [[| | | | |data]|]; try reflexivity.
  cbn [fst]. rewrite He.
  assert (proj (statusMetrics data (VM.Disk vm) (VM.MaxDisk vm) vm) = proj vm) as Hs.
  { unfold statusMetrics.
    rewrite !(updInt_frame proj) by assumption.
    rewrite (statusDisk_frame proj) by assumption.
    rewrite !(updInt_frame proj) by assumption.
    now rewrite (updFloat_frame proj) by assumption. }
  destruct (_ && _); [now rewrite enrichQemu_frame|].
  destruct (_ && _); [now rewrite enrichLxc_frame|exact Hs].
Qed.

Lemma enrichWorker_fst (c : Client) (vm : VM.t) :
  exists d m : option Z,
    fst (enrichWorker c vm) =
    (match m with Some v => VM.set_MaxDisk v | None => fun x => x end)
      ((match d with Some v => VM.set_Disk v | None => fun x => x end)
         (fst (GetVmStatus c vm))).
Proof.
  unfold enrichWorker. destruct (GetVmStatus c vm) as [vm' err]. cbn [fst].
  destruct ((VM.Disk vm' =? 0) && (0 <? VM.Disk vm)) eqn:Ed.
  - destruct ((VM.MaxDisk (VM.set_Disk (VM.Disk vm) vm') =? 0) && (0 <? VM.MaxDisk vm)).
    + now exists (Some (VM.Disk vm)), (Some (VM.MaxDisk vm)).
    + now exists (Some (VM.Disk vm)), None.
  - destruct ((VM.MaxDisk vm' =? 0) && (0 <? VM.MaxDisk vm)).
    + now exists None, (Some (VM.MaxDisk vm)).
    + now exists None, None.
Qed.

Lemma enrichWorker_snd (c : Client) (vm : VM.t) :
  snd (enrichWorker c vm) = snd (GetVmStatus c vm).
Proof. unfold enrichWorker. now destruct (GetVmStatus c vm). Qed.

Lemma enrichWorker_frame {A : Type} (proj : VM.t -> A) (c : Client) (vm : VM.t) :
  (forall v x, proj (VM.set_Disk v x) = proj x) ->
  (forall v x, proj (VM.set_MaxDisk v x) = proj x) ->
  proj (fst (enrichWorker c vm)) = proj (fst (GetVmStatus c vm)).
Proof.
  intros Hd Hx. destruct (enrichWorker_fst c vm) as (d & m & ->).
  destruct d, m; now rewrite ?Hx, ?Hd.
Qed.

Lemma GetVmStatus_sameIdentity (c : Client) (vm : VM.t) :
  sameIdentity (fst (GetVmStatus c vm)) vm.
Proof. repeat split; apply GetVmStatus_frame; setter_frame. Qed.

Lemma enrichWorker_sameIdentity (c : Client) (vm : VM.t) :
  sameIdentity (fst (enrichWorker c vm)) vm.
Proof.
  repeat split;
    match goal with
    | |- ?p _ = ?p _ => rewrite (enrichWorker_frame p) by setter_frame
    end; apply GetVmStatus_frame; setter_frame.
Qed.

Lemma takesBranch_false (vm : VM.t) :
  takesBranch vm = false ->
  String.eqb (VM.Type_ vm) VMTypeQemu && isRunning vm = false /\
  String.eqb (VM.Type_ vm) VMTypeLXC && isRunning vm = false.
Proof.
  unfold takesBranch.
  destruct (isRunning vm), (String.eqb (VM.Type_ vm) VMTypeQemu),
    (String.eqb (VM.Type_ vm) VMTypeLXC); cbn; auto; discriminate.
Qed.

(** The call for a guest that takes neither branch. *)
Lemma GetVmStatus_no_branch (c : Client) (vm : VM.t) :
  takesBranch vm = false ->
  GetVmStatus c vm =
  match GetWithCache c (statusEndpoint vm) with
  | inl err => (vm, Some err)
  | inr res =>
      match jlookup res "data" with
      | Some (JObject data) =>
          (VM.set_Enriched true (statusMetrics data (VM.Disk vm) (VM.MaxDisk vm) vm), None)
      | _ => (vm, Some (ErrMsg "unexpected format for VM status"))
      end
  end.
Proof.
  intros Hb. apply takesBranch_false in Hb as [Hq Hl].
  unfold GetVmStatus, statusEndpoint.
  destruct (GetWithCache c _) as [|res]; [reflexivity|].
  destruct (jlookup res "data") as [[| | | | |data]|]; try reflexivity.
  unfold isRunning in *. rewrite statusMetrics_Type, statusMetrics_Status, Hq, Hl.
  reflexivity.
Qed.
End status_call.

(** X4.  [GetVmStatus] fails exactly when the [status/current] request
    fails or its answer has no [data] object; a failed config request, a
    silent guest agent or a failed filesystem query never fail the call.
    When it fails the guest is left exactly as it was, and when it succeeds
    the guest is marked as enriched. *)
Theorem GetVmStatus_failure {X : Externals} (c : Client) (vm : VM.t) :
  (snd (GetVmStatus c vm) = None <->
   exists res data,
     GetWithCache c (statusEndpoint vm) = inr res /\
     jlookup res "data" = Some (JObject data)) /\
  (snd (GetVmStatus c vm) <> None -> fst (GetVmStatus c vm) = vm) /\
  (snd (GetVmStatus c vm) = None -> VM.Enriched (fst (GetVmStatus c vm)) = true).
Proof.
  unfold GetVmStatus, statusEndpoint.
  destruct (GetWithCache c _) as [err|res].
  - cbn [fst snd]. split; [|split]; [|reflexivity|discriminate].
    split; [discriminate|]. intros (res & data & [=] & _).
  - destruct (jlookup res "data") as [[| | | | |data]|] eqn:Edata;
      cbn [fst snd];
      try (split; [|split]; [|reflexivity|discriminate];
           split; [discriminate|]; intros (res' & data' & [= <-] & Hd); congruence).
    split; [|split]; [|congruence|reflexivity].
    split; [|reflexivity]. intros _. exists res, data. auto.
Qed.

(** X5.  Neither [GetVmStatus] nor the worker of [EnrichVMs] ever writes
    the fields that identify a guest: its ID, name, node, type, status,
    template flag, tags, HA state, lock and pool are after the call what
    [/cluster/resources] said, whatever the client answers. *)
Theorem GetVmStatus_identity {X : Externals} (c : Client) (vm : VM.t) :
  sameIdentity (fst (GetVmStatus c vm)) vm /\
  sameIdentity (fst (enrichWorker c vm)) vm.
Proof.
  split; [apply GetVmStatus_sameIdentity|apply enrichWorker_sameIdentity].
Qed.

(** X6.  For a guest that is not running, or that is neither a QEMU guest
    nor a container, [GetVmStatus] only reads [status/current]: two clients
    that agree on that answer give the same result, whatever they would
    answer to the config and guest-agent requests; and the guest keeps its
    IP, agent flags, interfaces, filesystems and configured MACs. *)
Theorem GetVmStatus_meters_only {X : Externals} (c c' : Client) (vm : VM.t) :
  takesBranch vm = false ->
  GetWithCache c (statusEndpoint vm) = GetWithCache c' (statusEndpoint vm) ->
  GetVmStatus c vm = GetVmStatus c' vm /\
  sameGuestView (fst (GetVmStatus c vm)) vm.
Proof.
  intros Hb Hsame. rewrite !GetVmStatus_no_branch, Hsame by exact Hb.
  split; [reflexivity|].
  destruct (GetWithCache c' _) as [|res]; [repeat split|].
  destruct (jlookup res "data") as [[| | | | |data]|]; try (repeat split).
  all: cbn [fst]; unfold statusMetrics;
    match goal with |- ?p (VM.set_Enriched _ ?x) = _ => change (p x = p vm); frame p end.
Qed.

Lemma GetVmStatus_meters_only_witness :
  GetVmStatus (X:=Scenario.env) Scenario.clientS3 guestStopped
  = GetVmStatus (X:=Scenario.env) Scenario.clientNoNet guestStopped /\
  sameGuestView (fst (GetVmStatus (X:=Scenario.env) Scenario.clientS3 guestStopped))
                guestStopped.
Proof.
  apply (GetVmStatus_meters_only (X:=Scenario.env)); reflexivity.
Defined.

(** ** The two branches of [GetVmStatus] for running guests *)

Section branches.
Context {X : Externals}.

(** The three ways through the QEMU branch. *)
Lemma enrichQemu_cases (c : Client) (vm : VM.t) :
  let vm1 := qemuConfig c vm in
  let vm' := enrichQemu c vm in
  (VM.AgentEnabled vm1 = false /\
   vm' = VM.set_NetInterfaces [] (VM.set_AgentRunning false vm1)) \/
  (VM.AgentEnabled vm1 = true /\
   vm' = clearIPWithoutMACs (VM.set_NetInterfaces [] (VM.set_AgentRunning false vm1))) \/
  (exists raw,
     VM.AgentEnabled vm1 = true /\
     GetGuestAgentInterfaces c vm1 = (raw, None) /\ raw <> [] /\
     let vm2 := fillIP (VM.set_NetInterfaces
                          (filterInterfaces (qemuShows (VM.set_AgentRunning true vm1)) raw)
                          (VM.set_AgentRunning true vm1)) in
     vm' = vm2 \/
     exists fss, GetGuestAgentFilesystems c vm2 = inr fss /\ fss <> [] /\
                 vm' = applyFilesystems fss vm2).
Proof.
  cbv zeta. unfold enrichQemu. set (vm1 := qemuConfig c vm).
  destruct (VM.AgentEnabled vm1) eqn:Ea; [|now left].
  right. destruct (GetGuestAgentInterfaces c vm1) as [raw [err|]] eqn:Eraw; [now left|].
  destruct (0 <? length raw)%nat eqn:El; [|now left].
  right. exists raw. split; [reflexivity|]. split; [reflexivity|].
  split; [now destruct raw|].
  destruct (GetGuestAgentFilesystems c _) as [|fss] eqn:Efs; [now left|].
  destruct (0 <? length fss)%nat eqn:Ef; [|now left].
  right. exists fss. split; [reflexivity|]. split; [now destruct fss|reflexivity].
Qed.

(** The two ways through the LXC branch. *)
Lemma enrichLxc_cases (c : Client) (vm : VM.t) :
  let vm1 := lxcConfig c vm in
  let raw := fst (GetLxcInterfaces c vm1) in
  (raw = [] /\ enrichLxc c vm = clearIPWithoutMACs (VM.set_NetInterfaces [] vm1)) \/
  (raw <> [] /\
   enrichLxc c vm =
   fillIP (VM.set_NetInterfaces (filterInterfaces (lxcShows vm1) raw) vm1)).
Proof.
  cbv zeta. unfold enrichLxc. set (vm1 := lxcConfig c vm).
  destruct (GetLxcInterfaces c vm1) as [raw err]. cbn [fst].
  destruct raw; [left|right]; split; (reflexivity || discriminate).
Qed.

Lemma applyFilesystems_frame {A : Type} (proj : VM.t -> A) fss vm :
  (forall v x, proj (VM.set_Filesystems v x) = proj x) ->
  (forall v x, proj (VM.set_Disk v x) = proj x) ->
  (forall v x, proj (VM.set_MaxDisk v x) = proj x) ->
  proj (applyFilesystems fss vm) = proj vm.
Proof.
  intros Hf Hd Hx. unfold applyFilesystems. destruct (0 <? _); now rewrite ?Hd, ?Hx, Hf.
Qed.

Lemma applyFilesystems_Filesystems fss vm :
  VM.Filesystems (applyFilesystems fss vm) = List.filter keepFilesystem fss.
Proof. unfold applyFilesystems. destruct (0 <? _); reflexivity. Qed.

(** *** Agent flags *)

Lemma enrichQemu_agent (c : Client) (vm : VM.t) :
  let vm' := enrichQemu c vm in
  (VM.AgentRunning vm' = true -> VM.AgentEnabled vm' = true) /\
  (VM.AgentRunning vm' = false ->
   VM.NetInterfaces vm' = [] /\ VM.Filesystems vm' = VM.Filesystems vm).
Proof.
  cbv zeta.
  destruct (enrichQemu_cases c vm) as [[Ha ->]|[[Ha ->]|(raw & Ha & _ & _ & H)]].
  - split; [discriminate|]. intros _. split; [reflexivity|].
    cbn [VM.Filesystems VM.set_NetInterfaces VM.set_AgentRunning].
    now rewrite (qemuConfig_frame VM.Filesystems) by setter_frame.
  - rewrite (clearIPWithoutMACs_frame VM.AgentRunning) by setter_frame.
    split; [discriminate|]. intros _.
    rewrite (clearIPWithoutMACs_frame VM.NetInterfaces) by setter_frame.
    rewrite (clearIPWithoutMACs_frame VM.Filesystems) by setter_frame.
    split; [reflexivity|].
    cbn [VM.Filesystems VM.set_NetInterfaces VM.set_AgentRunning].
    now rewrite (qemuConfig_frame VM.Filesystems) by setter_frame.
  - cbv zeta in H. destruct H as [->|(fss & _ & _ & ->)];
      rewrite ?(applyFilesystems_frame VM.AgentRunning) by setter_frame;
      rewrite ?(applyFilesystems_frame VM.AgentEnabled) by setter_frame;
      rewrite (fillIP_frame VM.AgentRunning) by setter_frame;
      rewrite (fillIP_frame VM.AgentEnabled) by setter_frame;
      (split; [intros _; exact Ha|discriminate]).
Qed.

(** *** The guest address *)

Lemma fillIP_cases (vm : VM.t) :
  VM.NetInterfaces (fillIP vm) = VM.NetInterfaces vm /\
  (VM.IP (fillIP vm) = VM.IP vm \/
   VM.IP vm = "" /\ VM.NetInterfaces vm <> [] /\
   VM.IP (fillIP vm) = GetFirstNonLoopbackIP (VM.NetInterfaces vm) true).
Proof.
  split; [now rewrite (fillIP_frame VM.NetInterfaces) by setter_frame|].
  unfold fillIP. destruct (String.eqb (VM.IP vm) "") eqn:Ei; [|now left].
  destruct (VM.NetInterfaces vm) as [|i l] eqn:En; [now left|].
  right. apply String.eqb_eq in Ei. cbn [andb length Nat.ltb Nat.leb].
  split; [exact Ei|]. split; [discriminate|].
  reflexivity.
Qed.

Lemma clearIP_cases (vm : VM.t) :
  VM.NetInterfaces (clearIPWithoutMACs vm) = VM.NetInterfaces vm /\
  (clearIPWithoutMACs vm = vm \/
   VM.IP (clearIPWithoutMACs vm) = "" /\ noConfiguredMACs (clearIPWithoutMACs vm) = true).
Proof.
  split; [now rewrite (clearIPWithoutMACs_frame VM.NetInterfaces) by setter_frame|].
  unfold clearIPWithoutMACs. destruct (noConfiguredMACs vm) eqn:En; [right|now left].
  split; [reflexivity|exact En].
Qed.

(** The address of a guest after one of the branches is the one it had, or
    has been cleared, or has been filled in from the interfaces. *)


Lemma enrichQemu_ip (c : Client) (vm : VM.t) : ipOutcome vm (enrichQemu c vm).
Proof.
  unfold ipOutcome.
  pose proof (qemuConfig_frame VM.IP c vm ltac:(setter_frame) ltac:(setter_frame)) as H1.
  destruct (enrichQemu_cases c vm) as [[Ha ->]|[[Ha ->]|(raw & Ha & _ & _ & H)]].
  - left. exact H1.
  - destruct (clearIP_cases (VM.set_NetInterfaces [] (VM.set_AgentRunning false (qemuConfig c vm))))
      as [Hn [->|[Hi Hm]]].
    + left. exact H1.
    + right; left. rewrite Hn. auto.
  - cbv zeta in H.
    set (vmn := VM.set_NetInterfaces _ _) in H.
    assert (VM.IP vmn = VM.IP vm) as Hvmn by exact H1.
    destruct (fillIP_cases vmn) as [Hn Hi].
    assert (forall vm', VM.IP vm' = VM.IP (fillIP vmn) ->
                        VM.NetInterfaces vm' = VM.NetInterfaces (fillIP vmn) ->
                        VM.IP vm' = VM.IP vm \/
                        (VM.IP vm' = "" /\ VM.NetInterfaces vm' = [] /\
                         noConfiguredMACs vm' = true) \/
                        (VM.IP vm = "" /\ VM.NetInterfaces vm' <> [] /\
                         VM.IP vm' =
                         GetFirstNonLoopbackIP (VM.NetInterfaces vm') true)) as Hgen.
    { intros vm' Ei En. rewrite Ei, En, Hn.
      destruct Hi as [Hi|(Hi0 & Hne & Hi)]; [left; congruence|].
      right; right. rewrite <- Hvmn. auto. }
    destruct H as [->|(fss & _ & _ & ->)]; apply Hgen; try reflexivity.
    + now rewrite (applyFilesystems_frame VM.IP) by setter_frame.
    + now rewrite (applyFilesystems_frame VM.NetInterfaces) by setter_frame.
Qed.

Lemma enrichLxc_ip (c : Client) (vm : VM.t) : ipOutcome vm (enrichLxc c vm).
Proof.
  unfold ipOutcome.
  pose proof (lxcConfig_frame VM.IP c vm ltac:(setter_frame)) as H1.
  destruct (enrichLxc_cases c vm) as [[_ ->]|[_ ->]].
  - destruct (clearIP_cases (VM.set_NetInterfaces [] (lxcConfig c vm)))
      as [Hn [->|[Hi Hm]]].
    + left. exact H1.
    + right; left. rewrite Hn. auto.
  - set (vmn := VM.set_NetInterfaces _ _).
    assert (VM.IP vmn = VM.IP vm) as Hvmn by exact H1.
    destruct (fillIP_cases vmn) as [Hn Hi]. rewrite Hn.
    destruct Hi as [Hi|(Hi0 & Hne & Hi)]; [left; congruence|].
    right; right. rewrite <- Hvmn. auto.
Qed.

(** The result of [GetVmStatus]: the guest as it was, or the guest after
    the metrics, one of the branches and the final mark. *)
Lemma GetVmStatus_fst (c : Client) (vm : VM.t) :
  (snd (GetVmStatus c vm) <> None /\ fst (GetVmStatus c vm) = vm) \/
  exists data,
    let vm1 := statusMetrics data (VM.Disk vm) (VM.MaxDisk vm) vm in
    snd (GetVmStatus c vm) = None /\
    fst (GetVmStatus c vm) =
    VM.set_Enriched true
      (if String.eqb (VM.Type_ vm) VMTypeQemu && isRunning vm then enrichQemu c vm1
       else if String.eqb (VM.Type_ vm) VMTypeLXC && isRunning vm then enrichLxc c vm1
       else vm1).
Proof.
  destruct (GetVmStatus c vm) as [vm' [err|]] eqn:E.
  - left. split; [discriminate|]. cbn [fst]. revert E. unfold GetVmStatus.
    destruct (GetWithCache c _) as [|res]; [now intros [= <- _]|].
    destruct (jlookup res "data") as [[| | | | |data]|];
      (now intros [= <- _]) || discriminate.
  - right. destruct (GetVmStatus_ok c vm vm' E) as (res & data & _ & _ & H).
    exists data. split; [reflexivity|exact H].
Qed.

Lemma keepFilesystem_size (fs : Filesystem.t) :
  keepFilesystem fs = true -> 50 * 1024 * 1024 <= Filesystem.TotalBytes fs.
Proof.
  unfold keepFilesystem. rewrite !andb_true_iff, !negb_true_iff.
  intros [[_ H] _]. now apply Z.ltb_ge in H.
Qed.

Lemma enrichQemu_filesystems (c : Client) (vm : VM.t) :
  VM.Filesystems (enrichQemu c vm) = VM.Filesystems vm \/
  (VM.AgentRunning (enrichQemu c vm) = true /\
   Forall (fun fs => keepFilesystem fs = true) (VM.Filesystems (enrichQemu c vm))).
Proof.
  pose proof (qemuConfig_frame VM.Filesystems c vm
                ltac:(setter_frame) ltac:(setter_frame)) as H1.
  destruct (enrichQemu_cases c vm) as [[Ha ->]|[[Ha ->]|(raw & Ha & _ & _ & H)]].
  - left. exact H1.
  - left. now rewrite (clearIPWithoutMACs_frame VM.Filesystems) by setter_frame.
  - cbv zeta in H. destruct H as [->|(fss & _ & _ & ->)].
    + left. now rewrite (fillIP_frame VM.Filesystems) by setter_frame.
    + right. rewrite (applyFilesystems_frame VM.AgentRunning) by setter_frame.
      rewrite (fillIP_frame VM.AgentRunning) by setter_frame.
      split; [reflexivity|]. rewrite applyFilesystems_Filesystems.
      apply Forall_forall. intros fs Hfs. rewrite list_elem_of_In in Hfs.
      now apply filter_In in Hfs.
Qed.

Lemma shownFor_ext (a b : VM.t) (iface : NetworkInterface.t) :
  VM.ConfiguredMACs a = VM.ConfiguredMACs b -> shownFor a iface -> shownFor b iface.
Proof.
  unfold shownFor, noConfiguredMACs, hasConfiguredMAC. now intros ->.
Qed.

Lemma selectBestIP_keeps (iface : NetworkInterface.t) :
  NetworkInterface.Name (selectBestIP iface) = NetworkInterface.Name iface /\
  NetworkInterface.MACAddress (selectBestIP iface) = NetworkInterface.MACAddress iface /\
  NetworkInterface.IsLoopback (selectBestIP iface) = NetworkInterface.IsLoopback iface.
Proof. rewrite selectBestIP_spec. repeat split. Qed.

Lemma qemuShows_shown (vm : VM.t) (iface : NetworkInterface.t) :
  qemuShows vm iface = true ->
  shownFor vm (selectBestIP iface) /\
  strings.HasPrefix (NetworkInterface.Name (selectBestIP iface)) "veth" = false.
Proof.
  destruct (selectBestIP_keeps iface) as (-> & Hm & Hl).
  unfold qemuShows, shownFor. rewrite Hm, Hl, !andb_true_iff, !negb_true_iff.
  intros [[Hlo Hv] Hmac]. split; [|exact Hv]. split; [exact Hlo|].
  intros Hno. unfold noConfiguredMACs, hasConfiguredMAC in *.
  destruct (VM.ConfiguredMACs vm); [exact Hmac|discriminate].
Qed.

Lemma lxcShows_shown (vm : VM.t) (iface : NetworkInterface.t) :
  lxcShows vm iface = true -> shownFor vm (selectBestIP iface).
Proof.
  destruct (selectBestIP_keeps iface) as (_ & Hm & Hl).
  unfold lxcShows, shownFor. rewrite Hm, Hl.
  destruct (noConfiguredMACs vm); cbn [negb].
  - rewrite negb_true_iff. intros H. split; [exact H|discriminate].
  - rewrite andb_true_iff, negb_true_iff. intros [H1 H2]. auto.
Qed.

Lemma enrichQemu_shown (c : Client) (vm : VM.t) :
  Forall (fun iface =>
            shownFor (enrichQemu c vm) iface /\
            strings.HasPrefix (NetworkInterface.Name iface) "veth" = false)
         (VM.NetInterfaces (enrichQemu c vm)).
Proof.
  destruct (enrichQemu_cases c vm) as [[Ha ->]|[[Ha ->]|(raw & Ha & _ & _ & H)]].
  - constructor.
  - rewrite (clearIPWithoutMACs_frame VM.NetInterfaces) by setter_frame. constructor.
  - cbv zeta in H. set (vmr := VM.set_AgentRunning true (qemuConfig c vm)) in H.
    assert (forall vm', VM.NetInterfaces vm' = filterInterfaces (qemuShows vmr) raw ->
                        VM.ConfiguredMACs vm' = VM.ConfiguredMACs vmr ->
                        Forall (fun iface =>
                                  shownFor vm' iface /\
                                  strings.HasPrefix (NetworkInterface.Name iface) "veth" = false)
                               (VM.NetInterfaces vm')) as Hgen.
    { intros vm' -> Hm. apply Forall_forall. intros iface' Hin.
      apply filterInterfaces_elem in Hin as (iface & _ & Hs & ->).
      apply qemuShows_shown in Hs as [Hs Hv]. split; [|exact Hv].
      now apply (shownFor_ext vmr). }
    destruct H as [->|(fss & _ & _ & ->)]; apply Hgen.
    + now rewrite (fillIP_frame VM.NetInterfaces) by setter_frame.
    + now rewrite (fillIP_frame VM.ConfiguredMACs) by setter_frame.
    + rewrite (applyFilesystems_frame VM.NetInterfaces) by setter_frame.
      now rewrite (fillIP_frame VM.NetInterfaces) by setter_frame.
    + rewrite (applyFilesystems_frame VM.ConfiguredMACs) by setter_frame.
      now rewrite (fillIP_frame VM.ConfiguredMACs) by setter_frame.
Qed.

Lemma enrichLxc_shown (c : Client) (vm : VM.t) :
  Forall (shownFor (enrichLxc c vm)) (VM.NetInterfaces (enrichLxc c vm)).
Proof.
  destruct (enrichLxc_cases c vm) as [[_ ->]|[_ ->]].
  - rewrite (clearIPWithoutMACs_frame VM.NetInterfaces) by setter_frame. constructor.
  - rewrite (fillIP_frame VM.NetInterfaces) by setter_frame.
    cbn [VM.NetInterfaces VM.set_NetInterfaces].
    apply Forall_forall. intros iface' Hin.
    apply filterInterfaces_elem in Hin as (iface & _ & Hs & ->).
    apply lxcShows_shown in Hs. apply (shownFor_ext (lxcConfig c vm)); [|exact Hs].
    now rewrite (fillIP_frame VM.ConfiguredMACs) by setter_frame.
Qed.

Lemma parseFilesystem_flags (fsMap : JMap) : flagsFromMountpoint (parseFilesystem fsMap).
Proof.
  unfold parseFilesystem, flagsFromMountpoint.
  destruct (jlookup fsMap "disk") as [[| | | |[|[| | | | |diskMap] ?]|]|];
    try destruct (asString (jlookup diskMap "dev"));
    destruct (asFloat (jlookup fsMap "used-bytes"));
    destruct (asFloat (jlookup fsMap "total-bytes"));
    destruct (asString (jlookup fsMap "type"));
    destruct (asString (jlookup fsMap "mountpoint"));
    destruct (asString (jlookup fsMap "name")); split; reflexivity.
Qed.

Lemma parseFilesystems_spec (items : list JSON) :
  Forall flagsFromMountpoint (parseFilesystems items) /\
  length (parseFilesystems items) = objectsIn items.
Proof.
  unfold objectsIn. induction items as [|item rest [IH1 IH2]]; [split; [constructor|reflexivity]|].
  destruct item; cbn [parseFilesystems List.filter length]; try (split; assumption).
  split; [constructor; [apply parseFilesystem_flags|exact IH1]|now rewrite IH2].
Qed.
End branches.


(** X7.  After a successful [GetVmStatus] for a running QEMU guest the two
    agent flags are consistent: the agent is reported as running only if the
    config enables it, and a guest whose agent is not running carries no
    interface and keeps the filesystems it had. *)
Theorem GetVmStatus_agent_state {X : Externals} (c : Client) (vm : VM.t) :
  snd (GetVmStatus c vm) = None ->
  VM.Type_ vm = VMTypeQemu -> isRunning vm = true ->
  let vm' := fst (GetVmStatus c vm) in
  (VM.AgentRunning vm' = true -> VM.AgentEnabled vm' = true) /\
  (VM.AgentRunning vm' = false ->
   VM.NetInterfaces vm' = [] /\ VM.Filesystems vm' = VM.Filesystems vm).
Proof.
  intros Hok Hty Hrun. cbv zeta.
  destruct (GetVmStatus_fst c vm) as [[Herr _]|(data & _ & ->)]; [contradiction|].
  cbv zeta. rewrite Hty, Hrun.
  change (String.eqb VMTypeQemu VMTypeQemu && true) with true. cbv iota.
  set (vm1 := statusMetrics _ _ _ _).
  destruct (enrichQemu_agent c vm1) as [H1 H2].
  split; [exact H1|]. intros H. destruct (H2 H) as [Hn Hf]. split; [exact Hn|].
  cbn [VM.Filesystems VM.set_Enriched]. rewrite Hf.
  subst vm1. unfold statusMetrics. frame VM.Filesystems.
Qed.

Lemma GetVmStatus_agent_state_witness :
  (VM.AgentRunning enrichedS3 = true -> VM.AgentEnabled enrichedS3 = true) /\
  (VM.AgentRunning enrichedS3 = false ->
   VM.NetInterfaces enrichedS3 = [] /\
   VM.Filesystems enrichedS3 = VM.Filesystems (Scenario.guest VMTypeQemu 100 10 20)).
Proof.
  apply (GetVmStatus_agent_state (X:=Scenario.env) Scenario.clientS3
           (Scenario.guest VMTypeQemu 100 10 20)); reflexivity.
Defined.

(** X8.  [GetVmStatus] and the worker of [EnrichVMs] never replace a known
    address of a guest by another one.  After the call the address is the
    one held before; or it has been cleared, and then the guest carries no
    interface and has no configured MAC; or the guest had no address and has
    been given the one that [GetFirstNonLoopbackIP] picks from the interfaces
    it now carries. *)
Theorem GetVmStatus_ip {X : Externals} (c : Client) (vm : VM.t) :
  ipOutcome vm (fst (GetVmStatus c vm)) /\ ipOutcome vm (fst (enrichWorker c vm)).
Proof.
  assert (ipOutcome vm (fst (GetVmStatus c vm))) as H.
  { destruct (GetVmStatus_fst c vm) as [[_ ->]|(data & _ & ->)]; [now left|].
    cbv zeta. set (vm1 := statusMetrics _ _ _ _).
    assert (VM.IP vm1 = VM.IP vm) as H1
      by (subst vm1; unfold statusMetrics; frame VM.IP).
    assert (forall vm', ipOutcome vm1 vm' -> ipOutcome vm (VM.set_Enriched true vm')) as Hlift.
    { unfold ipOutcome. rewrite H1. intros vm' H. exact H. }
    destruct (_ && _); [apply Hlift, enrichQemu_ip|].
    destruct (_ && _); [apply Hlift, enrichLxc_ip|].
    left. exact H1. }
  split; [exact H|].
  unfold ipOutcome, noConfiguredMACs in *.
  now rewrite (enrichWorker_frame VM.IP), (enrichWorker_frame VM.NetInterfaces),
    (enrichWorker_frame VM.ConfiguredMACs) by setter_frame.
Qed.

(** X9.  The filesystems of a guest after [GetVmStatus] are the ones it had
    before, or its guest agent is running and every filesystem listed has
    passed the filter for real disks; such a filesystem has at least 50 MiB.
    The worker of [EnrichVMs] does not touch the list. *)
Theorem GetVmStatus_filesystems {X : Externals} (c : Client) (vm : VM.t) :
  let vm' := fst (GetVmStatus c vm) in
  VM.Filesystems (fst (enrichWorker c vm)) = VM.Filesystems vm' /\
  (VM.Filesystems vm' = VM.Filesystems vm \/
   (VM.AgentRunning vm' = true /\
    Forall (fun fs => keepFilesystem fs = true /\
                      50 * 1024 * 1024 <= Filesystem.TotalBytes fs)
           (VM.Filesystems vm'))).
Proof.
  cbv zeta. split; [now rewrite (enrichWorker_frame VM.Filesystems) by setter_frame|].
  destruct (GetVmStatus_fst c vm) as [[_ ->]|(data & _ & ->)]; [now left|].
  cbv zeta. set (vm1 := statusMetrics _ _ _ _).
  assert (VM.Filesystems vm1 = VM.Filesystems vm) as H1
    by (subst vm1; unfold statusMetrics; frame VM.Filesystems).
  destruct (_ && _).
  - destruct (enrichQemu_filesystems c vm1) as [H|[Hr H]].
    + left. cbn [VM.Filesystems VM.set_Enriched]. congruence.
    + right. split; [exact Hr|]. cbn [VM.Filesystems VM.set_Enriched].
      eapply Forall_impl; [exact H|]. intros fs Hk. split; [exact Hk|].
      now apply keepFilesystem_size.
  - left. destruct (_ && _); [|exact H1].
    cbn [VM.Filesystems VM.set_Enriched].
    now rewrite (enrichLxc_frame VM.Filesystems) by setter_frame.
Qed.

(** X10.  Every interface that a running QEMU guest or container carries
    after a successful [GetVmStatus] has passed the filter: it is not a
    loopback; if the guest has configured MACs, the upper-cased MAC of the
    interface is one of them; and for a QEMU guest its name does not start
    with [veth]. *)
Theorem GetVmStatus_shown {X : Externals} (c : Client) (vm : VM.t) :
  snd (GetVmStatus c vm) = None ->
  takesBranch vm = true ->
  let vm' := fst (GetVmStatus c vm) in
  Forall (fun iface =>
            shownFor vm' iface /\
            (VM.Type_ vm = VMTypeQemu ->
             strings.HasPrefix (NetworkInterface.Name iface) "veth" = false))
         (VM.NetInterfaces vm').
Proof.
  intros Hok Hb. cbv zeta.
  destruct (GetVmStatus_fst c vm) as [[Herr _]|(data & _ & ->)]; [contradiction|].
  cbv zeta. set (vm1 := statusMetrics _ _ _ _).
  unfold takesBranch in Hb. apply andb_true_iff in Hb as [-> Hty].
  rewrite !andb_true_r.
  destruct (String.eqb (VM.Type_ vm) VMTypeQemu) eqn:Eq.
  - cbn [VM.NetInterfaces VM.set_Enriched].
    eapply Forall_impl; [apply enrichQemu_shown|].
    intros iface [Hs Hv]. split; [|now intros _].
    now apply (shownFor_ext (enrichQemu c vm1)).
  - cbn [orb] in Hty. rewrite Hty. cbn [VM.NetInterfaces VM.set_Enriched].
    eapply Forall_impl; [apply enrichLxc_shown|].
    intros iface Hs. split; [now apply (shownFor_ext (enrichLxc c vm1))|].
    intros Hq. rewrite Hq in Eq. discriminate.
Qed.

Lemma GetVmStatus_shown_witness :
  Forall (fun iface =>
            shownFor enrichedS3 iface /\
            (VMTypeQemu = VMTypeQemu ->
             strings.HasPrefix (NetworkInterface.Name iface) "veth" = false))
         (VM.NetInterfaces enrichedS3).
Proof.
  apply (GetVmStatus_shown (X:=Scenario.env) Scenario.clientS3
           (Scenario.guest VMTypeQemu 100 10 20)); reflexivity.
Defined.

(** X11.  [GetGuestAgentFilesystems] asks the guest agent only for a
    running QEMU guest whose agent is enabled: for any other guest it fails
    with a message that does not depend on the client.  When it succeeds,
    the answer held an array under [result], at the top level or inside
    [data]; the list has one filesystem per object of that array, and each
    one is flagged as root exactly when its mountpoint is [/] and as system
    drive exactly when its lower-cased mountpoint starts with [c:]. *)
Theorem GetGuestAgentFilesystems_result (c : Client) (vm : VM.t) :
  (String.eqb (VM.Type_ vm) VMTypeQemu && isRunning vm && VM.AgentEnabled vm = false ->
   exists msg, forall c', GetGuestAgentFilesystems c' vm = inl (ErrMsg msg)) /\
  (forall fss,
     GetGuestAgentFilesystems c vm = inr fss ->
     exists res items,
       GetWithCache c (EpAgentFsinfo (VM.Node vm) (VM.ID vm)) = inr res /\
       (jlookup res "result" = Some (JArray items) \/
        exists data, jlookup res "data" = Some (JObject data) /\
                     jlookup data "result" = Some (JArray items)) /\
       length fss = objectsIn items /\
       Forall flagsFromMountpoint fss).
Proof.
  unfold GetGuestAgentFilesystems, isRunning. split.
  - destruct (String.eqb (VM.Type_ vm) VMTypeQemu);
      destruct (String.eqb (VM.Status vm) VMStatusRunning);
      destruct (VM.AgentEnabled vm); cbn [andb orb negb]; try discriminate;
      intros _; eexists; intros c'; reflexivity.
  - intros fss.
    destruct (negb _ || negb _); [discriminate|].
    destruct (negb _); [discriminate|].
    destruct (GetWithCache c _) as [|res]; [discriminate|].
    destruct (jlookup res "result") as [[| | | |items|]|] eqn:Er;
      try (intros [= <-]; exists res, items; split; [reflexivity|];
           split; [now left|];
           destruct (parseFilesystems_spec items); now split).
    all: destruct (jlookup res "data") as [[| | | | |data]|] eqn:Ed; try discriminate.
    all: destruct (jlookup data "result") as [[| | | |items|]|] eqn:Edr; try discriminate.
    all: intros [= <-]; exists res, items; split; [reflexivity|].
    all: split; [right; exists data; auto|].
    all: destruct (parseFilesystems_spec items); now split.
Qed.

Lemma GetGuestAgentFilesystems_result_witness :
  exists msg, forall c',
    GetGuestAgentFilesystems c' guestAgentOff = inl (ErrMsg msg).
Proof.
  apply (proj1 (GetGuestAgentFilesystems_result Scenario.clientFs guestAgentOff)).
  reflexivity.
Defined.

(** ** The enrichment passes over a cluster *)

Section passes.
Context {X : Externals}.

Lemma sameHost_refl (node : Node.t) : sameHost node node.
Proof. now destruct node. Qed.

Lemma sameIdentity_refl (vm : VM.t) : sameIdentity vm vm.
Proof. repeat split. Qed.

Lemma enrichGuests_structure (c : Client) (vms : list VM.t) :
  Forall2 (enrichedGuest c) vms (value (enrichGuests c vms)).
Proof.
  induction vms as [|vm rest IH]; cbn [enrichGuests]; [constructor|].
  destruct (isRunning vm) eqn:Er.
  - pose proof (enrichWorker_sameIdentity c vm) as Hid.
    destruct (enrichWorker c vm) as [vm' err] eqn:Ew. cbn [value fst] in *.
    constructor; [|exact IH]. split; [exact Hid|]. split; [congruence|].
    intros _. now rewrite Ew.
  - cbn [value]. constructor; [|exact IH].
    split; [apply sameIdentity_refl|]. split; [reflexivity|congruence].
Qed.

Lemma enrichNodes_structure (c : Client) (nodes : list Node.t) :
  Forall2 (enrichedNode c) nodes (value (enrichNodes c nodes)).
Proof.
  induction nodes as [|node rest IH]; cbn [enrichNodes]; [constructor|].
  destruct (Node.Online node) eqn:Eo; cbn [value]; (constructor; [|exact IH]).
  - split; [reflexivity|]. split; [congruence|]. intros _. apply enrichGuests_structure.
  - split; [apply sameHost_refl|]. split; [reflexivity|congruence].
Qed.

Lemma totalVMs_zero (nodes : list Node.t) :
  totalVMs nodes = O ->
  Forall (fun node => Node.Online node = true -> Node.VMs node = []) nodes.
Proof.
  rewrite totalVMs_guestsOf. unfold guestsOf.
  induction nodes as [|node rest IH]; [constructor|].
  cbn [List.filter]. destruct (Node.Online node) eqn:Eo.
  - cbn [flat_map]. rewrite length_app. intros H.
    constructor; [intros _; destruct (Node.VMs node); [reflexivity|discriminate]|].
    apply IH. lia.
  - intros H. constructor; [congruence|now apply IH].
Qed.

Lemma EnrichVMs_structure (c : Client) (cluster : Cluster.t) :
  Forall2 (enrichedNode c) (Cluster.Nodes cluster)
          (Cluster.Nodes (fst (fst (EnrichVMs c cluster)))).
Proof.
  unfold EnrichVMs. destruct (_ =? _)%nat eqn:E; cbn [fst Cluster.Nodes Cluster.set_Nodes].
  - apply Nat.eqb_eq, totalVMs_zero in E.
    induction E as [|node rest Hn _ IH]; constructor; [|exact IH].
    split; [apply sameHost_refl|]. split; [reflexivity|].
    intros Ho. rewrite (Hn Ho). constructor.
  - apply enrichNodes_structure.
Qed.

Lemma enrichGuests_errors (c : Client) (vms : list VM.t) :
  errors (enrichGuests c vms) =
  flat_map (fun vm => errorList (snd (GetVmStatus c vm))) (List.filter isRunning vms).
Proof.
  induction vms as [|vm rest IH]; cbn [enrichGuests List.filter]; [reflexivity|].
  destruct (isRunning vm); [|exact IH].
  pose proof (enrichWorker_snd c vm) as Hs.
  destruct (enrichWorker c vm) as [vm' err]. cbn [errors flat_map snd] in *.
  now rewrite IH, Hs.
Qed.

Lemma enrichNodes_errors (c : Client) (nodes : list Node.t) :
  errors (enrichNodes c nodes) =
  flat_map (fun vm => errorList (snd (GetVmStatus c vm)))
           (List.filter isRunning (guestsOf nodes)).
Proof.
  unfold guestsOf.
  induction nodes as [|node rest IH]; cbn [enrichNodes List.filter]; [reflexivity|].
  destruct (Node.Online node); cbn [errors flat_map]; [|exact IH].
  now rewrite List.filter_app, flat_map_app, enrichGuests_errors, IH.
Qed.

Lemma no_errors (c : Client) (vms : list VM.t) :
  flat_map (fun vm => errorList (snd (GetVmStatus c vm))) vms = [] <->
  Forall (fun vm => snd (GetVmStatus c vm) = None) vms.
Proof.
  induction vms as [|vm rest IH]; cbn [flat_map]; [split; [constructor|reflexivity]|].
  destruct (snd (GetVmStatus c vm)) as [err|] eqn:E; cbn [errorList app].
  - split; [discriminate|]. intros H. apply Forall_cons in H as [H _]. congruence.
  - rewrite IH. split; [now constructor|]. intros H. now apply Forall_cons in H as [_ H].
Qed.
End passes.

(** X12.  [EnrichVMs] changes nothing but guests: every node is after the
    pass the node it was with another list of guests; an offline node is
    left exactly as it was; and the guests of an online node are the same
    guests in the same order, a guest that is not running untouched and a
    running one as the worker leaves it, with its identity intact. *)
Theorem EnrichVMs_guests {X : Externals} (c : Client) (cluster : Cluster.t) :
  let cluster' := fst (fst (EnrichVMs c cluster)) in
  cluster' = Cluster.set_Nodes (Cluster.Nodes cluster') cluster /\
  Forall2 (enrichedNode c) (Cluster.Nodes cluster) (Cluster.Nodes cluster').
Proof.
  cbv zeta. split; [|apply EnrichVMs_structure].
  unfold EnrichVMs. destruct (_ =? _)%nat; cbn [fst]; [now destruct cluster|reflexivity].
Qed.

(** X13.  [EnrichVMs] returns an error exactly when [GetVmStatus] fails for
    some running guest of an online node.  Stopped guests and the guests of
    offline nodes are never asked and never cause one. *)
Theorem EnrichVMs_error {X : Externals} (c : Client) (cluster : Cluster.t) :
  snd (fst (EnrichVMs c cluster)) = None <->
  Forall (fun vm => snd (GetVmStatus c vm) = None)
         (List.filter isRunning (guestsOf (Cluster.Nodes cluster))).
Proof.
  rewrite <- no_errors, <- enrichNodes_errors.
  unfold EnrichVMs. destruct (_ =? _)%nat eqn:E; cbn [fst snd].
  - split; [|reflexivity]. intros _.
    rewrite enrichNodes_errors. apply Nat.eqb_eq in E. rewrite totalVMs_guestsOf in E.
    now destruct (guestsOf (Cluster.Nodes cluster)).
  - destruct (errors _); split; (reflexivity || discriminate).
Qed.

(** ** The two builds *)

Section builds.
Context {X : Externals}.

Lemma totals_sameHost (nodes nodes' : list Node.t) :
  Forall2 sameHost nodes nodes' ->
  (forall acc, fold_left totalsStep nodes' acc = fold_left totalsStep nodes acc) /\
  firstVersion nodes' = firstVersion nodes.
Proof.
  induction 1 as [|node node' rest rest' Hh _ [IH1 IH2]]; [now split|].
  unfold sameHost in Hh. split.
  - intros acc. cbn [fold_left]. rewrite IH1. f_equal. now rewrite Hh.
  - cbn [firstVersion]. rewrite IH2. now rewrite Hh.
Qed.

Lemma calculateClusterTotals_sameHost (cluster : Cluster.t) (nodes' : list Node.t) :
  Forall2 sameHost (Cluster.Nodes cluster) nodes' ->
  calculateClusterTotals (Cluster.set_Nodes nodes' cluster) =
  Cluster.set_Nodes nodes' (calculateClusterTotals cluster).
Proof.
  intros H. destruct (totals_sameHost _ _ H) as [Hf Hv].
  unfold calculateClusterTotals.
  cbn [Cluster.Nodes Cluster.set_Nodes Cluster.CPUUsage Cluster.Version Cluster.Name
       Cluster.Quorate Cluster.TotalNodes Cluster.StorageManager Cluster.lastUpdate].
  now rewrite Hf, Hv.
Qed.

Lemma enrichedNode_sameHost (c : Client) (nodes nodes' : list Node.t) :
  Forall2 (enrichedNode c) nodes nodes' -> Forall2 sameHost nodes nodes'.
Proof. intros H. eapply Forall2_impl; [exact H|]. now intros n n' [Hh _]. Qed.

(** Computing the totals commutes with the first enrichment pass. *)
Lemma EnrichVMs_totals (c : Client) (cluster : Cluster.t) :
  calculateClusterTotals (fst (fst (EnrichVMs c cluster))) =
  fst (fst (EnrichVMs c (calculateClusterTotals cluster))).
Proof.
  unfold EnrichVMs. rewrite calculateClusterTotals_Nodes.
  destruct (_ =? _)%nat; cbn [fst]; [reflexivity|].
  apply calculateClusterTotals_sameHost.
  apply (enrichedNode_sameHost c), enrichNodes_structure.
Qed.

Lemma FastGetClusterStatus_phases (c late : Client) (cb : option Callback)
      (cluster : Cluster.t) :
  fst (FastGetClusterStatus c late cb) = inr cluster ->
  exists cl1 cl2 cl3,
    getClusterBasicStatus c (newCluster c) = inr cl1 /\
    enrichNodeStatuses c cl1 = (cl2, None) /\
    processClusterResources c cl2 = inr cl3 /\
    cluster = calculateClusterTotals cl3.
Proof.
  unfold FastGetClusterStatus.
  destruct (getClusterBasicStatus c (newCluster c)) as [|cl1] eqn:E1; [discriminate|].
  destruct (enrichNodeStatuses c cl1) as [cl2 [err|]] eqn:E2; [discriminate|].
  destruct (processClusterResources c cl2) as [|cl3] eqn:E3; [discriminate|].
  cbn [fst]. intros [= <-]. exists cl1, cl2, cl3. auto 10.
Qed.

Lemma GetClusterStatus_phases (c : Client) (cluster : Cluster.t) :
  GetClusterStatus c = inr cluster ->
  exists cl1 cl2 cl3,
    getClusterBasicStatus c (newCluster c) = inr cl1 /\
    enrichNodeStatuses c cl1 = (cl2, None) /\
    processClusterResources c cl2 = inr cl3 /\
    cluster = calculateClusterTotals (fst (fst (EnrichVMs c cl3))).
Proof.
  unfold GetClusterStatus.
  destruct (getClusterBasicStatus c (newCluster c)) as [|cl1] eqn:E1; [discriminate|].
  destruct (enrichNodeStatuses c cl1) as [cl2 [err|]] eqn:E2; [discriminate|].
  destruct (processClusterResources c cl2) as [|cl3] eqn:E3; [discriminate|].
  destruct (EnrichVMs c cl3) as [[cl4 err] evs] eqn:E4. cbn [fst]. intros [= <-].
  exists cl1, cl2, cl3. rewrite E4. auto 10.
Qed.

(** Every cluster that a build returns is the totals of a cluster that went
    through the three phases, possibly after the first enrichment pass. *)
Lemma built_phases (c : Client) (cluster : Cluster.t) :
  builtBy c cluster ->
  exists cl1 cl2 cl3 cl4,
    getClusterBasicStatus c (newCluster c) = inr cl1 /\
    enrichNodeStatuses c cl1 = (cl2, None) /\
    processClusterResources c cl2 = inr cl3 /\
    (cl4 = cl3 \/ cl4 = fst (fst (EnrichVMs c cl3))) /\
    cluster = calculateClusterTotals cl4.
Proof.
  intros [H|(late & cb & H)].
  - apply GetClusterStatus_phases in H as (cl1 & cl2 & cl3 & H1 & H2 & H3 & ->).
    exists cl1, cl2, cl3, (fst (fst (EnrichVMs c cl3))). auto 10.
  - apply FastGetClusterStatus_phases in H as (cl1 & cl2 & cl3 & H1 & H2 & H3 & ->).
    exists cl1, cl2, cl3, cl3. auto 10.
Qed.
End builds.

(** X14.  The two builds agree.  [GetClusterStatus] fails exactly when
    [FastGetClusterStatus] does, with the same error; and when they succeed,
    the cluster that [GetClusterStatus] returns is the cluster that
    [FastGetClusterStatus] returns after the first pass of its background
    enrichment: enriching the guests before or after the totals are computed
    makes no difference. *)
Theorem builds_agree {X : Externals} (c late : Client) (cb : option Callback) :
  match fst (FastGetClusterStatus c late cb) with
  | inl err => GetClusterStatus c = inl err
  | inr fast => GetClusterStatus c = inr (fst (fst (EnrichVMs c fast)))
  end.
Proof.
  unfold FastGetClusterStatus, GetClusterStatus.
  destruct (getClusterBasicStatus c (newCluster c)) as [|cl1]; [reflexivity|].
  destruct (enrichNodeStatuses c cl1) as [cl2 [err|]]; [reflexivity|].
  destruct (processClusterResources c cl2) as [|cl3]; [reflexivity|].
  cbn [fst]. rewrite <- EnrichVMs_totals.
  now destruct (EnrichVMs c cl3) as [[cl4 err] evs].
Qed.


(** ** The phases of a build *)

Section phases.
Context {X : Externals}.

Lemma basicStatusItem_nodes (cluster : Cluster.t) (item : JSON) :
  Cluster.Nodes (basicStatusItem cluster item) =
  Cluster.Nodes cluster ++ match nodeStub item with Some node => [node] | None => [] end.
Proof.
  unfold basicStatusItem, nodeStub. destruct item as [| | | | |itemMap];
    try (now rewrite app_nil_r).
  destruct (String.eqb (getString itemMap "type") "cluster") eqn:Ec.
  - apply String.eqb_eq in Ec. rewrite Ec. cbn. now rewrite app_nil_r.
  - destruct (String.eqb (getString itemMap "type") "node"); [reflexivity|].
    now rewrite app_nil_r.
Qed.

Lemma fold_basicStatusItem_nodes (items : list JSON) (cluster : Cluster.t) :
  Cluster.Nodes (fold_left basicStatusItem items cluster) =
  Cluster.Nodes cluster ++ omap nodeStub items.
Proof.
  revert cluster. induction items as [|item rest IH]; intros cluster; cbn [fold_left].
  - cbn. now rewrite app_nil_r.
  - rewrite IH, basicStatusItem_nodes, <- app_assoc. f_equal.
    cbn [omap list_omap]. now destruct (nodeStub item).
Qed.

Lemma nodeStub_fresh (item : JSON) (node : Node.t) :
  nodeStub item = Some node ->
  Node.ID node = Node.Name node /\ Node.VMs node = [] /\ Node.Storage node = None.
Proof.
  unfold nodeStub. destruct item as [| | | | |itemMap]; try discriminate.
  destruct (String.eqb _ "node"); [|discriminate]. now intros [= <-].
Qed.

Lemma updateNodeMetrics_refreshed (c : Client) (node : Node.t) :
  refreshedNode c node (fst (updateNodeMetrics c node)).
Proof.
  unfold refreshedNode, updateNodeMetrics, statusSucceeds.
  destruct (Node.Online node) eqn:Eo; cbn [negb].
  - destruct (GetNodeStatus c (Node.Name node)) as [err|full] eqn:Es; cbn [fst].
    + repeat split; try discriminate. intros (_ & full & [=]).
    + destruct (PrimFloat.eqb (Node.MemoryTotal _) 0);
        destruct (PrimFloat.eqb (Node.MemoryUsed _) 0);
        repeat split; try discriminate; try exact Eo; eauto.
  - cbn [fst]. repeat split; try congruence. now intros [[=] _].
Qed.

Lemma enrichNodeStatuses_refreshed (c : Client) (cluster : Cluster.t) :
  Forall2 (refreshedNode c) (Cluster.Nodes cluster)
          (Cluster.Nodes (fst (enrichNodeStatuses c cluster))).
Proof.
  rewrite enrichNodeStatuses_nodes.
  induction (Cluster.Nodes cluster) as [|node rest IH]; cbn [map]; constructor;
    [apply updateNodeMetrics_refreshed|exact IH].
Qed.
End phases.

(** X15.  [getClusterBasicStatus] fails exactly when the request fails or
    the answer has no [data] array.  Otherwise it appends to the node list
    one node per record of type [node], in the order of the answer and
    without merging records of the same name; each new node has its name as
    ID, no guests and no storage. *)
Theorem getClusterBasicStatus_nodes {X : Externals} (c : Client) (cluster : Cluster.t) :
  match getClusterBasicStatus c cluster with
  | inr cluster' =>
      exists resp items,
        GetWithCache c EpClusterStatus = inr resp /\
        jlookup resp "data" = Some (JArray items) /\
        Cluster.Nodes cluster' = Cluster.Nodes cluster ++ omap nodeStub items /\
        Forall (fun node => Node.ID node = Node.Name node /\ Node.VMs node = [] /\
                            Node.Storage node = None)
               (omap nodeStub items)
  | inl _ =>
      forall resp items,
        GetWithCache c EpClusterStatus = inr resp ->
        jlookup resp "data" <> Some (JArray items)
  end.
Proof.
  unfold getClusterBasicStatus.
  destruct (GetWithCache c EpClusterStatus) as [err|resp]; [discriminate|].
  destruct (jlookup resp "data") as [[| | | |items|]|] eqn:Ed;
    try (intros resp' items' [= <-]; congruence).
  exists resp, items. split; [reflexivity|]. split; [exact Ed|].
  split; [apply fold_basicStatusItem_nodes|].
  apply Forall_forall. intros node Hin.
  apply list_elem_of_omap in Hin as (item & _ & Hitem).
  now apply (nodeStub_fresh item).
Qed.

(** X16.  Node enrichment changes the node list only node by node: the
    cluster is the same cluster with the same number of nodes in the same
    order; every node keeps its ID, name, IP, guests and storage; a node that
    [/cluster/status] reported offline is left exactly as it was; a node is
    online afterwards exactly when it was online and its status request
    succeeded, so the phase never turns an offline node online; and a node
    that is online afterwards carries the time of this update. *)
Theorem enrichNodeStatuses_per_node (c : Client) (cluster : Cluster.t) :
  let cluster' := fst (enrichNodeStatuses c cluster) in
  cluster' = Cluster.set_Nodes (Cluster.Nodes cluster') cluster /\
  Forall2 (refreshedNode c) (Cluster.Nodes cluster) (Cluster.Nodes cluster').
Proof.
  cbv zeta. split; [|apply enrichNodeStatuses_refreshed].
  unfold enrichNodeStatuses. now destruct (_ && _).
Qed.


(** ** The guests that [processClusterResources] creates *)

Section guests_of_resources.
Context {X : Externals}.

Lemma nodeMap_Some (nodes : list Node.t) (name : string) (i : nat) :
  nodeMap nodes name = Some i ->
  exists node, nodes !! i = Some node /\ Node.Name node = name.
Proof.
  revert i. induction nodes as [|node rest IH]; intros i; cbn [nodeMap]; [discriminate|].
  destruct (nodeMap rest name) as [j|].
  - intros [= <-]. destruct (IH j eq_refl) as (n & Hn & Hname). exists n. auto.
  - destruct (String.eqb (Node.Name node) name) eqn:E; [|discriminate].
    intros [= <-]. exists node. split; [reflexivity|now apply String.eqb_eq].
Qed.

Lemma guestReport_spec (nodeName : string) (item : JSON) (vm : VM.t) :
  guestReport nodeName item = Some vm ->
  VM.Node vm = nodeName /\ (VM.Type_ vm = VMTypeQemu \/ VM.Type_ vm = VMTypeLXC) /\
  VM.Enriched vm = false /\ VM.ConfiguredMACs vm = None /\ VM.NetInterfaces vm = [].
Proof.
  unfold guestReport. destruct item as [| | | | |resource]; try discriminate.
  destruct (String.eqb (getString resource "type") VMTypeQemu) eqn:Eq;
    [|destruct (String.eqb (getString resource "type") VMTypeLXC) eqn:El];
    cbn [orb andb]; try discriminate;
    (destruct (String.eqb (getString resource "node") nodeName); [|discriminate]);
    intros [= <-]; cbn; apply String.eqb_eq in Eq || apply String.eqb_eq in El; auto 10.
Qed.

Lemma nodeResource_keeps (resource : JMap) (node : Node.t) :
  Node.Name (nodeResource resource node) = Node.Name node /\
  Node.VMs (nodeResource resource node) = Node.VMs node.
Proof.
  unfold nodeResource.
  destruct (PrimFloat.leb 0 (getFloat resource "cpu"));
    destruct (PrimFloat.ltb 0 (getFloat resource "mem"));
    destruct (PrimFloat.ltb 0 (getFloat resource "maxmem")); split; reflexivity.
Qed.

(** One record, seen from the node at index [i]. *)
Lemma processResource_lookup (cluster : Cluster.t) (item : JSON) (i : nat) (node : Node.t) :
  Cluster.Nodes cluster !! i = Some node ->
  exists node',
    Cluster.Nodes (processResource cluster item) !! i = Some node' /\
    Node.Name node' = Node.Name node /\
    Node.VMs node' =
    Node.VMs node ++ guestReports (Cluster.Nodes cluster) i (Node.Name node) [item].
Proof.
  intros Hi.
  assert (exists node', Cluster.Nodes cluster !! i = Some node' /\
                        Node.Name node' = Node.Name node /\
                        Node.VMs node' = Node.VMs node ++ []) as Hsame.
  { exists node. rewrite app_nil_r. auto. }
  assert (forall f : Node.t -> Node.t, forall j,
             (forall x, Node.Name (f x) = Node.Name x) ->
             (forall x, Node.VMs (f x) = Node.VMs x) ->
             exists node', alter f j (Cluster.Nodes cluster) !! i = Some node' /\
                           Node.Name node' = Node.Name node /\
                           Node.VMs node' = Node.VMs node ++ []) as Halter.
  { intros f j Hn Hv. rewrite app_nil_r. destruct (decide (j = i)) as [->|Hne].
    - exists (f node). rewrite list_lookup_alter_eq, Hi. auto.
    - exists node. rewrite list_lookup_alter_ne by exact Hne. auto. }
  unfold guestReports, processResource, guestReport.
  destruct item as [| | | | |resource];
    try (destruct (bool_decide _); exact Hsame).
  cbn [omap list_omap].
  set (resType := getString resource "type").
  set (nodeName := getString resource "node").
  destruct (String.eqb resType "node") eqn:En.
  { apply String.eqb_eq in En. rewrite En. cbn [String.eqb Ascii.eqb Bool.eqb orb andb].
    change (String.eqb "node" VMTypeQemu || String.eqb "node" VMTypeLXC) with false.
    cbn [andb]. replace (if bool_decide _ then [] else []) with (@nil VM.t)
      by now destruct (bool_decide _).
    destruct (nodeMap _ nodeName); [|exact Hsame].
    apply Halter; intros x; apply nodeResource_keeps. }
  destruct (String.eqb resType "storage") eqn:Es.
  { apply String.eqb_eq in Es. rewrite Es.
    change (String.eqb "storage" VMTypeQemu || String.eqb "storage" VMTypeLXC) with false.
    cbn [andb]. replace (if bool_decide _ then [] else []) with (@nil VM.t)
      by now destruct (bool_decide _).
    destruct (nodeMap _ nodeName); [|exact Hsame].
    apply Halter; intros x; reflexivity. }
  destruct (String.eqb resType VMTypeQemu || String.eqb resType VMTypeLXC) eqn:Eg;
    cbn [andb].
  2:{ replace (if bool_decide _ then [] else []) with (@nil VM.t)
        by now destruct (bool_decide _).
      exact Hsame. }
  destruct (nodeMap (Cluster.Nodes cluster) nodeName) as [j|] eqn:Ej.
  - cbn [Cluster.Nodes Cluster.set_Nodes].
    destruct (nodeMap_Some _ _ _ Ej) as (nj & Hj & Hname).
    destruct (decide (j = i)) as [->|Hne].
    + assert (nj = node) as -> by congruence.
      rewrite Hname, String.eqb_refl, Ej, bool_decide_eq_true_2 by reflexivity.
      eexists. rewrite list_lookup_alter_eq, Hi. cbn [fmap option_fmap option_map].
      split; [reflexivity|]. split; [exact Hname|reflexivity].
    + exists node. rewrite list_lookup_alter_ne by exact Hne.
      split; [exact Hi|]. split; [reflexivity|].
      destruct (String.eqb nodeName (Node.Name node)) eqn:Enn.
      * apply String.eqb_eq in Enn. rewrite <- Enn, Ej.
        rewrite bool_decide_eq_false_2 by congruence. now rewrite app_nil_r.
      * destruct (bool_decide _); cbn [andb]; now rewrite app_nil_r.
  - destruct (String.eqb nodeName (Node.Name node)) eqn:Enn.
    + apply String.eqb_eq in Enn. rewrite <- Enn, Ej.
      rewrite bool_decide_eq_false_2 by congruence. rewrite Enn. exact Hsame.
    + replace (if bool_decide _ then [] else []) with (@nil VM.t)
        by now destruct (bool_decide _).
      exact Hsame.
Qed.

Lemma guestReports_cons (nodes : list Node.t) (i : nat) (nodeName : string)
      (item : JSON) (items : list JSON) :
  guestReports nodes i nodeName (item :: items) =
  guestReports nodes i nodeName [item] ++ guestReports nodes i nodeName items.
Proof.
  unfold guestReports. destruct (bool_decide _); [|reflexivity].
  cbn [omap list_omap]. now destruct (guestReport nodeName item).
Qed.

Lemma fold_processResource_lookup (items : list JSON) (cluster : Cluster.t)
      (i : nat) (node : Node.t) :
  Cluster.Nodes cluster !! i = Some node ->
  exists node',
    Cluster.Nodes (fold_left processResource items cluster) !! i = Some node' /\
    Node.Name node' = Node.Name node /\
    Node.VMs node' =
    Node.VMs node ++ guestReports (Cluster.Nodes cluster) i (Node.Name node) items.
Proof.
  revert cluster node. induction items as [|item rest IH]; intros cluster node Hi.
  - exists node. unfold guestReports. cbn [fold_left omap list_omap].
    destruct (bool_decide _); rewrite app_nil_r; auto.
  - cbn [fold_left].
    destruct (processResource_lookup cluster item i node Hi) as (node1 & H1 & Hn1 & Hv1).
    destruct (IH _ node1 H1) as (node' & H' & Hn' & Hv').
    exists node'. split; [exact H'|]. split; [congruence|].
    rewrite Hv', Hv1, Hn1, <- app_assoc, (guestReports_cons _ _ _ item rest). do 2 f_equal.
    unfold guestReports.
    now rewrite (nodeMap_names _ (Cluster.Nodes cluster)) by apply processResource_names.
Qed.

Lemma fold_processResource_length (items : list JSON) (cluster : Cluster.t) :
  length (Cluster.Nodes (fold_left processResource items cluster)) =
  length (Cluster.Nodes cluster).
Proof.
  destruct (fold_processResource items cluster) as [H _]. cbv zeta in H.
  rewrite <- (length_map Node.Name), H. apply length_map.
Qed.

Lemma guestReports_spec (nodes : list Node.t) (i : nat) (nodeName : string)
      (items : list JSON) :
  Forall (fun vm => VM.Node vm = nodeName /\
                    (VM.Type_ vm = VMTypeQemu \/ VM.Type_ vm = VMTypeLXC))
         (guestReports nodes i nodeName items).
Proof.
  unfold guestReports. destruct (bool_decide _); [|constructor].
  apply Forall_forall. intros vm Hin.
  apply list_elem_of_omap in Hin as (item & _ & Hitem).
  apply guestReport_spec in Hitem. tauto.
Qed.

Lemma guestsConsistent_lookup (nodes : list Node.t) :
  guestsConsistent nodes <->
  forall i node, nodes !! i = Some node ->
    Forall (fun vm => VM.Node vm = Node.Name node /\
                      (VM.Type_ vm = VMTypeQemu \/ VM.Type_ vm = VMTypeLXC))
           (Node.VMs node).
Proof. unfold guestsConsistent. apply Forall_lookup. Qed.

(** The pass over the resources keeps the guests consistent. *)
Lemma fold_processResource_consistent (items : list JSON) (cluster : Cluster.t) :
  guestsConsistent (Cluster.Nodes cluster) ->
  guestsConsistent (Cluster.Nodes (fold_left processResource items cluster)).
Proof.
  rewrite !guestsConsistent_lookup. intros H i node' Hi'.
  assert (i < length (Cluster.Nodes cluster))%nat as Hlt.
  { rewrite <- (fold_processResource_length items). now apply lookup_lt_Some in Hi'. }
  apply lookup_lt_is_Some_2 in Hlt as [node Hi].
  destruct (fold_processResource_lookup items cluster i node Hi) as (n' & Hn' & Hname & Hv).
  assert (n' = node') as -> by congruence.
  rewrite Hv, Hname. apply Forall_app. split; [now apply (H i)|apply guestReports_spec].
Qed.

Lemma enrichedNode_consistent (c : Client) (nodes nodes' : list Node.t) :
  Forall2 (enrichedNode c) nodes nodes' ->
  guestsConsistent nodes -> guestsConsistent nodes'.
Proof.
  unfold guestsConsistent.
  induction 1 as [|node node' rest rest' (Hh & Hoff & Hon) _ IH]; [constructor|].
  intros Hc. apply Forall_cons in Hc as [Hnode Hrest].
  constructor; [|now apply IH].
  destruct (Node.Online node) eqn:Eo; [|now rewrite (Hoff eq_refl)].
  assert (Node.Name node' = Node.Name node) as -> by now rewrite Hh.
  specialize (Hon eq_refl). revert Hnode.
  induction Hon as [|vm vm' vms vms' (Hid & _) _ IHg]; [constructor|].
  intros Hg. apply Forall_cons in Hg as [[Hn Ht] Hg].
  constructor; [|now apply IHg].
  destruct Hid as (_ & _ & Hnode & Htype & _). now rewrite Hnode, Htype.
Qed.

End guests_of_resources.

(** X17.  [processClusterResources] keeps the nodes in place and gives
    each node the guests that the answer reports for it: the node at an index
    keeps its name and gets, appended to the guests it had and in the order
    of the answer, one guest per record of type [qemu] or [lxc] that names
    it.  When two nodes have the same name the later one gets the guests; a
    record that names no node of the cluster adds no guest. *)
Theorem processClusterResources_guests {X : Externals}
        (c : Client) (cluster cluster' : Cluster.t) :
  processClusterResources c cluster = inr cluster' ->
  exists resp items,
    GetWithCache c EpClusterResources = inr resp /\
    jlookup resp "data" = Some (JArray items) /\
    length (Cluster.Nodes cluster') = length (Cluster.Nodes cluster) /\
    forall i node,
      Cluster.Nodes cluster !! i = Some node ->
      exists node',
        Cluster.Nodes cluster' !! i = Some node' /\
        Node.Name node' = Node.Name node /\
        Node.VMs node' =
        Node.VMs node ++ guestReports (Cluster.Nodes cluster) i (Node.Name node) items.
Proof.
  unfold processClusterResources.
  destruct (GetWithCache c EpClusterResources) as [|resp]; [discriminate|].
  destruct (jlookup resp "data") as [[| | | |items|]|] eqn:Ed; try discriminate.
  intros [= <-]. exists resp, items. split; [reflexivity|]. split; [exact Ed|].
  split; [apply fold_processResource_length|].
  intros i node. apply fold_processResource_lookup.
Qed.

Lemma processClusterResources_guests_witness :
  exists resp items,
    GetWithCache agentReady EpClusterResources = inr resp /\
    jlookup resp "data" = Some (JArray items) /\
    length (Cluster.Nodes guestsS6) = length (Cluster.Nodes nodesS1) /\
    forall i node,
      Cluster.Nodes nodesS1 !! i = Some node ->
      exists node',
        Cluster.Nodes guestsS6 !! i = Some node' /\
        Node.Name node' = Node.Name node /\
        Node.VMs node' =
        Node.VMs node ++
        guestReports (X:=Scenario.env) (Cluster.Nodes nodesS1) i (Node.Name node) items.
Proof.
  apply (processClusterResources_guests (X:=Scenario.env) agentReady nodesS1 guestsS6).
  vm_compute. reflexivity.
Defined.

(** X18.  In every cluster that [GetClusterStatus] or
    [FastGetClusterStatus] returns, each guest points back to the node that
    holds it, and is a QEMU guest or a container: the [Node] field of a
    guest is the name of the node in whose list it stands. *)
Theorem built_guests_consistent {X : Externals} (c : Client) (cluster : Cluster.t) :
  builtBy c cluster -> guestsConsistent (Cluster.Nodes cluster).
Proof.
  intros Hb.
  destruct (built_phases c cluster Hb)
    as (cl1 & cl2 & cl3 & cl4 & H1 & H2 & H3 & H4 & ->).
  rewrite calculateClusterTotals_Nodes.
  assert (guestsConsistent (Cluster.Nodes cl2)) as Hc2.
  { pose proof (enrichNodeStatuses_refreshed c cl1) as Hr. rewrite H2 in Hr. cbn [fst] in Hr.
    assert (Forall (fun node => Node.VMs node = []) (Cluster.Nodes cl1)) as Hempty.
    { unfold getClusterBasicStatus in H1.
      destruct (GetWithCache c EpClusterStatus) as [|resp]; [discriminate|].
      destruct (jlookup resp "data") as [[| | | |items|]|]; try discriminate.
      injection H1 as <-. rewrite fold_basicStatusItem_nodes. cbn [newCluster Cluster.Nodes app].
      apply Forall_forall. intros node Hin.
      apply list_elem_of_omap in Hin as (item & _ & Hitem).
      now apply nodeStub_fresh in Hitem. }
    unfold guestsConsistent. revert Hempty.
    induction Hr as [|node node' rest rest' Hn _ IH]; [constructor|].
    intros He. apply Forall_cons in He as [He1 He2].
    constructor; [|now apply IH].
    destruct Hn as (_ & _ & _ & -> & _). rewrite He1. constructor. }
  assert (guestsConsistent (Cluster.Nodes cl3)) as Hc3.
  { unfold processClusterResources in H3.
    destruct (GetWithCache c EpClusterResources) as [|resp]; [discriminate|].
    destruct (jlookup resp "data") as [[| | | |items|]|]; try discriminate.
    injection H3 as <-. now apply fold_processResource_consistent. }
  destruct H4 as [->| ->]; [exact Hc3|].
  eapply enrichedNode_consistent; [apply EnrichVMs_structure|exact Hc3].
Qed.

Lemma built_guests_consistent_witness : guestsConsistent (Cluster.Nodes clusterS6).
Proof.
  apply (built_guests_consistent (X:=Scenario.env) agentReady clusterS6).
  left. vm_compute. reflexivity.
Defined.


(** ** The counters of a snapshot *)

(** X19.  In every cluster that [GetClusterStatus] or
    [FastGetClusterStatus] returns, the counter of online nodes is the number
    of nodes of the snapshot that are online, so it never exceeds the number
    of nodes listed; the version is taken from the first node that has one
    and is empty when no node has; both storage totals are those of the
    storage manager the cluster holds; and the time of the last update is the
    time at which the build started. *)
Theorem built_counters {X : Externals} (c : Client) (cluster : Cluster.t) :
  builtBy c cluster ->
  Cluster.OnlineNodes cluster
    = Z.of_nat (length (List.filter Node.Online (Cluster.Nodes cluster))) /\
  0 <= Cluster.OnlineNodes cluster <= Z.of_nat (length (Cluster.Nodes cluster)) /\
  Cluster.Version cluster
    = match firstVersion (Cluster.Nodes cluster) with
      | Some v => "Proxmox VE " +:+ v
      | None => ""
      end /\
  Cluster.StorageTotal cluster
    = StorageManager.GetTotalCapacity (Cluster.StorageManager cluster) /\
  Cluster.StorageUsed cluster
    = StorageManager.GetTotalUsage (Cluster.StorageManager cluster) /\
  Cluster.lastUpdate cluster = Now c.
Proof.
  intros Hb.
  destruct (built_phases c cluster Hb)
    as (cl1 & cl2 & cl3 & cl4 & H1 & H2 & H3 & H4 & ->).
  assert (forall {A : Type} (proj : Cluster.t -> A),
             (forall n q t x, proj (Cluster.set_identity n q t x) = proj x) ->
             (forall v x, proj (Cluster.set_Nodes v x) = proj x) ->
             (forall v x, proj (Cluster.set_StorageManager v x) = proj x) ->
             proj cl4 = proj (newCluster c)) as Hframe.
  { intros A proj Hi Hn Hs.
    rewrite <- (basicStatus_frame proj Hn c _ cl1 Hi H1).
    pose proof (enrichNodeStatuses_frame proj Hn c cl1) as E2. rewrite H2 in E2.
    cbn [fst] in E2. rewrite <- E2.
    rewrite <- (processClusterResources_frame proj Hn c cl2 cl3 Hs H3).
    destruct H4 as [->| ->]; [reflexivity|]. now apply EnrichVMs_frame. }
  assert (Cluster.OnlineNodes (calculateClusterTotals cl4)
          = Z.of_nat (length (List.filter Node.Online (Cluster.Nodes cl4)))) as Ho.
  { unfold calculateClusterTotals. cbn [Cluster.OnlineNodes].
    rewrite totalsStep_fold. cbn [Totals.onlineNodes]. lia. }
  split; [exact Ho|]. split.
  { rewrite Ho, calculateClusterTotals_Nodes.
    pose proof (List.filter_length_le Node.Online (Cluster.Nodes cl4)). lia. }
  split.
  { unfold calculateClusterTotals. cbn [Cluster.Version Cluster.Nodes].
    now rewrite (Hframe _ Cluster.Version) by reflexivity. }
  split; [reflexivity|]. split; [reflexivity|].
  unfold calculateClusterTotals. cbn [Cluster.lastUpdate].
  now rewrite (Hframe _ Cluster.lastUpdate) by reflexivity.
Qed.

Lemma built_counters_witness :
  Cluster.OnlineNodes clusterS6
    = Z.of_nat (length (List.filter Node.Online (Cluster.Nodes clusterS6))) /\
  0 <= Cluster.OnlineNodes clusterS6 <= Z.of_nat (length (Cluster.Nodes clusterS6)) /\
  Cluster.Version clusterS6
    = match firstVersion (Cluster.Nodes clusterS6) with
      | Some v => "Proxmox VE " +:+ v
      | None => ""
      end /\
  Cluster.StorageTotal clusterS6
    = StorageManager.GetTotalCapacity (Cluster.StorageManager clusterS6) /\
  Cluster.StorageUsed clusterS6
    = StorageManager.GetTotalUsage (Cluster.StorageManager clusterS6) /\
  Cluster.lastUpdate clusterS6 = Now agentReady.
Proof.
  apply (built_counters (X:=Scenario.env) agentReady clusterS6).
  left. vm_compute. reflexivity.
Defined.

(** ** The retry pass *)

Section retry.
Context {X : Externals}.

Lemma retryGuests_structure (c : Client) (vms : list VM.t) :
  Forall2 (retriedGuest c) vms (fst (retryGuests c vms)).
Proof.
  induction vms as [|vm rest IH]; cbn [retryGuests]; [constructor|].
  destruct (retryGuests c rest) as [rest' evs]. cbn [fst] in IH.
  destruct (needsRetry vm) eqn:En; cbn [fst]; (constructor; [|exact IH]).
  - split; [apply GetVmStatus_sameIdentity|]. split; [congruence|reflexivity].
  - split; [apply sameIdentity_refl|]. split; [reflexivity|congruence].
Qed.

Lemma retryNodes_structure (c : Client) (nodes : list Node.t) :
  Forall2 (retriedNode c) nodes (fst (retryNodes c nodes)).
Proof.
  induction nodes as [|node rest IH]; cbn [retryNodes]; [constructor|].
  destruct (retryNodes c rest) as [rest' evs]. cbn [fst] in IH.
  destruct (Node.Online node) eqn:Eo.
  - pose proof (retryGuests_structure c (Node.VMs node)) as Hg.
    destruct (retryGuests c (Node.VMs node)) as [vms evs0]. cbn [fst] in *.
    constructor; [|exact IH]. split; [reflexivity|]. split; [congruence|].
    intros _. exact Hg.
  - cbn [fst]. constructor; [|exact IH].
    split; [apply sameHost_refl|]. split; [reflexivity|congruence].
Qed.

(** The guests of the online nodes before and after the first pass. *)
Lemma enrichedNode_guestsOf (c : Client) (nodes nodes' : list Node.t) :
  Forall2 (enrichedNode c) nodes nodes' ->
  Forall2 (fun vm vm' => sameIdentity vm' vm) (guestsOf nodes) (guestsOf nodes').
Proof.
  unfold guestsOf.
  induction 1 as [|node node' rest rest' (Hh & Hoff & Hon) _ IH]; [constructor|].
  cbn [List.filter].
  assert (Node.Online node' = Node.Online node) as -> by now rewrite Hh.
  destruct (Node.Online node) eqn:Eo; [|exact IH].
  cbn [flat_map]. apply Forall2_app; [|exact IH].
  eapply Forall2_impl; [exact (Hon eq_refl)|]. now intros vm vm' [Hid _].
Qed.

Lemma retry_sublist (l l' : list VM.t) :
  Forall2 (fun vm vm' => sameIdentity vm' vm) l l' ->
  map callOf (List.filter needsRetry l') `sublist_of`
  map callOf (List.filter isRunning l).
Proof.
  induction 1 as [|vm vm' rest rest' Hid _ IH]; [constructor|].
  destruct Hid as (Hi & _ & Hn & _ & Hs & _).
  assert (isRunning vm' = isRunning vm) as Hr by (unfold isRunning; now rewrite Hs).
  assert (callOf vm' = callOf vm) as Hc by (unfold callOf; now rewrite Hi, Hn).
  cbn [List.filter]. destruct (needsRetry vm') eqn:En.
  - assert (isRunning vm = true) as ->.
    { rewrite <- Hr. unfold needsRetry in En.
      now destruct (isRunning vm'). }
    cbn [map]. rewrite Hc. now apply sublist_skip.
  - destruct (isRunning vm); [cbn [map]; now apply sublist_cons|exact IH].
Qed.

Lemma needsRetry_askedAgain (vm : VM.t) : needsRetry vm = true <-> askedAgain vm.
Proof.
  unfold needsRetry, askedAgain.
  rewrite !andb_true_iff, orb_true_iff, negb_true_iff, String.eqb_eq, Nat.eqb_eq.
  split.
  - intros [[[Hr Ht] Ha] [Hn|Hl]]; repeat split; auto.
    right. now destruct (VM.NetInterfaces vm).
  - intros (Hr & Ht & Ha & [Hn|Hl]); repeat split; auto. right. now rewrite Hl.
Qed.
End retry.

(** X20.  The retry pass of the background enrichment changes nothing but
    guests of online nodes that need it: every node is the node it was with
    another list of guests, an offline node is untouched, and a guest is
    either left as the first pass left it or, if it is a running QEMU guest
    whose agent is enabled and has not answered or has given no interface,
    it is as [GetVmStatus] leaves it, with its identity intact.  Every guest
    that is asked again was asked in the first pass, in the same order, and
    no container is asked again. *)
Theorem retry_pass {X : Externals} (c late : Client) (cluster : Cluster.t)
        (cb : option Callback) :
  let first := fst (fst (EnrichVMs c cluster)) in
  let final := fst (backgroundEnrichment c late cluster cb) in
  final = Cluster.set_Nodes (Cluster.Nodes final) first /\
  Forall2 (retriedNode late) (Cluster.Nodes first) (Cluster.Nodes final) /\
  snd (retryNodes late (Cluster.Nodes first)) `sublist_of` snd (EnrichVMs c cluster) /\
  (forall vm, needsRetry vm = true <-> askedAgain vm) /\
  (forall vm, VM.Type_ vm = VMTypeLXC -> needsRetry vm = false).
Proof.
  cbv zeta. unfold backgroundEnrichment.
  pose proof (EnrichVMs_structure c cluster) as Hs.
  rewrite EnrichVMs_trace, retryNodes_trace.
  destruct (EnrichVMs c cluster) as [[first err] evs]. cbn [fst] in *.
  pose proof (retryNodes_structure late (Cluster.Nodes first)) as Hr.
  destruct (retryNodes late (Cluster.Nodes first)) as [nodes retry]. cbn [fst] in *.
  split; [reflexivity|]. split; [exact Hr|].
  split; [apply retry_sublist, (enrichedNode_guestsOf c), Hs|].
  split; [apply needsRetry_askedAgain|].
  intros vm Hl. unfold needsRetry. rewrite Hl.
  change (String.eqb VMTypeLXC VMTypeQemu) with false.
  now rewrite andb_false_r.
Qed.

(** ** The guest list *)

Section guest_list.
Import VMList.

Lemma sort_Slice_tail (a : VM.t) (l : list VM.t) :
  (forall i j x y, (i < j)%nat -> (a :: l) !! i = Some x -> (a :: l) !! j = Some y ->
                   less y x = false) ->
  (forall x, x ∈ l -> less x a = false) /\
  (forall i j x y, (i < j)%nat -> l !! i = Some x -> l !! j = Some y -> less y x = false).
Proof.
  intros H. split.
  - intros x Hx. apply list_elem_of_lookup in Hx as [j Hj].
    apply (H O (S j) a x); [lia|reflexivity|exact Hj].
  - intros i j x y Hij Hi Hj. apply (H (S i) (S j) x y); [lia|exact Hi|exact Hj].
Qed.

Lemma ID_inj_NoDup (l : list VM.t) (a b : VM.t) :
  NoDup (map VM.ID l) -> a ∈ l -> b ∈ l -> VM.ID a = VM.ID b -> a = b.
Proof.
  induction l as [|x rest IH]; intros Hnd Ha Hb Hid.
  - now apply elem_of_nil in Ha.
  - cbn [map] in Hnd. apply NoDup_cons in Hnd as [Hx Hnd].
    apply elem_of_cons in Ha as [->|Ha]; apply elem_of_cons in Hb as [->|Hb].
    + reflexivity.
    + exfalso. apply Hx. rewrite Hid. now apply list_elem_of_fmap_2.
    + exfalso. apply Hx. rewrite <- Hid. now apply list_elem_of_fmap_2.
    + now apply IH.
Qed.

(** Two arrangements of guests with distinct IDs that both satisfy the
    contract of the sort are the same list. *)
Lemma sorted_unique (l1 l2 : list VM.t) :
  Permutation l1 l2 -> NoDup (map VM.ID l1) ->
  (forall i j x y, (i < j)%nat -> l1 !! i = Some x -> l1 !! j = Some y -> less y x = false) ->
  (forall i j x y, (i < j)%nat -> l2 !! i = Some x -> l2 !! j = Some y -> less y x = false) ->
  l1 = l2.
Proof.
  revert l2. induction l1 as [|a r1 IH]; intros l2 Hp Hnd H1 H2.
  - now apply Permutation_nil in Hp.
  - destruct l2 as [|b r2]; [now apply Permutation_sym, Permutation_nil in Hp|].
    apply sort_Slice_tail in H1 as [Ha H1]. apply sort_Slice_tail in H2 as [Hb H2].
    assert (a ∈ b :: r2) as Hab by (rewrite <- Hp; left).
    assert (b ∈ a :: r1) as Hba by (rewrite Hp; left).
    assert (a = b) as <-.
    { destruct (decide (VM.ID a = VM.ID b)) as [Hid|Hne].
      - apply (ID_inj_NoDup (a :: r1)); [exact Hnd|left|exact Hba|exact Hid].
      - exfalso. apply Hne.
        apply elem_of_cons in Hab as [->|Hab]; [reflexivity|].
        apply elem_of_cons in Hba as [->|Hba]; [reflexivity|].
        specialize (Ha b Hba). specialize (Hb a Hab).
        apply VMListFacts.not_less_spec in Ha, Hb. lia. }
    f_equal. apply IH.
    + now apply Permutation_cons_inv in Hp.
    + cbn [map] in Hnd. now apply NoDup_cons in Hnd.
    + exact H1.
    + exact H2.
Qed.
End guest_list.

(** X21.  For guests with distinct IDs the list after [SetVMs] is fully
    determined: it does not depend on the order in which the guests are
    passed nor on which arrangement the sort picks among those its contract
    allows.  Two calls with the same guests in any order end in the same
    items and the same slice. *)
Theorem SetVMs_unique (input input' : list VM.t) (vl vl' : VMList.t) :
  NoDup (map VM.ID input) -> Permutation input input' ->
  VMList.SetVMs input vl -> VMList.SetVMs input' vl' -> vl = vl'.
Proof.
  intros Hnd Hp [sorted [Hp1 Hs1]] [sorted' [Hp2 Hs2]].
  assert (sorted = sorted') as ->; [|reflexivity].
  apply sorted_unique.
  - now rewrite <- Hp1, Hp, Hp2.
  - now rewrite <- Hp1.
  - exact Hs1.
  - exact Hs2.
Qed.

Lemma SetVMs_unique_witness :
  VMList.SetVMs_run guestList = VMList.SetVMs_run (rev guestList).
Proof.
  apply (SetVMs_unique guestList (rev guestList)).
  - apply (bool_decide_unpack _). vm_compute. exact I.
  - apply Permutation_rev.
  - apply VMListFacts.SetVMs_run_ok.
  - apply VMListFacts.SetVMs_run_ok.
Defined.

(** X22.  After [SetVMs], [GetSelectedVM] resolves the widget's current
    item against the sorted slice: it returns nil exactly when the index is
    outside the list, and otherwise a guest of the input whose row stands at
    that index.  The guest at index 0, which [SetVMs] selects, is one that no
    other guest precedes: a running guest if any guest is running, and of
    the least ID in its group. *)
Theorem GetSelectedVM_row (input : list VM.t) (vl : VMList.t) (idx : Z) :
  VMList.SetVMs input vl ->
  (GetSelectedVM vl idx = None <-> idx < 0 \/ Z.of_nat (length input) <= idx) /\
  (forall vm, GetSelectedVM vl idx = Some vm ->
     vm ∈ input /\ VMList.items vl !! Z.to_nat idx = Some (VMList.rowOf vm)) /\
  (forall vm other, GetSelectedVM vl 0 = Some vm -> other ∈ input ->
     VMList.group vm < VMList.group other \/
     (VMList.group vm = VMList.group other /\ VM.ID vm <= VM.ID other)).
Proof.
  intros [sorted [Hp Hs]]. unfold GetSelectedVM. cbn [VMList.vms VMList.items].
  rewrite (Permutation_length Hp). split; [|split].
  - destruct (0 <=? idx) eqn:E0; destruct (idx <? Z.of_nat (length sorted)) eqn:E1;
      cbn [andb]; try (split; [intros _|reflexivity]; lia).
    apply Z.leb_le in E0. apply Z.ltb_lt in E1. split; [|lia].
    intros Hnone. apply lookup_ge_None in Hnone. lia.
  - intros vm. destruct ((0 <=? idx) && _); [|discriminate]. intros Hvm. split.
    + rewrite Hp. now apply list_elem_of_lookup_2 in Hvm.
    + now rewrite list_lookup_fmap, Hvm.
  - intros vm other. destruct (_ && _); [|discriminate].
    intros Hvm Hother. change (Z.to_nat 0) with O in Hvm.
    apply VMListFacts.not_less_spec.
    rewrite Hp in Hother. apply list_elem_of_lookup in Hother as [j Hj].
    destruct j as [|j].
    + assert (other = vm) as -> by congruence.
      unfold VMList.less. destruct (isRunning vm); cbn; apply Z.ltb_irrefl.
    + apply (Hs O (S j) vm other); [lia|exact Hvm|exact Hj].
Qed.

Lemma GetSelectedVM_row_witness :
  (GetSelectedVM (VMList.SetVMs_run guestList) 0 = None <->
   0 < 0 \/ Z.of_nat (length guestList) <= 0) /\
  (forall vm, GetSelectedVM (VMList.SetVMs_run guestList) 0 = Some vm ->
     vm ∈ guestList /\
     VMList.items (VMList.SetVMs_run guestList) !! Z.to_nat 0 = Some (VMList.rowOf vm)) /\
  (forall vm other, GetSelectedVM (VMList.SetVMs_run guestList) 0 = Some vm ->
     other ∈ guestList ->
     VMList.group vm < VMList.group other \/
     (VMList.group vm = VMList.group other /\ VM.ID vm <= VM.ID other)).
Proof.
  apply (GetSelectedVM_row guestList (VMList.SetVMs_run guestList) 0).
  apply VMListFacts.SetVMs_run_ok.
Defined.
